(** * Shorts worker: a shallow embedding of the four-stage media pipeline

    The development follows the Python sources file by file:
    - [services/downloader.py]   (class VideoDownloader),
    - [services/intelligence.py] (class AIProcessor),
    - [services/editor.py]       (class VideoEditor),
    - [services/uploader.py]     (class DriveUploader),
    - [services/config.py]       (the earlier single-file worker:
                                  [upload_to_drive] and its endpoint),
    - [main.py]                  (the orchestrator endpoint and cleanup).

    Python values that come from JSON or travel in result dictionaries are
    kept dynamically typed ([pyval]); exceptions, [try]/[except]/[finally]
    and the local variables read by a [finally] block are modelled by a small
    state-and-exception monad; everything that lives outside the process
    (yt-dlp, ffprobe/ffmpeg, the inference service, the storage service, the
    file system) is a field of [Collaborators] or of the mutable [World]. *)

From stdpp Require Import gmap strings list fin_maps.
From Stdlib Require Import Ascii ZArith QArith.

Set Warnings "-register-all".
Local Open Scope string_scope.
Local Open Scope Z_scope.
Local Open Scope list_scope.

(** ** Python values *)

Inductive pyval : Type :=
  | PNone
  | PBool (b : bool)
  | PInt (z : Z)
  | PStr (s : string)
  | PList (l : list pyval)
  | PDict (d : list (string * pyval)).

(** A [dict] keeps its items in insertion order, as Python does. *)
Abbreviation dict := (list (string * pyval)).

Fixpoint dict_lookup (d : dict) (k : string) : option pyval :=
  match d with
  | [] => None
  | (k', v) :: d' => if String.eqb k' k then Some v else dict_lookup d' k
  end.

(** [d.get(k)] and [d.get(k, dflt)] *)
Definition dict_get (d : dict) (k : string) : pyval :=
  default PNone (dict_lookup d k).

Definition dict_get_or (d : dict) (k : string) (dflt : pyval) : pyval :=
  default dflt (dict_lookup d k).

(** Truth value of an object, as tested by [if x], [not x] and [all]. *)
Definition truthy (v : pyval) : bool :=
  match v with
  | PNone => false
  | PBool b => b
  | PInt z => negb (z =? 0)
  | PStr s => negb (String.eqb s "")
  | PList l => match l with [] => false | _ => true end
  | PDict d => match d with [] => false | _ => true end
  end.

(** [v == "literal"] *)
Definition eq_str (v : pyval) (s : string) : bool :=
  match v with
  | PStr t => String.eqb t s
  | _ => false
  end.

(** [os.getenv] yields a string or [None]. *)
Definition of_getenv (o : option string) : pyval :=
  match o with
  | Some s => PStr s
  | None => PNone
  end.

(** ** Exceptions *)

Inductive exc_class : Type :=
  | Exception
  | ValueError
  | KeyError
  | IndexError
  | TypeError
  | AttributeError
  | OSError
  | FileNotFoundError
  | PermissionError
  | IsADirectoryError
  | FileExistsError
  | CalledProcessError
  | HTTPException (status_code : Z).

(** An exception object; [exn_msg] is what [str(e)] returns (for an
    [HTTPException] it is the [detail]). *)
Record exn : Type := Exn { exn_class : exc_class; exn_msg : string }.

Definition is_CalledProcessError (e : exn) : bool :=
  match exn_class e with
  | CalledProcessError => true
  | _ => false
  end.

(** ** The media tool's filter expressions ([services/editor.py])

    The crop filter is handed to ffmpeg as text.  To say what the text
    computes, the expressions are given as syntax trees whose printed form
    is the text in the source, with the arithmetic of the tool's expression
    evaluator (exact on rationals: every value met here is a dyadic rational
    far below 2^53, so the tool's doubles carry it without rounding). *)

Inductive fexpr : Type :=
  | FVar (x : string)
  | FNum (n : Z)
  | FMul (a b : fexpr)
  | FDiv (a b : fexpr)
  | FSub (a b : fexpr)
  | FParen (a : fexpr)
  | FTrunc (a : fexpr).

Fixpoint digits_of (fuel : nat) (n : Z) (acc : string) : string :=
  match fuel with
  | O => acc
  | S fuel' =>
      let acc' := String (Ascii.ascii_of_nat (48 + Z.to_nat (n mod 10))%nat) acc in
      if n / 10 =? 0 then acc' else digits_of fuel' (n / 10) acc'
  end.

(** Decimal text of a non-negative integer. *)
Definition show_Z (n : Z) : string := digits_of (S (Z.to_nat n)) n "".

Fixpoint show_fexpr (e : fexpr) : string :=
  match e with
  | FVar x => x
  | FNum n => show_Z n
  | FMul a b => show_fexpr a +:+ "*" +:+ show_fexpr b
  | FDiv a b => show_fexpr a +:+ "/" +:+ show_fexpr b
  | FSub a b => show_fexpr a +:+ "-" +:+ show_fexpr b
  | FParen a => "(" +:+ show_fexpr a +:+ ")"
  | FTrunc a => "trunc(" +:+ show_fexpr a +:+ ")"
  end.

(** Rounding toward zero. *)
Definition Qtrunc (q : Q) : Z := Z.quot (Qnum q) (Zpos (Qden q)).

Fixpoint feval (env : string → option Q) (e : fexpr) : option Q :=
  match e with
  | FVar x => env x
  | FNum n => Some (inject_Z n)
  | FMul a b => a' ← feval env a; b' ← feval env b; Some (Qred (Qmult a' b'))
  | FDiv a b =>
      a' ← feval env a; b' ← feval env b;
      if Qeq_bool b' 0 then None else Some (Qred (Qdiv a' b'))
  | FSub a b => a' ← feval env a; b' ← feval env b; Some (Qred (Qminus a' b'))
  | FParen a => feval env a
  | FTrunc a => a' ← feval env a; Some (inject_Z (Qtrunc a'))
  end.

(** The four arguments [w:h:x:y] of a [crop] filter. *)
Record crop : Type := Crop { crop_w : fexpr; crop_h : fexpr; crop_x : fexpr; crop_y : fexpr }.

Definition show_crop (c : crop) : string :=
  "crop=" +:+ show_fexpr (crop_w c) +:+ ":" +:+ show_fexpr (crop_h c) +:+ ":"
          +:+ show_fexpr (crop_x c) +:+ ":" +:+ show_fexpr (crop_y c).

(** [trunc(ih*9/16/2)*2 : ih : (iw-ow)/2 : 0] *)
Definition center_crop : crop :=
  {| crop_w := FMul (FTrunc (FDiv (FDiv (FMul (FVar "ih") (FNum 9)) (FNum 16)) (FNum 2))) (FNum 2);
     crop_h := FVar "ih";
     crop_x := FDiv (FParen (FSub (FVar "iw") (FVar "ow"))) (FNum 2);
     crop_y := FNum 0 |}.

(** The literal of [process_video], line 84 of the source file. *)
Definition crop_filter : string := "crop=trunc(ih*9/16/2)*2:ih:(iw-ow)/2:0".

(** The tool binds [iw], [ih] to the input size, evaluates the output width
    first and then makes it available as [ow] to the offsets. *)
Definition crop_env (iw ih : Z) (ow : option Q) (x : string) : option Q :=
  if String.eqb x "iw" then Some (inject_Z iw)
  else if String.eqb x "ih" then Some (inject_Z ih)
  else if String.eqb x "ow" then ow
  else None.

Definition crop_width (c : crop) (iw ih : Z) : option Q :=
  feval (crop_env iw ih None) (crop_w c).

Definition crop_offset (c : crop) (iw ih : Z) : option Q :=
  feval (crop_env iw ih (crop_width c iw ih)) (crop_x c).

(** ** The retrieval tool's format selector ([services/downloader.py])

    The [format] option is text in yt-dlp's selector language.  As for the
    crop filter, the selector is a syntax tree that prints to the text of the
    source; its meaning follows the tool's manual: [a/b] takes the first
    alternative that selects something, [a+b] merges the formats both sides
    select and fails when either side selects nothing, [best] is the best
    format with video and audio, [bestvideo] ([bestaudio]) the best
    video-only (audio-only) format, and a filter in brackets drops the formats
    that do not satisfy it, a format of unknown height included.  The tool
    lists the available formats from worst to best. *)

Record format : Type := Format {
  f_id : string;
  f_ext : string;
  f_height : option Z;
  f_video : bool;
  f_audio : bool
}.

Inductive fkind : Type := Best | BestVideo | BestAudio.

Inductive ffilter : Type :=
  | HeightLe (n : Z)
  | ExtEq (e : string).

Record atom : Type := Atom { a_kind : fkind; a_filters : list ffilter }.

(** alternatives ([/]) of merges ([+]) of atoms *)
Abbreviation selector := (list (list atom)).

Definition show_fkind (k : fkind) : string :=
  match k with
  | Best => "best"
  | BestVideo => "bestvideo"
  | BestAudio => "bestaudio"
  end.

Definition show_ffilter (f : ffilter) : string :=
  match f with
  | HeightLe n => "[height<=" +:+ show_Z n +:+ "]"
  | ExtEq e => "[ext=" +:+ e +:+ "]"
  end.

Definition show_atom (a : atom) : string :=
  show_fkind (a_kind a) +:+ String.concat "" (show_ffilter <$> a_filters a).

Definition show_selector (s : selector) : string :=
  String.concat "/" ((λ m, String.concat "+" (show_atom <$> m)) <$> s).

Definition kind_ok (k : fkind) (f : format) : bool :=
  match k with
  | Best => f_video f && f_audio f
  | BestVideo => f_video f && negb (f_audio f)
  | BestAudio => f_audio f && negb (f_video f)
  end.

Definition filter_ok (flt : ffilter) (f : format) : bool :=
  match flt with
  | HeightLe n =>
      match f_height f with
      | Some h => h <=? n
      | None => false
      end
  | ExtEq e => String.eqb (f_ext f) e
  end.

Definition atom_ok (a : atom) (f : format) : bool :=
  kind_ok (a_kind a) f && forallb (λ flt, filter_ok flt f) (a_filters a).

(** the best format an atom admits: the last one in the worst-to-best list *)
Definition pick (a : atom) (fs : list format) : option format :=
  last (List.filter (atom_ok a) fs).

Definition select_merge (m : list atom) (fs : list format) : option (list format) :=
  mapM (λ a, pick a fs) m.

Fixpoint select_format (s : selector) (fs : list format) : option (list format) :=
  match s with
  | [] => None
  | m :: s' =>
      match select_merge m fs with
      | Some sel => Some sel
      | None => select_format s' fs
      end
  end.

(** [bestvideo[height<=1080][ext=mp4]+bestaudio[ext=m4a]] *)
Definition preferred : list atom :=
  [ Atom BestVideo [HeightLe 1080; ExtEq "mp4"]; Atom BestAudio [ExtEq "m4a"] ].

Definition download_selector : selector :=
  [ preferred; [ Atom Best [ExtEq "mp4"] ]; [ Atom Best [] ] ].

(** The literal of [download_video], line 29 of the source file. *)
Definition download_format : string :=
  "bestvideo[height<=1080][ext=mp4]+bestaudio[ext=m4a]/best[ext=mp4]/best".

(** The vertical resolution of a selection is that of its tallest stream
    carrying video. *)
Definition exceeds (ceiling : Z) (sel : list format) : bool :=
  existsb (λ f, f_video f &&
                match f_height f with
                | Some h => ceiling <? h
                | None => false
                end) sel.

(** ** The world outside the process *)

(** Local storage maps a path to what is there. *)
Inductive entry : Type := File | Dir.

#[global] Instance entry_eq_dec : EqDecision entry.
Proof. solve_decision. Defined.

Inductive level : Type := INFO | WARNING | ERROR.

(** A file handle of the inference service: [video_file.name] and
    [video_file.state.name]. *)
Record genai_file : Type := GenaiFile { gf_name : string; gf_state : string }.

(** An object of the storage service: the metadata it was created with and
    the permission bodies granted on it since. *)
Record drive_object : Type := DriveObject { o_body : dict; o_permissions : list dict }.

(** What an outside call gives back: a value, or an exception raised. *)
Inductive result (A : Type) : Type :=
  | Ok (a : A)
  | Err (e : exn).
Arguments Ok {A} a.
Arguments Err {A} e.

Record World : Type := mkWorld {
  w_environ : gmap string string;       (* os.environ *)
  w_fs : gmap string entry;             (* local storage *)
  w_protected : gset string;            (* paths the process may not create or remove *)
  w_uuids : nat;                        (* uuid4 draws so far *)
  w_polls : nat;                        (* get_file requests so far *)
  w_log : list (level * string);        (* records emitted by the loggers *)
  w_spawned : list (list string);       (* commands run by subprocess.run *)
  w_genai : gset string;                (* files held by the inference service *)
  w_drive : gmap string drive_object    (* objects held by the storage service *)
}.

Definition set_fs (f : gmap string entry → gmap string entry) (w : World) : World :=
  mkWorld (w_environ w) (f (w_fs w)) (w_protected w) (w_uuids w) (w_polls w)
          (w_log w) (w_spawned w) (w_genai w) (w_drive w).
Definition set_uuids (f : nat → nat) (w : World) : World :=
  mkWorld (w_environ w) (w_fs w) (w_protected w) (f (w_uuids w)) (w_polls w)
          (w_log w) (w_spawned w) (w_genai w) (w_drive w).
Definition set_polls (f : nat → nat) (w : World) : World :=
  mkWorld (w_environ w) (w_fs w) (w_protected w) (w_uuids w) (f (w_polls w))
          (w_log w) (w_spawned w) (w_genai w) (w_drive w).
Definition set_log (f : list (level * string) → list (level * string)) (w : World) : World :=
  mkWorld (w_environ w) (w_fs w) (w_protected w) (w_uuids w) (w_polls w)
          (f (w_log w)) (w_spawned w) (w_genai w) (w_drive w).
Definition set_spawned (f : list (list string) → list (list string)) (w : World) : World :=
  mkWorld (w_environ w) (w_fs w) (w_protected w) (w_uuids w) (w_polls w)
          (w_log w) (f (w_spawned w)) (w_genai w) (w_drive w).
Definition set_genai (f : gset string → gset string) (w : World) : World :=
  mkWorld (w_environ w) (w_fs w) (w_protected w) (w_uuids w) (w_polls w)
          (w_log w) (w_spawned w) (f (w_genai w)) (w_drive w).
Definition set_drive (f : gmap string drive_object → gmap string drive_object) (w : World) : World :=
  mkWorld (w_environ w) (w_fs w) (w_protected w) (w_uuids w) (w_polls w)
          (w_log w) (w_spawned w) (w_genai w) (f (w_drive w)).

(** The answers of everything the process calls but does not contain.  They
    are arbitrary: no theorem below assumes anything about them beyond what
    its statement says.

    An answer is a value or an exception.  A call that blocks for ever is
    not among the answers: only the polling loop of the Analyzer is given a
    way not to come back.  What a collaborator does inside itself is not
    recorded either: [w_spawned] lists the commands that the process hands
    to [subprocess.run], not those that yt-dlp runs to merge two streams. *)
Record Collaborators : Type := {
  (* Python runtime *)
  uuid4 : nat → string;                          (* str(uuid.uuid4()), by draw *)
  py_repr : pyval → string;                      (* text of a list or dict in an f-string *)
  int_of_str : string → result Z;                (* int(s) *)
  json_loads : string → result pyval;
  fd_exists : Z → bool;                          (* os.path.exists on a descriptor *)
  (* yt-dlp: YoutubeDL(opts).extract_info(url, download=True), prepare_filename *)
  extract_info : dict → string → gmap string entry → result dict * gmap string entry;
  prepare_filename : dict → dict → result string;
  (* subprocess.run(cmd, capture_output=.., check=True): stdout, or the exception *)
  subprocess_run : list string → gmap string entry → result string * gmap string entry;
  (* google.generativeai *)
  genai_upload_file : string → result genai_file;
  genai_get_file : string → nat → result genai_file;
  genai_generate_content : string → genai_file → string → result string;
  genai_delete_file : string → result unit;
  (* googleapiclient *)
  (* Credentials(None, refresh_token=.., client_id=.., client_secret=..) and
     build('drive', 'v3', credentials=creds): the two objects are made from
     the refresh token, the client id and the secret; no token is asked for *)
  drive_build : pyval → pyval → pyval → result unit;
  service_account_build : result unit;
  media_file_upload : string → result unit;
  (* files().create(body=.., media_body=.., fields=..).execute(): the first
     request of the client, for which the access token is fetched; gives the
     id and the webViewLink *)
  drive_files_create : dict → string → result (string * string);
  drive_permissions_create : pyval → dict → result unit
}.

(** ** Statements, exceptions and local variables

    A computation runs in a frame [L] of local variables (only those a
    handler or a [finally] block reads back are kept there) and in the
    [World].  It returns, raises, or never comes back ([Diverge], the
    polling loop out of fuel). *)

Inductive outcome (A : Type) : Type :=
  | Ret (a : A)
  | Raise (e : exn)
  | Diverge.
Arguments Ret {A} a.
Arguments Raise {A} e.
Arguments Diverge {A}.

Definition M (L A : Type) : Type := L → World → outcome A * L * World.

Definition ret {L A} (a : A) : M L A := λ l w, (Ret a, l, w).

Definition bind {L A B} (m : M L A) (k : A → M L B) : M L B :=
  λ l w,
    match m l w with
    | (Ret a, l', w') => k a l' w'
    | (Raise e, l', w') => (Raise e, l', w')
    | (Diverge, l', w') => (Diverge, l', w')
    end.

(** stdpp's monad notations: [x ← m; k] and [m ;; k] *)
#[global] Instance M_ret {L} : MRet (M L) := λ A a, ret a.
#[global] Instance M_bind {L} : MBind (M L) := λ A B k m, bind m k.

Definition raise {L A} (e : exn) : M L A := λ l w, (Raise e, l, w).
Definition diverge {L A} : M L A := λ l w, (Diverge, l, w).

Definition get_world {L} : M L World := λ l w, (Ret w, l, w).
Definition modify_world {L} (f : World → World) : M L unit := λ l w, (Ret tt, l, f w).
Definition get_local {L} : M L L := λ l w, (Ret l, l, w).
Definition modify_local {L} (f : L → L) : M L unit := λ l w, (Ret tt, f l, w).

(** an outside call's answer becomes a return or a raise *)
Definition lift {L A} (r : result A) : M L A :=
  match r with
  | Ok a => ret a
  | Err e => raise e
  end.

(** [try: m  except Exception as e: h e] *)
Definition try_except {L A} (m : M L A) (h : exn → M L A) : M L A :=
  λ l w,
    match m l w with
    | (Raise e, l', w') => h e l' w'
    | r => r
    end.

(** [try: m  finally: fin]; an exception of [fin] replaces the outcome of [m] *)
Definition try_finally {L A} (m : M L A) (fin : M L unit) : M L A :=
  λ l w,
    match m l w with
    | (Diverge, l', w') => (Diverge, l', w')
    | (o, l', w') =>
        match fin l' w' with
        | (Ret _, l'', w'') => (o, l'', w'')
        | (Raise e, l'', w'') => (Raise e, l'', w'')
        | (Diverge, l'', w'') => (Diverge, l'', w'')
        end
    end.

(** A call runs the callee in a frame of its own, which is dropped when the
    callee is left; the caller's frame is as it was. *)
Definition call {L L' A} (init : L') (m : M L' A) : M L A :=
  λ l w, let '(o, _, w') := m init w in (o, l, w').

Fixpoint for_each {L A} (xs : list A) (body : A → M L unit) : M L unit :=
  match xs with
  | [] => ret tt
  | x :: xs' => body x;; for_each xs' body
  end.

Definition log {L} (lv : level) (msg : string) : M L unit :=
  modify_world (set_log (λ rs, rs ++ [(lv, msg)])).

(** ** Strings and paths *)

Definition show_int (z : Z) : string :=
  if z <? 0 then "-" +:+ show_Z (- z) else show_Z z.

Fixpoint ends_with_slash (s : string) : bool :=
  match s with
  | EmptyString => false
  | String c EmptyString => Ascii.eqb c "/"%char
  | String _ s' => ends_with_slash s'
  end.

(** [os.path.join(a, b)] *)
Definition path_join (a b : string) : string :=
  if String.prefix "/" b then b
  else if String.eqb a "" || ends_with_slash a then a +:+ b
  else a +:+ "/" +:+ b.

Fixpoint has_slash (s : string) : bool :=
  match s with
  | EmptyString => false
  | String c s' => Ascii.eqb c "/"%char || has_slash s'
  end.

(** [os.path.basename(p)] on a string *)
Fixpoint basename (s : string) : string :=
  match s with
  | EmptyString => ""
  | String c s' => if Ascii.eqb c "/"%char || has_slash s' then basename s' else s
  end.

Definition as_str (v : pyval) : option string :=
  match v with
  | PStr s => Some s
  | _ => None
  end.

(** the strings of a list all of whose items are [str] *)
Definition as_strs (vs : list pyval) : option (list string) := mapM as_str vs.

Section Runtime.

Context (X : Collaborators).
Context {L : Type}.

(** [str(v)], the text of [{v}] in an f-string *)
Definition py_str (v : pyval) : string :=
  match v with
  | PStr s => s
  | PNone => "None"
  | PBool true => "True"
  | PBool false => "False"
  | PInt z => show_int z
  | _ => py_repr X v
  end.

(** [d[k]] on a dict *)
Definition dict_item (d : dict) (k : string) : M L pyval :=
  match dict_lookup d k with
  | Some v => ret v
  | None => raise (Exn KeyError ("'" +:+ k +:+ "'"))
  end.

(** [v[k]] with a string key, on any object *)
Definition py_item (v : pyval) (k : string) : M L pyval :=
  match v with
  | PDict d => dict_item d k
  | PList _ => raise (Exn TypeError "list indices must be integers or slices, not str")
  | PStr _ => raise (Exn TypeError "string indices must be integers, not 'str'")
  | _ => raise (Exn TypeError "object is not subscriptable")
  end.

(** [v[i]] with a non-negative integer index *)
Definition py_index (v : pyval) (i : nat) : M L pyval :=
  match v with
  | PList l =>
      match l !! i with
      | Some x => ret x
      | None => raise (Exn IndexError "list index out of range")
      end
  | PStr s =>
      match String.get i s with
      | Some c => ret (PStr (String c ""))
      | None => raise (Exn IndexError "string index out of range")
      end
  | PDict _ => raise (Exn KeyError (show_int (Z.of_nat i)))
  | _ => raise (Exn TypeError "object is not subscriptable")
  end.

(** [v.get(k, dflt)] *)
Definition py_get (v : pyval) (k : string) (dflt : pyval) : M L pyval :=
  match v with
  | PDict d => ret (dict_get_or d k dflt)
  | _ => raise (Exn AttributeError "object has no attribute 'get'")
  end.

(** [int(v)] *)
Definition py_int (v : pyval) : M L Z :=
  match v with
  | PInt z => ret z
  | PBool b => ret (if b then 1 else 0)
  | PStr s => lift (int_of_str X s)
  | _ => raise (Exn TypeError "int() argument must be a string, a bytes-like object or a real number")
  end.

(** [' '.join(items)] *)
Definition join_space (items : list pyval) : M L string :=
  match as_strs items with
  | Some ss => ret (String.concat " " ss)
  | None => raise (Exn TypeError "sequence item: expected str instance")
  end.

(** [str(uuid.uuid4())] *)
Definition uuid4_str : M L string :=
  w ← get_world;
  modify_world (set_uuids S);;
  ret (uuid4 X (w_uuids w)).

(** [os.path.exists(p)]: a string is looked up in local storage, an integer
    is taken for an open descriptor, anything else is refused. *)
Definition os_path_exists (p : pyval) : M L bool :=
  match p with
  | PStr s => w ← get_world; ret (bool_decide (is_Some (w_fs w !! s)))
  | PInt n => ret (fd_exists X n)
  | PBool b => ret (fd_exists X (if b then 1 else 0))
  | _ => raise (Exn TypeError "stat: path should be string, bytes, os.PathLike or integer")
  end.

(** [os.remove(p)] *)
Definition os_remove (p : pyval) : M L unit :=
  match p with
  | PStr s =>
      w ← get_world;
      match w_fs w !! s with
      | None => raise (Exn FileNotFoundError ("[Errno 2] No such file or directory: '" +:+ s +:+ "'"))
      | Some Dir => raise (Exn IsADirectoryError ("[Errno 21] Is a directory: '" +:+ s +:+ "'"))
      | Some File =>
          if bool_decide (s ∈ w_protected w)
          then raise (Exn PermissionError ("[Errno 13] Permission denied: '" +:+ s +:+ "'"))
          else modify_world (set_fs (delete s))
      end
  | _ => raise (Exn TypeError "remove: path should be string, bytes or os.PathLike")
  end.

(** [os.makedirs(d)] for a one-component directory name *)
Definition os_makedirs (d : string) : M L unit :=
  w ← get_world;
  match w_fs w !! d with
  | Some _ => raise (Exn FileExistsError ("[Errno 17] File exists: '" +:+ d +:+ "'"))
  | None =>
      if bool_decide (d ∈ w_protected w)
      then raise (Exn PermissionError ("[Errno 13] Permission denied: '" +:+ d +:+ "'"))
      else modify_world (set_fs (insert d Dir))
  end.

(** [subprocess.run(cmd, check=True)]: the command is recorded, the tool
    acts on local storage, and its standard output or its exception comes
    back. *)
Definition run_subprocess (cmd : list pyval) : M L string :=
  match as_strs cmd with
  | None => raise (Exn TypeError "expected str, bytes or os.PathLike object")
  | Some args =>
      w ← get_world;
      let '(r, fs') := subprocess_run X args (w_fs w) in
      modify_world (set_spawned (λ cs, cs ++ [args]));;
      modify_world (set_fs (λ _, fs'));;
      lift r
  end.

End Runtime.

(** ** [services/downloader.py] *)

Module VideoDownloader.
Section Methods.
Context (X : Collaborators).

Record self : Type := Self { download_dir : string }.

(** [__init__(self, download_dir="downloads")] *)
Definition __init__ (download_dir : string) : M unit self :=
  present ← os_path_exists X (PStr download_dir);
  (if negb present then os_makedirs download_dir else ret tt);;
  ret (Self download_dir).

(** [download_video(self, video_url)] *)
Definition download_video (s : self) (video_url : string) : M unit dict :=
  try_except
    (unique_id ← uuid4_str X;
     let output_template := path_join (download_dir s) (unique_id +:+ ".%(ext)s") in
     let ydl_opts : dict :=
       [ ("format", PStr download_format);
         ("outtmpl", PStr output_template);
         ("quiet", PBool true);
         ("no_warnings", PBool true) ] in
     log INFO ("Starting download for URL: " +:+ video_url);;
     w ← get_world;
     let '(r, fs') := extract_info X ydl_opts video_url (w_fs w) in
     modify_world (set_fs (λ _, fs'));;
     info_dict ← lift r;
     filename ← lift (prepare_filename X ydl_opts info_dict);
     let video_title := dict_get_or info_dict "title" (PStr "Unknown Title") in
     let duration := dict_get_or info_dict "duration" (PInt 0) in
     log INFO ("Download successful: " +:+ filename);;
     ret [ ("status", PStr "success");
           ("file_path", PStr filename);
           ("title", video_title);
           ("duration", duration);
           ("video_id", dict_get info_dict "id") ])
    (λ e,
      log ERROR ("Download failed: " +:+ exn_msg e);;
      ret [ ("status", PStr "error"); ("message", PStr (exn_msg e)) ]).

End Methods.
End VideoDownloader.

(** ** [services/intelligence.py] *)

Module AIProcessor.
Section Methods.
Context (X : Collaborators).

Record self : Type := Self { model_name : string; response_mime_type : string }.

(** [__init__(self, api_key)] *)
Definition __init__ (api_key : pyval) : M unit self :=
  if negb (truthy api_key)
  then raise (Exn ValueError "API Key is required for AIProcessor")
  else ret (Self "gemini-2.5-flash" "application/json").

(** [genai.upload_file(path=..)]: the service now holds a copy *)
Definition genai_upload (path : pyval) : M unit genai_file :=
  match path with
  | PStr p =>
      f ← lift (genai_upload_file X p);
      modify_world (set_genai (λ held, {[gf_name f]} ∪ held));;
      ret f
  | _ => raise (Exn TypeError "expected str, bytes or os.PathLike object")
  end.

(** [genai.get_file(name)] *)
Definition genai_get (name : string) : M unit genai_file :=
  w ← get_world;
  modify_world (set_polls S);;
  lift (genai_get_file X name (w_polls w)).

(** [genai.delete_file(name)]: the copy is gone when the request succeeds *)
Definition genai_delete (name : string) : M unit unit :=
  lift (genai_delete_file X name);;
  modify_world (set_genai (λ held, held ∖ {[name]})).

(** The loop [while video_file.state.name == "PROCESSING": ...] of
    [upload_file]; [fuel] bounds the number of rounds ([time.sleep(2)]
    changes nothing that is modelled). *)
Fixpoint wait_processing (fuel : nat) (video_file : genai_file) : M unit genai_file :=
  if String.eqb (gf_state video_file) "PROCESSING" then
    match fuel with
    | O => diverge
    | S fuel' =>
        log INFO "Waiting for video to process...";;
        video_file' ← genai_get (gf_name video_file);
        wait_processing fuel' video_file'
    end
  else ret video_file.

(** [upload_file(self, file_path)] *)
Definition upload_file (fuel : nat) (s : self) (file_path : pyval) : M unit genai_file :=
  log INFO ("Uploading file to Gemini: " +:+ py_str X file_path);;
  try_except
    (video_file ← genai_upload file_path;
     video_file ← wait_processing fuel video_file;
     if String.eqb (gf_state video_file) "FAILED"
     then raise (Exn ValueError "Video processing failed on Google servers.")
     else
       log INFO ("Video ready: " +:+ gf_name video_file);;
       ret video_file)
    (λ e,
      log ERROR ("Upload failed: " +:+ exn_msg e);;
      raise e).

Definition prompt : string :=
  "You are an expert video editor for viral YouTube Shorts. " +:+
  "Analyze this video and identify the single most engaging, contiguous segment " +:+
  "that is BETWEEN 60 - 90 SECONDS long. " +:+
  "The segment must stand alone and make sense without context. " +:+
  "Prioritize high energy, emotional moments, or clear punchlines. " +:+
  "Return the start and end timestamps in strictly 'HH:MM:SS' format.".

(** [get_timestamps(self, file_path)]; its frame is the local variable
    [video_file], [None] until the upload has returned. *)
Definition get_timestamps (fuel : nat) (s : self) (file_path : pyval)
  : M (option genai_file) dict :=
  modify_local (λ _, None);;
  try_finally
    (try_except
       (video_file ← call tt (upload_file fuel s file_path);
        modify_local (λ _, Some video_file);;
        log INFO "Sending prompt to Gemini...";;
        text ← lift (genai_generate_content X (model_name s) video_file prompt);
        result ← lift (json_loads X text);
        log INFO ("AI Analysis Complete: " +:+ py_str X result);;
        ret [ ("status", PStr "success"); ("data", result) ])
       (λ e,
         log ERROR ("AI Analysis failed: " +:+ exn_msg e);;
         ret [ ("status", PStr "error"); ("message", PStr (exn_msg e)) ]))
    (video_file ← get_local;
     match video_file with
     | Some f =>
         log INFO "Cleaning up file from Google Cloud...";;
         call tt (genai_delete (gf_name f))
     | None => ret tt
     end).

End Methods.
End AIProcessor.

(** ** [services/editor.py] *)

Module VideoEditor.
Section Methods.
Context (X : Collaborators).

Record self : Type := Self { output_dir : string }.

(** [__init__(self, output_dir="processed")] *)
Definition __init__ (output_dir : string) : M unit self :=
  present ← os_path_exists X (PStr output_dir);
  (if negb present then os_makedirs output_dir else ret tt);;
  ret (Self output_dir).

(** [get_video_info(self, file_path)] *)
Definition get_video_info (s : self) (file_path : pyval) : M unit (Z * Z) :=
  let cmd :=
    [ PStr "ffprobe"; PStr "-v"; PStr "error"; PStr "-select_streams"; PStr "v:0";
      PStr "-show_entries"; PStr "stream=width,height"; PStr "-of"; PStr "json";
      file_path ] in
  try_except
    (stdout ← run_subprocess X cmd;
     info ← lift (json_loads X stdout);
     streams ← py_item info "streams";
     stream0 ← py_index streams 0;
     w ← py_item stream0 "width";
     width ← py_int X w;
     streams ← py_item info "streams";
     stream0 ← py_index streams 0;
     h ← py_item stream0 "height";
     height ← py_int X h;
     ret (width, height))
    (λ e,
      log ERROR ("Error getting video info: " +:+ exn_msg e);;
      raise e).

(** The command list of [process_video] (lines 56 to 88 of the source
    file): the base command, the crop filter unless the input is vertical,
    and the output path last. *)
Definition ffmpeg_base (file_path start_time end_time : pyval) : list pyval :=
  [ PStr "ffmpeg"; PStr "-y"; PStr "-i"; file_path;
    PStr "-ss"; start_time; PStr "-to"; end_time;
    PStr "-c:v"; PStr "libx264"; PStr "-crf"; PStr "18"; PStr "-preset"; PStr "slow";
    PStr "-c:a"; PStr "aac"; PStr "-strict"; PStr "experimental"; PStr "-b:a"; PStr "192k" ].

Definition ffmpeg_cmd (file_path start_time end_time : pyval) (is_vertical : bool)
    (output_path : string) : list pyval :=
  ffmpeg_base file_path start_time end_time
  ++ (if is_vertical then [] else [ PStr "-vf"; PStr crop_filter ])
  ++ [ PStr output_path ].

(** [process_video(self, file_path, start_time, end_time)] *)
Definition process_video (s : self) (file_path start_time end_time : pyval) : M unit dict :=
  try_except
    (unique_id ← uuid4_str X;
     let output_path := path_join (output_dir s) (unique_id +:+ "_short.mp4") in
     '(width, height) ← get_video_info s file_path;
     log INFO ("Input Dimensions: " +:+ show_int width +:+ "x" +:+ show_int height);;
     let is_vertical := height >? width in
     (if is_vertical
      then log INFO "Video is already vertical. No cropping needed."
      else log INFO "Video is horizontal. Applying 9:16 center crop.");;
     let cmd := ffmpeg_cmd file_path start_time end_time is_vertical output_path in
     line ← join_space cmd;
     log INFO ("Running FFmpeg command: " +:+ line);;
     run_subprocess X cmd;;
     present ← os_path_exists X (PStr output_path);
     if negb present
     then raise (Exn FileNotFoundError "FFmpeg finished but output file is missing.")
     else
       log INFO ("Processing complete: " +:+ output_path);;
       ret [ ("status", PStr "success"); ("file_path", PStr output_path) ])
    (λ e,
      if is_CalledProcessError e then
        log ERROR ("FFmpeg failed: " +:+ exn_msg e);;
        ret [ ("status", PStr "error");
              ("message", PStr "Video processing failed during encoding.") ]
      else
        log ERROR ("Editor failed: " +:+ exn_msg e);;
        ret [ ("status", PStr "error"); ("message", PStr (exn_msg e)) ]).

End Methods.
End VideoEditor.

(** ** [services/uploader.py] *)

(** A request [files().create(body=.., media_body=..).execute()] leaves a
    new object without any permission at the storage service; a request
    [permissions().create(fileId=.., body=..).execute()] adds the permission
    body to the object. *)
Definition drive_add (id : string) (body : dict)
    (objs : gmap string drive_object) : gmap string drive_object :=
  <[ id := DriveObject body [] ]> objs.

Definition drive_grant (file_id : pyval) (perm : dict)
    (objs : gmap string drive_object) : gmap string drive_object :=
  match file_id with
  | PStr id => alter (λ o, DriveObject (o_body o) (o_permissions o ++ [perm])) id objs
  | _ => objs
  end.

(** Whether an object can be read by any requester: some permission on it
    has role [reader] and type [anyone]. *)
Definition public_readable (o : drive_object) : bool :=
  existsb (λ perm, eq_str (dict_get perm "role") "reader" &&
                   eq_str (dict_get perm "type") "anyone")
          (o_permissions o).

Module DriveUploader.
Section Methods.
Context (X : Collaborators).

Record self : Type := Self {
  client_id : pyval;
  client_secret : pyval;
  refresh_token : pyval;
  parent_folder_id : pyval
}.

(** [_authenticate(self)] *)
Definition _authenticate (s : self) : M unit unit :=
  try_except
    (lift (drive_build X (refresh_token s) (client_id s) (client_secret s)))
    (λ e,
      log ERROR ("Authentication failed: " +:+ exn_msg e);;
      raise e).

(** [__init__(self)] *)
Definition __init__ : M unit self :=
  w ← get_world;
  let s :=
    {| client_id := of_getenv (w_environ w !! "GOOGLE_CLIENT_ID");
       client_secret := of_getenv (w_environ w !! "GOOGLE_CLIENT_SECRET");
       refresh_token := of_getenv (w_environ w !! "GOOGLE_REFRESH_TOKEN");
       parent_folder_id := of_getenv (w_environ w !! "GOOGLE_DRIVE_FOLDER_ID") |} in
  if negb (forallb truthy [client_id s; client_secret s; refresh_token s])
  then raise (Exn ValueError "Missing Google OAuth credentials in environment variables.")
  else
    _authenticate s;;
    ret s.

(** [upload_file(self, file_path, video_title)] *)
Definition upload_file (s : self) (file_path video_title : pyval) : M unit dict :=
  present ← os_path_exists X file_path;
  if negb present
  then raise (Exn FileNotFoundError ("File to upload not found: " +:+ py_str X file_path))
  else
    try_except
      (match file_path with
       | PStr path =>
           let file_name := basename path in
           let file_metadata : dict :=
             [ ("name", PStr (py_str X video_title +:+ " #Shorts"));
               ("mimeType", PStr "video/mp4") ]
             ++ (if truthy (parent_folder_id s)
                 then [ ("parents", PList [parent_folder_id s]) ]
                 else []) in
           lift (media_file_upload X path);;
           log INFO ("Starting upload: " +:+ file_name);;
           '(id, link) ← lift (drive_files_create X file_metadata path);
           modify_world (set_drive (drive_add id file_metadata));;
           let file : dict := [ ("id", PStr id); ("webViewLink", PStr link) ] in
           log INFO ("Upload complete. File ID: " +:+ py_str X (dict_get file "id"));;
           ret [ ("status", PStr "success");
                 ("file_id", dict_get file "id");
                 ("drive_link", dict_get file "webViewLink") ]
       | _ => raise (Exn TypeError "expected str, bytes or os.PathLike object")
       end)
      (λ e,
        log ERROR ("Google Drive Upload Failed: " +:+ exn_msg e);;
        ret [ ("status", PStr "error"); ("message", PStr (exn_msg e)) ]).

End Methods.
End DriveUploader.

(** ** [services/config.py]: the upload of the earlier single-file worker *)

Module Config.
Section Functions.
Context (X : Collaborators).

(** [upload_to_drive(file_path, filename)]; [DRIVE_FOLDER_ID] is read from
    the environment when the module is loaded. *)
Definition upload_to_drive (file_path filename : string) : M unit pyval :=
  w ← get_world;
  let DRIVE_FOLDER_ID := of_getenv (w_environ w !! "DRIVE_FOLDER_ID") in
  lift (service_account_build X);;
  let file_metadata : dict :=
    [ ("name", PStr filename); ("parents", PList [DRIVE_FOLDER_ID]) ] in
  lift (media_file_upload X file_path);;
  (* 1. Upload *)
  '(id, link) ← lift (drive_files_create X file_metadata file_path);
  modify_world (set_drive (drive_add id file_metadata));;
  let file : dict := [ ("id", PStr id); ("webViewLink", PStr link) ] in
  let file_id := dict_get file "id" in
  (* 2. Make Public (Reader) *)
  let permission : dict := [ ("role", PStr "reader"); ("type", PStr "anyone") ] in
  lift (drive_permissions_create X file_id permission);;
  modify_world (set_drive (drive_grant file_id permission));;
  ret (dict_get file "webViewLink").

End Functions.
End Config.

(** ** [main.py]: the orchestrator *)

Inductive stage : Type := Fetch | Analyze | Transcode | Publish.

(** The history of a job: which stage methods the orchestrator has called
    and what each gave back.  It is a ghost variable: the code does not
    keep it, the model records it at the four call sites. *)
Inductive event : Type :=
  | Call (s : stage)
  | Return (s : stage) (d : dict).

(** What [background_tasks.add_task] can be handed: only [cleanup_files]
    with its list of paths is ever registered. *)
Inductive task : Type :=
  | CleanupFiles (file_paths : list pyval).

(** The frame of one request: the two tracking variables read by the
    [finally] block, the request's [BackgroundTasks] object, and the ghost
    history. *)
Record Job : Type := mkJob {
  downloaded_file : pyval;
  processed_file : pyval;
  background_tasks : list task;
  history : list event
}.

Definition new_job : Job := mkJob PNone PNone [] [].

Definition set_downloaded_file (v : pyval) (j : Job) : Job :=
  mkJob v (processed_file j) (background_tasks j) (history j).
Definition set_processed_file (v : pyval) (j : Job) : Job :=
  mkJob (downloaded_file j) v (background_tasks j) (history j).
Definition add_task (t : task) (j : Job) : Job :=
  mkJob (downloaded_file j) (processed_file j) (background_tasks j ++ [t]) (history j).
Definition record (e : event) (j : Job) : Job :=
  mkJob (downloaded_file j) (processed_file j) (background_tasks j) (history j ++ [e]).

Module Main.
Section Endpoint.
Context (X : Collaborators).

(** the body of the loop of [cleanup_files], for one [path] *)
Definition cleanup_one (path : pyval) : M unit unit :=
  present ← (if truthy path then os_path_exists X path else ret false);
  if (present : bool) then
    try_except
      (os_remove path;;
       log INFO ("Cleaned up file: " +:+ py_str X path))
      (λ e, log ERROR ("Failed to delete " +:+ py_str X path +:+ ": " +:+ exn_msg e))
  else ret tt.

(** [cleanup_files(file_paths)] *)
Definition cleanup_files (file_paths : list pyval) : M unit unit :=
  for_each file_paths cleanup_one.

(** running a registered task *)
Definition run_task (t : task) : M unit unit :=
  match t with
  | CleanupFiles file_paths => cleanup_files file_paths
  end.

(** a stage method called from the endpoint, with its ghost record *)
Definition staged {L'} (s : stage) (init : L') (m : M L' dict) : M Job dict :=
  modify_local (record (Call s));;
  d ← call init m;
  modify_local (record (Return s d));;
  ret d.

Definition services : Type :=
  VideoDownloader.self * AIProcessor.self * VideoEditor.self * DriveUploader.self.

(** lines 55 to 58: the four collaborators are built afresh.
    [GEMINI_API_KEY] is set from the environment when the module is loaded;
    the model never changes the environment, so reading it here is the same. *)
Definition construct : M Job services :=
  w ← get_world;
  let GEMINI_API_KEY := of_getenv (w_environ w !! "GOOGLE_API_KEY") in
  downloader ← call tt (VideoDownloader.__init__ X "downloads");
  ai_processor ← call tt (AIProcessor.__init__ GEMINI_API_KEY);
  editor ← call tt (VideoEditor.__init__ X "processed");
  uploader ← call tt (DriveUploader.__init__ X);
  ret (downloader, ai_processor, editor, uploader).

(** lines 54 to 61 *)
Definition init_services : M Job services :=
  try_except construct
    (λ e,
      log ERROR ("Service Initialization Failed: " +:+ exn_msg e);;
      raise (Exn (HTTPException 500) ("Service Start Failed: " +:+ exn_msg e))).

(** lines 68 to 120: the body of the [try] statement *)
Definition pipeline (fuel : nat) (sv : services) (youtube_url : string) : M Job dict :=
  let '(downloader, ai_processor, editor, uploader) := sv in
  (* 1. DOWNLOADER *)
  log INFO ">>> Step 1: Downloading...";;
  dl_result ← staged Fetch tt (VideoDownloader.download_video X downloader youtube_url);
  if eq_str (dict_get dl_result "status") "error"
  then raise (Exn Exception ("Download failed: " +:+ py_str X (dict_get dl_result "message")))
  else
  file ← dict_item dl_result "file_path";
  modify_local (set_downloaded_file file);;
  let video_title := dict_get_or dl_result "title" (PStr "Untitled Video") in
  log INFO ("Download complete: " +:+ py_str X file);;
  (* 2. INTELLIGENCE *)
  log INFO ">>> Step 2: AI Analysis...";;
  ai_result ← staged Analyze None (AIProcessor.get_timestamps X fuel ai_processor file);
  if eq_str (dict_get ai_result "status") "error"
  then raise (Exn Exception ("AI Analysis failed: " +:+ py_str X (dict_get ai_result "message")))
  else
  ai_data ← dict_item ai_result "data";
  start_time ← py_item ai_data "start_time";
  end_time ← py_item ai_data "end_time";
  viral_title ← py_get ai_data "suggested_title" video_title;
  log INFO ("AI Selected: " +:+ py_str X start_time +:+ " to " +:+ py_str X end_time
            +:+ " | Title: " +:+ py_str X viral_title);;
  (* 3. EDITOR *)
  log INFO ">>> Step 3: Editing...";;
  edit_result ← staged Transcode tt
                  (VideoEditor.process_video X editor file start_time end_time);
  if eq_str (dict_get edit_result "status") "error"
  then raise (Exn Exception ("Editing failed: " +:+ py_str X (dict_get edit_result "message")))
  else
  out ← dict_item edit_result "file_path";
  modify_local (set_processed_file out);;
  log INFO ("Editing complete: " +:+ py_str X out);;
  (* 4. UPLOADER *)
  log INFO ">>> Step 4: Uploading...";;
  upload_result ← staged Publish tt (DriveUploader.upload_file X uploader out viral_title);
  if eq_str (dict_get upload_result "status") "error"
  then raise (Exn Exception ("Upload failed: " +:+ py_str X (dict_get upload_result "message")))
  else
  drive_link ← dict_item upload_result "drive_link";
  log INFO ("Pipeline Success! Link: " +:+ py_str X drive_link);;
  reasoning ← py_get ai_data "reasoning" (PStr "");
  ret [ ("status", PStr "success");
        ("original_video", video_title);
        ("generated_short_title", viral_title);
        ("drive_link", drive_link);
        ("timestamps", PDict [ ("start", start_time); ("end", end_time) ]);
        ("reasoning", reasoning) ].

(** [process_video(request, background_tasks)] *)
Definition process_video (fuel : nat) (youtube_url : string) : M Job dict :=
  log INFO ("Received request for: " +:+ youtube_url);;
  sv ← init_services;
  modify_local (set_downloaded_file PNone);;
  modify_local (set_processed_file PNone);;
  try_finally
    (try_except
       (pipeline fuel sv youtube_url)
       (λ e,
         log ERROR ("Pipeline Failed: " +:+ exn_msg e);;
         raise (Exn (HTTPException 500) (exn_msg e))))
    (j ← get_local;
     modify_local (add_task (CleanupFiles [downloaded_file j; processed_file j]))).

(** [health_check()] *)
Definition health_check : dict :=
  [ ("status", PStr "online"); ("service", PStr "Shorts Worker V1") ].

End Endpoint.
End Main.

(** ** Timestamps

    The prompt asks the model for timestamps in [HH:MM:SS] format.  The code
    never reads a timestamp: it hands the text to the media tool.  The
    reading below is used only to say of a segment that it is empty or
    reversed. *)

Definition digit (c : ascii) : option Z :=
  let n := Z.of_nat (nat_of_ascii c) in
  if (48 <=? n) && (n <=? 57) then Some (n - 48) else None.

Fixpoint fields (s : string) (cur : option Z) (acc : list Z) : option (list Z) :=
  match s with
  | EmptyString =>
      match cur with
      | Some n => Some (acc ++ [n])
      | None => None
      end
  | String c s' =>
      if Ascii.eqb c ":"%char then
        match cur with
        | Some n => fields s' None (acc ++ [n])
        | None => None
        end
      else
        match digit c with
        | Some d => fields s' (Some (default 0 cur * 10 + d)) acc
        | None => None
        end
  end.

Definition seconds_of (s : string) : option Z :=
  match fields s None [] with
  | Some [h; m; sec] => Some (h * 3600 + m * 60 + sec)
  | _ => None
  end.

(** ** Sample collaborators and worlds *)

Module Sample.

(** ffprobe's report of a 1920x1080 stream, once decoded *)
Definition probe_1080p : pyval :=
  PDict [ ("streams", PList [ PDict [ ("width", PInt 1920); ("height", PInt 1080) ] ]) ].

(** a structured answer with a reversed segment and neither a title nor a
    reasoning *)
Definition answer : pyval :=
  PDict [ ("start_time", PStr "00:01:00"); ("end_time", PStr "00:00:30");
          ("virality_score", PInt 7) ].

(** Collaborators of which all but two succeed as follows: the download
    writes [downloads/job0.mp4], the encoder writes its last argument, the
    inference service answers [answer], the storage service hands out
    [id1].  [fetch] is what yt-dlp answers to the extraction and [upload]
    what the inference service answers to an upload. *)
Definition collaborators (fetch : result dict) (upload : result genai_file)
  : Collaborators := {|
  uuid4 := λ n, "job" +:+ show_Z (Z.of_nat n);
  py_repr := λ _, "{...}";
  int_of_str := λ _, Err (Exn ValueError "invalid literal for int()");
  json_loads := λ s, if String.eqb s "probe" then Ok probe_1080p else Ok answer;
  fd_exists := λ _, false;
  extract_info := λ opts url fs,
    match fetch with
    | Ok info => (Ok info, <[ "downloads/job0.mp4" := File ]> fs)
    | Err e => (Err e, fs)
    end;
  prepare_filename := λ opts info, Ok "downloads/job0.mp4";
  subprocess_run := λ cmd fs,
    match cmd with
    | "ffprobe" :: _ => (Ok "probe", fs)
    | _ => (Ok "", <[ default "" (last cmd) := File ]> fs)
    end;
  genai_upload_file := λ p, upload;
  genai_get_file := λ name k, Ok (GenaiFile name "ACTIVE");
  genai_generate_content := λ model f p, Ok "answer";
  genai_delete_file := λ name, Ok tt;
  drive_build := λ _ _ _, Ok tt;
  service_account_build := Ok tt;
  media_file_upload := λ _, Ok tt;
  drive_files_create := λ body path, Ok ("id1", "https://drive.example/id1");
  drive_permissions_create := λ _ _, Ok tt
|}.

(** what yt-dlp reports of the video *)
Definition info : dict :=
  [ ("title", PStr "A talk"); ("id", PStr "v1"); ("duration", PInt 600) ].

Definition ready : Collaborators :=
  collaborators (Ok info) (Ok (GenaiFile "files/abc" "ACTIVE")).

(** the inference service takes the upload and then fails to process it *)
Definition rejecting : Collaborators :=
  collaborators (Ok info) (Ok (GenaiFile "files/abc" "FAILED")).

(** the source is not available *)
Definition unavailable : Collaborators :=
  collaborators (Err (Exn Exception "Video unavailable"))
                (Ok (GenaiFile "files/abc" "ACTIVE")).

(** the storage service no longer honours the refresh token: the client is
    built as before, and the request that has to fetch an access token is
    turned down *)
Definition revoked : Collaborators := {|
  uuid4 := uuid4 ready;
  py_repr := py_repr ready;
  int_of_str := int_of_str ready;
  json_loads := json_loads ready;
  fd_exists := fd_exists ready;
  extract_info := extract_info ready;
  prepare_filename := prepare_filename ready;
  subprocess_run := subprocess_run ready;
  genai_upload_file := genai_upload_file ready;
  genai_get_file := genai_get_file ready;
  genai_generate_content := genai_generate_content ready;
  genai_delete_file := genai_delete_file ready;
  drive_build := drive_build ready;
  service_account_build := service_account_build ready;
  media_file_upload := media_file_upload ready;
  drive_files_create := λ body path,
    Err (Exn Exception "('invalid_grant: Token has been expired or revoked.')");
  drive_permissions_create := drive_permissions_create ready
|}.

Definition environ : gmap string string :=
  list_to_map [ ("GOOGLE_API_KEY", "key"); ("GOOGLE_CLIENT_ID", "id");
                ("GOOGLE_CLIENT_SECRET", "secret"); ("GOOGLE_REFRESH_TOKEN", "token") ].

Definition world (env : gmap string string) (fs : gmap string entry) : World :=
  mkWorld env fs ∅ 0%nat 0%nat [] [] ∅ ∅.

Definition fresh : World := world environ ∅.

(** the state of a worker that has a downloaded file and a cut *)
Definition used : World :=
  world environ (list_to_map [ ("downloads", Dir); ("downloads/job0.mp4", File);
                               ("processed", Dir); ("processed/job1_short.mp4", File) ]).

Definition url : string := "https://www.youtube.com/watch?v=v1".

Definition editor : VideoEditor.self := VideoEditor.Self "processed".

Definition ai_processor : AIProcessor.self :=
  AIProcessor.Self "gemini-2.5-flash" "application/json".

Definition uploader : DriveUploader.self :=
  DriveUploader.Self (PStr "id") (PStr "secret") (PStr "token") PNone.

(** the formats of a source that offers one 2160p stream with sound *)
Definition only_4k : list format := [ Format "401" "mp4" (Some 2160) true true ].

(** the formats of a usual source, worst to best *)
Definition usual : list format :=
  [ Format "140" "m4a" None false true;
    Format "18" "mp4" (Some 360) true true;
    Format "137" "mp4" (Some 1080) true false;
    Format "401" "mp4" (Some 2160) true false ].

End Sample.

(** ** Reading a run *)

Definition outcome_of {L A} (r : outcome A * L * World) : outcome A := r.1.1.
Definition frame_of {L A} (r : outcome A * L * World) : L := r.1.2.
Definition world_of {L A} (r : outcome A * L * World) : World := r.2.

(** a result dictionary that reports a failure *)
Definition is_error (d : dict) : bool := eq_str (dict_get d "status") "error".

(** a path entry of the cleanup list: [None] or a string *)
Definition path_entry (v : pyval) : Prop := v = PNone ∨ ∃ s, v = PStr s.

(** an entry the cleanup loop has nothing to do for in world [w] *)
Definition nothing_to_remove (v : pyval) (w : World) : Prop :=
  v = PNone ∨ ∃ s, v = PStr s ∧ w_fs w !! s = None.

(** a result dictionary that reports a failure or carries a file path *)
Definition carries_path (d : dict) : Prop :=
  is_error d = true ∨ (is_error d = false ∧ ∃ p, dict_lookup d "file_path" = Some (PStr p)).

(** the computation comes back: it returns or raises *)
Definition converges {L A} (m : M L A) : Prop :=
  ∀ l w, outcome_of (m l w) ≠ Diverge.

(** the computation never raises *)
Definition safe {L A} (m : M L A) : Prop :=
  ∀ l w e, outcome_of (m l w) ≠ Raise e.

(** whatever the computation returns satisfies [P] *)
Definition yields {L A} (P : A → Prop) (m : M L A) : Prop :=
  ∀ l w, match outcome_of (m l w) with Ret a => P a | _ => True end.

(** the computation leaves the frame of its caller as it found it *)
Definition keeps {L A} (m : M L A) : Prop :=
  ∀ l w, frame_of (m l w) = l.

(** A history in which the stages [ss] are called in order, each one only
    after the stage before it has returned a dictionary that does not report
    an error; the last call may still be pending. *)
Inductive follows : list stage → list event → Prop :=
  | follows_none ss : follows ss []
  | follows_pending s ss : follows (s :: ss) [Call s]
  | follows_last s ss d : follows (s :: ss) [Call s; Return s d]
  | follows_next s ss d h :
      is_error d = false →
      follows ss h →
      follows (s :: ss) (Call s :: Return s d :: h).

Definition stage_eqb (a b : stage) : bool :=
  match a, b with
  | Fetch, Fetch | Analyze, Analyze | Transcode, Transcode | Publish, Publish => true
  | _, _ => false
  end.

(** the dictionaries stage [s] has returned in a history *)
Fixpoint returned (s : stage) (h : list event) : list dict :=
  match h with
  | [] => []
  | Return s' d :: h' => if stage_eqb s s' then d :: returned s h' else returned s h'
  | Call _ :: h' => returned s h'
  end.

(** the world once the request has been logged *)
Definition received (url : string) (w : World) : World :=
  set_log (λ rs, rs ++ [(INFO, "Received request for: " +:+ url)]) w.

(** no inference API key in the environment *)
Definition no_api_key (w : World) : Prop :=
  truthy (of_getenv (w_environ w !! "GOOGLE_API_KEY")) = false.

(** one of the three OAuth settings of the storage service is missing *)
Definition no_oauth (w : World) : Prop :=
  forallb truthy [ of_getenv (w_environ w !! "GOOGLE_CLIENT_ID");
                   of_getenv (w_environ w !! "GOOGLE_CLIENT_SECRET");
                   of_getenv (w_environ w !! "GOOGLE_REFRESH_TOKEN") ] = false.

(** The storage service refuses the credentials with the exception [e].
    [_authenticate] asks for no token; the refusal is the answer to the
    request that needs one, the [execute()] of [upload_file]. *)
Definition credentials_refused (X : Collaborators) (e : exn) : Prop :=
  ∀ body path, drive_files_create X body path = Err e.

(** the request ended with an init-stage error *)
Definition init_error (o : outcome dict) : Prop :=
  ∃ msg, o = Raise (Exn (HTTPException 500) ("Service Start Failed: " +:+ msg)).

(** Between [w] and [w'] nothing but local storage and the log has changed:
    no tool was run, no identifier drawn, no request sent to a remote
    service. *)
Definition only_local (w w' : World) : Prop :=
  w_environ w' = w_environ w ∧ w_protected w' = w_protected w ∧
  w_uuids w' = w_uuids w ∧ w_polls w' = w_polls w ∧
  w_spawned w' = w_spawned w ∧ w_genai w' = w_genai w ∧ w_drive w' = w_drive w.

(** ** The route ([main.py], lines 45 and 46)

    The program never calls [process_video] itself: [@app.post] hands it to
    the web framework, which calls it once for each request, with a
    [BackgroundTasks] object of that request.  What the framework does with
    what comes back:
    - when the handler returns, the tasks added to the object are attached to
      the response made of the returned dictionary, and are run, in the order
      of their registration, once that response has been sent;
    - when the handler raises an [HTTPException], the response is made by the
      exception handler from the status and the detail; the object of the
      request is not attached to it, and what was added to it is never run.
    A task that raises stops the tasks after it; the response is not changed
    by that, it has been sent. *)

Module App.

(** what the client and the tasks see of one request *)
Record served : Type := Served {
  response : outcome dict;      (* the returned dictionary, or the exception *)
  tasks_run : list task         (* the tasks the framework has started *)
}.

(** one request [POST /process-video] with the body [{youtube_url: url}] *)
Definition post_process_video (X : Collaborators) (fuel : nat) (url : string) (w : World)
  : served * World :=
  match Main.process_video X fuel url new_job w with
  | (Ret d, j, w') =>
      (Served (Ret d) (background_tasks j),
       world_of (for_each (background_tasks j) (Main.run_task X) tt w'))
  | (Raise e, j, w') => (Served (Raise e) [], w')
  | (Diverge, j, w') => (Served Diverge [], w')
  end.

End App.

(** ** Further definitions, for the properties beyond the claims *)

(** the width the centre crop gives to an input of height [ih] *)
Definition crop_target (ih : Z) : Z := 2 * (ih * 9 / 16 / 2).

(** a path the process can remove: a regular file, not protected *)
Definition removable (w : World) (p : string) : Prop :=
  p ≠ "" ∧ w_fs w !! p = Some File ∧ p ∉ w_protected w.

(** the prefix that the endpoint puts before the message of a stage *)
Definition stage_tag (s : stage) : string :=
  match s with
  | Fetch => "Download failed: "
  | Analyze => "AI Analysis failed: "
  | Transcode => "Editing failed: "
  | Publish => "Upload failed: "
  end.

(** the two shapes of a result of [download_video], for what yt-dlp
    answered: [r] to the extraction and [name] to [prepare_filename] *)
Definition download_result (r : result dict) (name : dict → result string) : dict :=
  match r with
  | Err e => [ ("status", PStr "error"); ("message", PStr (exn_msg e)) ]
  | Ok info =>
      match name info with
      | Err e => [ ("status", PStr "error"); ("message", PStr (exn_msg e)) ]
      | Ok filename =>
          [ ("status", PStr "success");
            ("file_path", PStr filename);
            ("title", dict_get_or info "title" (PStr "Unknown Title"));
            ("duration", dict_get_or info "duration" (PInt 0));
            ("video_id", dict_get info "id") ]
      end
  end.

(** the options [download_video] hands to yt-dlp for the [n]-th identifier *)
Definition download_opts (X : Collaborators) (dir : string) (n : nat) : dict :=
  [ ("format", PStr download_format);
    ("outtmpl", PStr (path_join dir (uuid4 X n +:+ ".%(ext)s")));
    ("quiet", PBool true);
    ("no_warnings", PBool true) ].

(** between [w] and [w'] the inference service and the storage service hold
    what they held *)
Definition remote_untouched (w w' : World) : Prop :=
  w_genai w' = w_genai w ∧ w_drive w' = w_drive w.

(** a success dictionary of [download_video]: a path and a title are there *)
Definition download_shape (d : dict) : Prop :=
  is_error d = true ∨
  (is_error d = false ∧
   ∃ p t, dict_lookup d "file_path" = Some (PStr p) ∧ dict_lookup d "title" = Some t).

(** the command [get_video_info] runs on a file *)
Definition ffprobe_cmd (file_path : string) : list string :=
  [ "ffprobe"; "-v"; "error"; "-select_streams"; "v:0";
    "-show_entries"; "stream=width,height"; "-of"; "json"; file_path ].

(** a result of the editor in the world it leaves: an error, or a path that
    is on local storage *)
Definition transcode_shape (d : dict) (w : World) : Prop :=
  is_error d = true ∨
  (is_error d = false ∧
   ∃ p, dict_lookup d "file_path" = Some (PStr p) ∧ is_Some (w_fs w !! p)).

(** the metadata [DriveUploader.upload_file] sends with a file *)
Definition has_metadata (s : DriveUploader.self) (title : string) (body : dict) : Prop :=
  dict_lookup body "name" = Some (PStr (title +:+ " #Shorts")) ∧
  dict_lookup body "mimeType" = Some (PStr "video/mp4") ∧
  dict_lookup body "parents"
  = (if truthy (DriveUploader.parent_folder_id s)
     then Some (PList [ DriveUploader.parent_folder_id s ])
     else None).

(** ** Further sample collaborators *)

Module Scenario.

(** The collaborators of [Sample.ready], but for the six answers given:
    to an upload to the inference service, to a status request, to a
    deletion there, to a command, to a decoding, and to a permission
    request at the storage service. *)
Definition make (upload : result genai_file)
    (poll : string → nat → result genai_file)
    (del : string → result unit)
    (run : list string → gmap string entry → result string * gmap string entry)
    (loads : string → result pyval)
    (grant : pyval → dict → result unit) : Collaborators := {|
  uuid4 := uuid4 Sample.ready;
  py_repr := py_repr Sample.ready;
  int_of_str := int_of_str Sample.ready;
  json_loads := loads;
  fd_exists := fd_exists Sample.ready;
  extract_info := extract_info Sample.ready;
  prepare_filename := prepare_filename Sample.ready;
  subprocess_run := run;
  genai_upload_file := λ _, upload;
  genai_get_file := poll;
  genai_generate_content := genai_generate_content Sample.ready;
  genai_delete_file := del;
  drive_build := drive_build Sample.ready;
  service_account_build := service_account_build Sample.ready;
  media_file_upload := media_file_upload Sample.ready;
  drive_files_create := drive_files_create Sample.ready;
  drive_permissions_create := grant
|}.

Definition processing : result genai_file := Ok (GenaiFile "files/abc" "PROCESSING").

(** the inference service needs two status requests before the file is ready *)
Definition slow : Collaborators :=
  make processing
       (λ name n, Ok (GenaiFile name (if (n <? 2)%nat then "PROCESSING" else "ACTIVE")))
       (genai_delete_file Sample.ready) (subprocess_run Sample.ready)
       (json_loads Sample.ready) (drive_permissions_create Sample.ready).

(** the inference service never finishes *)
Definition stalled : Collaborators :=
  make processing (λ name n, Ok (GenaiFile name "PROCESSING"))
       (genai_delete_file Sample.ready) (subprocess_run Sample.ready)
       (json_loads Sample.ready) (drive_permissions_create Sample.ready).

(** the inference service refuses to delete *)
Definition sticky : Collaborators :=
  make (Ok (GenaiFile "files/abc" "ACTIVE")) (genai_get_file Sample.ready)
       (λ _, Err (Exn Exception "403 Forbidden"))
       (subprocess_run Sample.ready) (json_loads Sample.ready)
       (drive_permissions_create Sample.ready).

(** [ffprobe] exits with an error *)
Definition no_probe : Collaborators :=
  make (Ok (GenaiFile "files/abc" "ACTIVE")) (genai_get_file Sample.ready)
       (genai_delete_file Sample.ready)
       (λ cmd fs,
          match cmd with
          | "ffprobe" :: _ =>
              (Err (Exn CalledProcessError "Command 'ffprobe' returned non-zero exit status 1."),
               fs)
          | _ => subprocess_run Sample.ready cmd fs
          end)
       (json_loads Sample.ready) (drive_permissions_create Sample.ready).

(** [ffprobe] reports no video stream *)
Definition audio_only : Collaborators :=
  make (Ok (GenaiFile "files/abc" "ACTIVE")) (genai_get_file Sample.ready)
       (genai_delete_file Sample.ready) (subprocess_run Sample.ready)
       (λ s, if String.eqb s "probe" then Ok (PDict [ ("streams", PList []) ])
             else json_loads Sample.ready s)
       (drive_permissions_create Sample.ready).

(** the model answers without an end time *)
Definition terse : Collaborators :=
  make (Ok (GenaiFile "files/abc" "ACTIVE")) (genai_get_file Sample.ready)
       (genai_delete_file Sample.ready) (subprocess_run Sample.ready)
       (λ s, if String.eqb s "probe" then Ok Sample.probe_1080p
             else Ok (PDict [ ("start_time", PStr "00:01:00") ]))
       (drive_permissions_create Sample.ready).

(** the storage service refuses permission requests *)
Definition private_only : Collaborators :=
  make (Ok (GenaiFile "files/abc" "ACTIVE")) (genai_get_file Sample.ready)
       (genai_delete_file Sample.ready) (subprocess_run Sample.ready)
       (json_loads Sample.ready)
       (λ _ _, Err (Exn Exception "403 Forbidden")).

(** an uploader with a folder configured *)
Definition filing : DriveUploader.self :=
  DriveUploader.Self (PStr "id") (PStr "secret") (PStr "token") (PStr "folder1").

(** the paths a cleanup task may be given *)
Definition paths : list pyval := [ PNone; PStr "downloads/job0.mp4"; PStr "gone.mp4" ].

End Scenario.

(** ** [services/config.py]: the endpoint of the earlier worker

    The earlier worker downloads with [ydl.download] and cuts through the
    ffmpeg-python bindings; both are collaborators of their own.  A stream
    of the bindings is kept as the data it was built from: the command line
    that the bindings make of it is theirs, not the worker's. *)

Module Legacy.

Record stream : Type := Stream {
  s_input : string;                         (* ffmpeg.input(filename, ss=.., t=..) *)
  s_ss : pyval;
  s_t : pyval;
  s_filters : list (string * list pyval);   (* ffmpeg.filter(stream, name, *args) *)
  s_output : option string                  (* ffmpeg.output(stream, filename) *)
}.

Definition ffmpeg_input (filename : string) (ss t : pyval) : stream :=
  Stream filename ss t [] None.

Definition ffmpeg_filter (s : stream) (name : string) (args : list pyval) : stream :=
  Stream (s_input s) (s_ss s) (s_t s) (s_filters s ++ [ (name, args) ]) (s_output s).

Definition ffmpeg_output (s : stream) (filename : string) : stream :=
  Stream (s_input s) (s_ss s) (s_t s) (s_filters s) (Some filename).

Record Tools : Type := {
  (* YoutubeDL(opts).download([url]) *)
  ydl_download : dict → list string → gmap string entry → result unit * gmap string entry;
  (* ffmpeg.run(stream, overwrite_output=True, quiet=True) *)
  ffmpeg_run : stream → gmap string entry → result unit * gmap string entry
}.

Definition newline : string := String (Ascii.ascii_of_nat 10) "".
Definition quote : string := String (Ascii.ascii_of_nat 34) "".

(** the f-string of lines 80 to 86 *)
Definition prompt (request_prompt : string) : string :=
  newline +:+
  "        Analyze this video based on this request: " +:+ quote +:+ request_prompt +:+ quote
  +:+ newline +:+
  "        Return JSON ONLY with these keys:" +:+ newline +:+
  "        - start (string in HH:MM:SS format)" +:+ newline +:+
  "        - duration (integer in seconds)" +:+ newline +:+
  "        - crop_focus (string: 'center', 'left', or 'right')" +:+ newline +:+
  "        ".

(** The width and the three horizontal offsets of the crop of line 103, as
    syntax trees of the media tool's expressions. *)
Definition crop_width_expr : fexpr := FMul (FVar "ih") (FParen (FDiv (FNum 9) (FNum 16))).

Section Endpoint.
Context (X : Collaborators) (T : Tools).

(** The loop of lines 74 to 76; the frame is the list of the streams handed
    to [ffmpeg.run] so far. *)
Fixpoint wait_processing (fuel : nat) (video_file : genai_file)
  : M (list stream) genai_file :=
  if String.eqb (gf_state video_file) "PROCESSING" then
    match fuel with
    | O => diverge
    | S fuel' =>
        video_file' ← call tt (AIProcessor.genai_get X (gf_name video_file));
        wait_processing fuel' video_file'
    end
  else ret video_file.

(** [process_video(request)] of the earlier worker, for a request with the
    fields [url] and [prompt].  The [print] calls write to standard output,
    which is not modelled; the subscripts inside the third one are. *)
Definition process_video (fuel : nat) (url request_prompt : string)
  : M (list stream) dict :=
  unique_id ← uuid4_str X;
  let job_id := String.substring 0 8 unique_id in
  let raw_path := "/tmp/" +:+ job_id +:+ "_raw.mp4" in
  let final_path := "/tmp/" +:+ job_id +:+ "_short.mp4" in
  try_except
    ((* 1. Download Video *)
     let ydl_opts : dict :=
       [ ("format", PStr "best[ext=mp4]"); ("outtmpl", PStr raw_path);
         ("quiet", PBool true) ] in
     w ← get_world;
     let '(r, fs') := ydl_download T ydl_opts [ url ] (w_fs w) in
     modify_world (set_fs (λ _, fs'));;
     lift r;;
     (* 2. Upload to Gemini for Analysis *)
     video_file ← call tt (AIProcessor.genai_upload X (PStr raw_path));
     video_file ← wait_processing fuel video_file;
     (* 3. Ask Gemini for Timestamps *)
     text ← lift (genai_generate_content X "gemini-1.5-flash" video_file
                    (prompt request_prompt));
     data ← lift (json_loads X text);
     py_item data "start";;
     py_item data "duration";;
     py_item data "crop_focus";;
     (* 4. FFmpeg Processing *)
     ss ← py_item data "start";
     t ← py_item data "duration";
     let stream := ffmpeg_input raw_path ss t in
     focus ← py_item data "crop_focus";
     x_crop ← (if eq_str focus "left" then ret (PInt 0)
               else
                 focus ← py_item data "crop_focus";
                 if eq_str focus "right" then ret (PStr "iw-ow")
                 else ret (PStr "(iw-ow)/2"));
     let stream :=
       ffmpeg_filter stream "crop" [ PStr "ih*(9/16)"; PStr "ih"; x_crop; PInt 0 ] in
     let stream := ffmpeg_output stream final_path in
     modify_local (λ runs, runs ++ [ stream ]);;
     w ← get_world;
     let '(r, fs') := ffmpeg_run T stream (w_fs w) in
     modify_world (set_fs (λ _, fs'));;
     lift r;;
     (* 5. Upload to Drive *)
     drive_link ← call tt (Config.upload_to_drive X final_path
                             ("Short_" +:+ job_id +:+ ".mp4"));
     (* Cleanup *)
     call tt (AIProcessor.genai_delete X (gf_name video_file));;
     os_remove (PStr raw_path);;
     os_remove (PStr final_path);;
     ret [ ("status", PStr "success"); ("link", drive_link); ("metadata", data) ])
    (λ e, ret [ ("status", PStr "error"); ("message", PStr (exn_msg e)) ]).

End Endpoint.

(** the two paths of a job and the options of its download *)
Definition job_id (X : Collaborators) (w : World) : string :=
  String.substring 0 8 (uuid4 X (w_uuids w)).

Definition raw_path (X : Collaborators) (w : World) : string :=
  "/tmp/" +:+ job_id X w +:+ "_raw.mp4".

Definition final_path (X : Collaborators) (w : World) : string :=
  "/tmp/" +:+ job_id X w +:+ "_short.mp4".

Definition ydl_opts (X : Collaborators) (w : World) : dict :=
  [ ("format", PStr "best[ext=mp4]"); ("outtmpl", PStr (raw_path X w));
    ("quiet", PBool true) ].

(** the horizontal offset for a [crop_focus] *)
Definition x_crop (focus : pyval) : pyval :=
  if eq_str focus "left" then PInt 0
  else if eq_str focus "right" then PStr "iw-ow"
  else PStr "(iw-ow)/2".

(** the stream that the worker hands to [ffmpeg.run] *)
Definition stream_of (X : Collaborators) (w : World) (ss t focus : pyval) : stream :=
  Stream (raw_path X w) ss t
    [ ("crop", [ PStr "ih*(9/16)"; PStr "ih"; x_crop focus; PInt 0 ]) ]
    (Some (final_path X w)).

(** tools that download and cut without fault: each writes its output file *)
Definition sample_tools : Tools := {|
  ydl_download := λ opts urls fs,
    match dict_get opts "outtmpl" with
    | PStr p => (Ok tt, <[ p := File ]> fs)
    | _ => (Ok tt, fs)
    end;
  ffmpeg_run := λ s fs,
    match s_output s with
    | Some p => (Ok tt, <[ p := File ]> fs)
    | None => (Err (Exn Exception "ffmpeg error (see stderr output for detail)"), fs)
    end
|}.

(** the model answers with a start, a duration and a focus *)
Definition sample_answer : pyval :=
  PDict [ ("start", PStr "00:00:05"); ("duration", PInt 45); ("crop_focus", PStr "right") ].

Definition answering : Collaborators :=
  {| uuid4 := uuid4 Sample.ready;
     py_repr := py_repr Sample.ready;
     int_of_str := int_of_str Sample.ready;
     json_loads := λ _, Ok sample_answer;
     fd_exists := fd_exists Sample.ready;
     extract_info := extract_info Sample.ready;
     prepare_filename := prepare_filename Sample.ready;
     subprocess_run := subprocess_run Sample.ready;
     genai_upload_file := genai_upload_file Sample.ready;
     genai_get_file := genai_get_file Sample.ready;
     genai_generate_content := genai_generate_content Sample.ready;
     genai_delete_file := genai_delete_file Sample.ready;
     drive_build := drive_build Sample.ready;
     service_account_build := service_account_build Sample.ready;
     media_file_upload := media_file_upload Sample.ready;
     drive_files_create := drive_files_create Sample.ready;
     drive_permissions_create := drive_permissions_create Sample.ready |}.

(** the same, with service-account credentials that the storage client
    refuses *)
Definition locked_out : Collaborators :=
  {| uuid4 := uuid4 Sample.ready;
     py_repr := py_repr Sample.ready;
     int_of_str := int_of_str Sample.ready;
     json_loads := λ _, Ok sample_answer;
     fd_exists := fd_exists Sample.ready;
     extract_info := extract_info Sample.ready;
     prepare_filename := prepare_filename Sample.ready;
     subprocess_run := subprocess_run Sample.ready;
     genai_upload_file := genai_upload_file Sample.ready;
     genai_get_file := genai_get_file Sample.ready;
     genai_generate_content := genai_generate_content Sample.ready;
     genai_delete_file := genai_delete_file Sample.ready;
     drive_build := drive_build Sample.ready;
     service_account_build := Err (Exn ValueError "Service account info was not in the expected format");
     media_file_upload := media_file_upload Sample.ready;
     drive_files_create := drive_files_create Sample.ready;
     drive_permissions_create := drive_permissions_create Sample.ready |}.

End Legacy.

(** * Theorems *)

(** ** Crop filter *)

Lemma crop_filter_syntax : show_crop center_crop = crop_filter.
Proof. reflexivity. Qed.


(** rounding toward zero does not depend on the fraction's representation *)
Lemma Qtrunc_comp (p q : Q) : Qeq p q → Qtrunc p = Qtrunc q.
Proof.
  destruct p as [a b], q as [c d]. unfold Qeq, Qtrunc. cbn. intros Heq.
  rewrite <- (Z.quot_mul_cancel_r a (Z.pos b) (Z.pos d)) by lia.
  rewrite Heq.
  rewrite (Z.mul_comm (Z.pos b) (Z.pos d)).
  apply Z.quot_mul_cancel_r; lia.
Qed.

(** For every input the width expression yields the floor of 9/16 of the
    height, rounded down to an even number. *)
Lemma crop_width_formula (iw ih : Z) :
  0 ≤ ih →
  crop_width center_crop iw ih = Some (inject_Z (2 * (ih * 9 / 16 / 2))).
Proof.
  intros Hih. unfold crop_width, center_crop. cbn [crop_w feval]. unfold crop_env.
  cbn [String.eqb Ascii.eqb Bool.eqb mbind option_bind].
  change (Qeq_bool (inject_Z 16) 0%Q) with false.
  change (Qeq_bool (inject_Z 2) 0%Q) with false.
  cbv iota. cbn [mbind option_bind].
  f_equal.
  set (q := Qred (Qred (Qred (inject_Z ih * inject_Z 9) / inject_Z 16) / inject_Z 2)).
  assert (Qeq q ((ih * 9) # 32)) as Hq.
  { unfold q. rewrite !Qred_correct. unfold Qeq, Qdiv, Qmult, Qinv, inject_Z. cbn. lia. }
  rewrite (Qtrunc_comp _ _ Hq). unfold Qtrunc. cbn [Qnum Qden].
  rewrite Z.quot_div_nonneg by lia.
  rewrite Z.div_div by lia. change (16 * 2) with 32.
  unfold Qmult, inject_Z. cbn [Qnum Qden].
  rewrite Qcanon.Qred_identity; cbn [Qnum Qden].
  - f_equal. lia.
  - apply Z.gcd_1_r.
Qed.




(** ** Format selection *)

Lemma download_format_syntax : show_selector download_selector = download_format.
Proof. reflexivity. Qed.

Lemma pick_ok a fs f : pick a fs = Some f → atom_ok a f = true.
Proof.
  unfold pick. intros Hlast.
  apply last_Some in Hlast as [l' Hl'].
  assert (In f (List.filter (atom_ok a) fs)) as Hin.
  { rewrite Hl'. apply in_or_app. right. left. reflexivity. }
  apply filter_In in Hin. tauto.
Qed.

(** C8, as the claim states it, fails: for a source whose only format is a
    2160p stream with sound, the selector of the source falls through to
    [best[ext=mp4]] and selects that stream. *)
Lemma fallback_exceeds_1080p :
  ¬ (∀ fs sel, select_format download_selector fs = Some sel → exceeds 1080 sel = false).
Proof.
  intros H. specialize (H Sample.only_4k Sample.only_4k eq_refl).
  vm_compute in H. discriminate H.
Qed.

(** C8 (amended): the ceiling binds the preferred branch only.  Whenever
    the first alternative of the selector selects (an mp4 video-only format
    of at most 1080 lines and an m4a audio-only format exist), that selection
    is the result and it does not exceed 1080 lines; the two fallback
    alternatives carry no bound on the height. *)
Theorem preferred_within_1080p (fs sel : list format) :
  select_merge preferred fs = Some sel →
  select_format download_selector fs = Some sel ∧ exceeds 1080 sel = false.
Proof.
  intros Hsel. split.
  - unfold download_selector. cbn [select_format]. rewrite Hsel. reflexivity.
  - unfold select_merge, preferred in Hsel.
    cbn [mapM] in Hsel.
    destruct (pick (Atom BestVideo [HeightLe 1080; ExtEq "mp4"]) fs) as [v|] eqn:Hv;
      [ | discriminate Hsel ].
    destruct (pick (Atom BestAudio [ExtEq "m4a"]) fs) as [a|] eqn:Ha;
      [ | discriminate Hsel ].
    cbn in Hsel. injection Hsel as <-.
    apply pick_ok in Hv. apply pick_ok in Ha.
    unfold atom_ok in Hv, Ha. cbn in Hv, Ha.
    apply andb_true_iff in Hv as [_ Hv]. apply andb_true_iff in Hv as [Hv _].
    apply andb_true_iff in Ha as [Ha _]. apply andb_true_iff in Ha as [_ Ha].
    cbn. destruct (f_height v) as [h|]; [ | discriminate Hv ].
    apply Z.leb_le in Hv.
    assert ((1080 <? h) = false) as Hlt by (apply Z.ltb_ge; lia).
    rewrite Hlt, andb_false_r. cbn.
    apply negb_true_iff in Ha. rewrite Ha. reflexivity.
Qed.

Lemma preferred_within_1080p_witness :
  select_format download_selector Sample.usual
  = Some [ Format "137" "mp4" (Some 1080) true false; Format "140" "m4a" None false true ]
  ∧ exceeds 1080 [ Format "137" "mp4" (Some 1080) true false;
                   Format "140" "m4a" None false true ] = false.
Proof.
  apply (preferred_within_1080p Sample.usual). vm_compute. reflexivity.
Defined.

(** ** Cleanup *)

Ltac munfold :=
  unfold mbind, mret, M_bind, M_ret, bind, ret, raise, diverge, try_except,
    try_finally, call, get_world, modify_world, get_local, modify_local, log, lift in *.

Section Cleanup.
Context (X : Collaborators).

Lemma cleanup_files_cons v rest l w :
  Main.cleanup_files X (v :: rest) l w
  = match Main.cleanup_one X v l w with
    | (Ret _, l', w') => Main.cleanup_files X rest l' w'
    | (Raise e, l', w') => (Raise e, l', w')
    | (Diverge, l', w') => (Diverge, l', w')
    end.
Proof. reflexivity. Qed.

Lemma cleanup_one_skips v w :
  nothing_to_remove v w → Main.cleanup_one X v tt w = (Ret tt, tt, w).
Proof.
  intros [-> | (s & -> & Hnone)]; [ reflexivity | ].
  unfold Main.cleanup_one, os_path_exists. cbn [truthy].
  destruct (String.eqb s "") eqn:Hs; cbn [negb]; munfold; [ reflexivity | ].
  rewrite Hnone. rewrite bool_decide_eq_false_2; [ reflexivity | ].
  intros [x Hx]. discriminate Hx.
Qed.

Lemma cleanup_one_entry v w :
  path_entry v →
  ∃ w', Main.cleanup_one X v tt w = (Ret tt, tt, w') ∧
        (∀ p, w_fs w' !! p ≠ w_fs w !! p →
              v = PStr p ∧ w_fs w !! p = Some File ∧ w_fs w' !! p = None).
Proof.
  intros [-> | (s & ->)].
  { exists w. split; [ reflexivity | ]. intros p Hp. congruence. }
  destruct (w_fs w !! s) as [en|] eqn:Hfs.
  2:{ exists w. split; [ apply cleanup_one_skips; right; eauto | ].
      intros p Hp. congruence. }
  unfold Main.cleanup_one, os_path_exists, os_remove. cbn [truthy].
  destruct (String.eqb s "") eqn:Hs; cbn [negb]; munfold.
  { exists w. split; [ reflexivity | ]. intros p Hp. congruence. }
  rewrite Hfs. rewrite bool_decide_eq_true_2 by eauto.
  cbn. rewrite Hfs.
  destruct en; [ destruct (bool_decide (s ∈ w_protected w)) | ];
    cbn; eexists; (split; [ reflexivity | ]); cbn; intros p Hp;
    try congruence.
  destruct (decide (s = p)) as [<- | Hne].
  - rewrite lookup_delete_eq. auto.
  - rewrite lookup_delete_ne in Hp by assumption. congruence.
Qed.

(** With path entries only, the loop comes back normally, and whatever
    differs in local storage afterwards is a listed file that was there and
    is gone. *)
Lemma cleanup_files_returns paths w :
  Forall path_entry paths →
  ∃ w', Main.cleanup_files X paths tt w = (Ret tt, tt, w') ∧
        (∀ p, w_fs w' !! p ≠ w_fs w !! p →
              PStr p ∈ paths ∧ is_Some (w_fs w !! p) ∧ w_fs w' !! p = None).
Proof.
  intros Hall. revert w.
  induction Hall as [ | v rest Hv _ IH ]; intros w.
  { exists w. split; [ reflexivity | ]. intros p Hp. congruence. }
  destruct (cleanup_one_entry v w Hv) as (w1 & Hone & Hfs1).
  destruct (IH w1) as (w2 & Hrest & Hfs2).
  exists w2. split.
  { rewrite cleanup_files_cons, Hone. exact Hrest. }
  intros p Hp.
  destruct (decide (w_fs w1 !! p = w_fs w !! p)) as [Heq | Hne].
  - rewrite <- Heq in Hp. destruct (Hfs2 p Hp) as (Hin & Hsome & Hgone).
    rewrite Heq in Hsome. split; [ by apply list_elem_of_further | auto ].
  - destruct (Hfs1 p Hne) as (-> & Hfile & Hgone1).
    split; [ apply list_elem_of_here | ].
    split; [ rewrite Hfile; eauto | ].
    destruct (decide (w_fs w2 !! p = w_fs w1 !! p)) as [Heq2 | Hne2];
      [ congruence | ].
    by destruct (Hfs2 p Hne2) as (_ & _ & ?).
Qed.

Lemma cleanup_files_skips v rest w :
  nothing_to_remove v w →
  Main.cleanup_files X (v :: rest) tt w = Main.cleanup_files X rest tt w.
Proof.
  intros Hskip. rewrite cleanup_files_cons, cleanup_one_skips by assumption.
  reflexivity.
Qed.

(** C10: over every list of path entries ([None] or a string each) the
    cleanup routine returns normally, never raising to its caller; an entry
    that is [None] or names nothing in local storage is passed over without
    any effect, log record included; and local storage changes only at
    listed paths that existed, which are then gone. *)
Theorem cleanup_files_total (paths : list pyval) (w : World) :
  Forall path_entry paths →
  (∃ w', Main.cleanup_files X paths tt w = (Ret tt, tt, w') ∧
         (∀ p, w_fs w' !! p ≠ w_fs w !! p →
               PStr p ∈ paths ∧ is_Some (w_fs w !! p) ∧ w_fs w' !! p = None)) ∧
  (∀ v rest,
      paths = v :: rest → nothing_to_remove v w →
      Main.cleanup_files X paths tt w = Main.cleanup_files X rest tt w) ∧
  (Forall (λ v, nothing_to_remove v w) paths →
   Main.cleanup_files X paths tt w = (Ret tt, tt, w)).
Proof.
  intros Hall. split; [ by apply cleanup_files_returns | split ].
  - intros v rest -> Hskip. by apply cleanup_files_skips.
  - clear Hall. induction 1 as [ | v rest Hv _ IH ]; [ reflexivity | ].
    rewrite cleanup_files_skips by assumption. exact IH.
Qed.

End Cleanup.

(** ** How a computation can end

    Three properties of a computation, each closed under the statement
    forms, so that they are established by following the code:
    [converges] (it comes back), [safe] (it never raises) and [yields P]
    (whatever it returns satisfies [P]). *)

Section Ends.
Context {L : Type}.

Lemma converges_ret {A} (a : A) : converges (L:=L) (ret a).
Proof. intros l w. discriminate. Qed.

Lemma converges_raise {A} e : converges (L:=L) (A:=A) (raise e).
Proof. intros l w. discriminate. Qed.

Lemma converges_bind {A B} (m : M L A) (k : A → M L B) :
  converges m → (∀ a, converges (k a)) → converges (m ≫= k).
Proof.
  intros Hm Hk l w. specialize (Hm l w). munfold. unfold outcome_of in *.
  destruct (m l w) as [[[a|e|] l1] w1]; cbn in *; try congruence.
  apply Hk.
Qed.

Lemma converges_get_world : converges (L:=L) get_world.
Proof. intros l w. discriminate. Qed.

Lemma converges_modify_world f : converges (L:=L) (modify_world f).
Proof. intros l w. discriminate. Qed.

Lemma converges_get_local : converges (L:=L) get_local.
Proof. intros l w. discriminate. Qed.

Lemma converges_modify_local f : converges (L:=L) (modify_local f).
Proof. intros l w. discriminate. Qed.

Lemma converges_log lv msg : converges (L:=L) (log lv msg).
Proof. intros l w. discriminate. Qed.

Lemma converges_lift {A} (r : result A) : converges (L:=L) (lift r).
Proof. destruct r; intros l w; discriminate. Qed.

Lemma converges_try_except {A} (m : M L A) h :
  converges m → (∀ e, converges (h e)) → converges (try_except m h).
Proof.
  intros Hm Hh l w. specialize (Hm l w). unfold try_except, outcome_of in *.
  destruct (m l w) as [[[a|e|] l1] w1]; cbn in *; try congruence.
  apply Hh.
Qed.

Lemma converges_try_finally {A} (m : M L A) fin :
  converges m → converges fin → converges (try_finally m fin).
Proof.
  intros Hm Hf l w. specialize (Hm l w). unfold try_finally, outcome_of in *.
  destruct (m l w) as [[[a|e|] l1] w1]; cbn in *; try congruence;
    specialize (Hf l1 w1); destruct (fin l1 w1) as [[[a'|e'|] l2] w2];
    cbn in *; congruence.
Qed.

Lemma converges_call {L' A} (init : L') (m : M L' A) :
  converges m → converges (L:=L) (call init m).
Proof.
  intros Hm l w. specialize (Hm init w). unfold call, outcome_of in *.
  destruct (m init w) as [[o l1] w1]. exact Hm.
Qed.

Lemma safe_ret {A} (a : A) : safe (L:=L) (ret a).
Proof. intros l w e. discriminate. Qed.

Lemma safe_bind {A B} (m : M L A) (k : A → M L B) :
  safe m → (∀ a, safe (k a)) → safe (m ≫= k).
Proof.
  intros Hm Hk l w e. specialize (Hm l w). munfold. unfold outcome_of in *.
  destruct (m l w) as [[[a|e'|] l1] w1]; cbn in *; try congruence.
  - apply Hk.
  - exfalso. by apply (Hm e').
Qed.

Lemma safe_log lv msg : safe (L:=L) (log lv msg).
Proof. intros l w e. discriminate. Qed.

Lemma safe_try_except {A} (m : M L A) h :
  (∀ e, safe (h e)) → safe (try_except m h).
Proof.
  intros Hh l w e. unfold try_except, outcome_of.
  destruct (m l w) as [[[a|e'|] l1] w1]; cbn; try congruence.
  apply Hh.
Qed.

Lemma yields_ret {A} (P : A → Prop) a : P a → yields (L:=L) P (ret a).
Proof. intros Ha l w. exact Ha. Qed.

Lemma yields_raise {A} (P : A → Prop) e : yields (L:=L) P (raise e).
Proof. intros l w. exact I. Qed.

Lemma yields_bind {A B} (P : B → Prop) (m : M L A) (k : A → M L B) :
  (∀ a, yields P (k a)) → yields P (m ≫= k).
Proof.
  intros Hk l w. munfold. unfold outcome_of.
  destruct (m l w) as [[[a|e|] l1] w1]; cbn; try exact I.
  apply Hk.
Qed.

Lemma yields_try_except {A} (P : A → Prop) (m : M L A) h :
  yields P m → (∀ e, yields P (h e)) → yields P (try_except m h).
Proof.
  intros Hm Hh l w. specialize (Hm l w). unfold try_except, outcome_of in *.
  destruct (m l w) as [[[a|e|] l1] w1]; cbn in *; try exact I; try exact Hm.
  apply Hh.
Qed.

Lemma keeps_ret {A} (a : A) : keeps (L:=L) (ret a).
Proof. intros l w. reflexivity. Qed.

Lemma keeps_raise {A} e : keeps (L:=L) (A:=A) (raise e).
Proof. intros l w. reflexivity. Qed.

Lemma keeps_get_world : keeps (L:=L) get_world.
Proof. intros l w. reflexivity. Qed.

Lemma keeps_log lv msg : keeps (L:=L) (log lv msg).
Proof. intros l w. reflexivity. Qed.

Lemma keeps_call {L' A} (init : L') (m : M L' A) : keeps (L:=L) (call init m).
Proof. intros l w. unfold call, frame_of. by destruct (m init w) as [[o l1] w1]. Qed.

Lemma keeps_bind {A B} (m : M L A) (k : A → M L B) :
  keeps m → (∀ a, keeps (k a)) → keeps (m ≫= k).
Proof.
  intros Hm Hk l w. specialize (Hm l w). munfold. unfold frame_of in *.
  destruct (m l w) as [[[a|e|] l1] w1]; cbn in *; subst; try reflexivity.
  apply Hk.
Qed.

Lemma keeps_try_except {A} (m : M L A) h :
  keeps m → (∀ e, keeps (h e)) → keeps (try_except m h).
Proof.
  intros Hm Hh l w. specialize (Hm l w). unfold try_except, frame_of in *.
  destruct (m l w) as [[[a|e|] l1] w1]; cbn in *; subst; try reflexivity.
  apply Hh.
Qed.

End Ends.

Create HintDb ends.

#[local] Hint Resolve converges_ret converges_raise converges_get_world
  converges_modify_world converges_get_local converges_modify_local
  converges_log converges_lift safe_ret safe_log yields_raise
  keeps_ret keeps_raise keeps_get_world keeps_log keeps_call : ends.

(** following the statements of a computation *)
Ltac follow :=
  repeat first
    [ progress intros
    | solve [ auto with ends ]
    | apply converges_bind | apply converges_try_except
    | apply converges_try_finally | apply converges_call
    | apply safe_bind | apply safe_try_except
    | apply yields_bind | apply yields_try_except
    | apply keeps_bind | apply keeps_try_except
    | match goal with
      | |- context [ match ?x with _ => _ end ] =>
          first [ is_var x | lazymatch x with context [ fun _ => _ ] => fail | _ => idtac end ];
          destruct x
      end ].

Section Primitives.
Context (X : Collaborators) {L : Type}.

Lemma converges_uuid4_str : converges (L:=L) (uuid4_str X).
Proof. unfold uuid4_str. follow. Qed.

Lemma converges_dict_item d k : converges (L:=L) (dict_item d k).
Proof. unfold dict_item. follow. Qed.

Lemma converges_py_item v k : converges (L:=L) (py_item v k).
Proof. unfold py_item, dict_item. follow. Qed.

Lemma converges_py_index v i : converges (L:=L) (py_index v i).
Proof. unfold py_index. follow. Qed.

Lemma converges_py_get v k dflt : converges (L:=L) (py_get v k dflt).
Proof. unfold py_get. follow. Qed.

Lemma converges_py_int v : converges (L:=L) (py_int X v).
Proof. unfold py_int. follow. Qed.

Lemma converges_join_space items : converges (L:=L) (join_space items).
Proof. unfold join_space. follow. Qed.

Lemma converges_os_path_exists p : converges (L:=L) (os_path_exists X p).
Proof. unfold os_path_exists. follow. Qed.

Lemma converges_os_remove p : converges (L:=L) (os_remove p).
Proof. unfold os_remove. follow. Qed.

Lemma converges_os_makedirs d : converges (L:=L) (os_makedirs d).
Proof. unfold os_makedirs. follow. Qed.

Lemma converges_run_subprocess cmd : converges (L:=L) (run_subprocess X cmd).
Proof. unfold run_subprocess. follow. Qed.

End Primitives.

#[local] Hint Resolve converges_uuid4_str converges_dict_item converges_py_item
  converges_py_index converges_py_get converges_py_int converges_join_space
  converges_os_path_exists converges_os_remove converges_os_makedirs
  converges_run_subprocess : ends.

Section Stages.
Context (X : Collaborators).

Lemma download_video_returns s url w :
  ∃ d w', VideoDownloader.download_video X s url tt w = (Ret d, tt, w') ∧ carries_path d.
Proof.
  unfold VideoDownloader.download_video, uuid4_str. munfold. cbn.
  destruct (extract_info X _ url (w_fs w)) as [[info | e] fs'] eqn:Hx; cbn.
  - destruct (prepare_filename X _ info) as [name | e] eqn:Hp; cbn.
    + eexists _, _. split; [ reflexivity | ]. right. split; [ reflexivity | eauto ].
    + eexists _, _. split; [ reflexivity | ]. left. reflexivity.
  - eexists _, _. split; [ reflexivity | ]. left. reflexivity.
Qed.

Lemma get_video_info_converges s fp : converges (VideoEditor.get_video_info X s fp).
Proof. unfold VideoEditor.get_video_info. follow. Qed.

Lemma editor_process_video_ends s fp st et :
  converges (VideoEditor.process_video X s fp st et) ∧
  safe (VideoEditor.process_video X s fp st et) ∧
  yields carries_path (VideoEditor.process_video X s fp st et).
Proof.
  pose proof get_video_info_converges.
  unfold VideoEditor.process_video.
  split; [ | split ].
  - follow.
  - follow.
  - follow; apply yields_ret; first [ by left | right; split; [ reflexivity | eauto ] ].
Qed.

Lemma editor_process_video_returns s fp st et w :
  ∃ d w', VideoEditor.process_video X s fp st et tt w = (Ret d, tt, w') ∧ carries_path d.
Proof.
  destruct (editor_process_video_ends s fp st et) as (Hc & Hs & Hy).
  specialize (Hc tt w). specialize (Hs tt w). specialize (Hy tt w).
  unfold outcome_of in *.
  destruct (VideoEditor.process_video X s fp st et tt w) as [[[d|e|] []] w'];
    cbn in *; [ eauto | by destruct (Hs e) | done ].
Qed.

Lemma init_services_frame j w : frame_of (Main.init_services X j w) = j.
Proof.
  assert (keeps (Main.init_services X)) as Hk; [ | apply Hk ].
  unfold Main.init_services, Main.construct. follow.
Qed.

End Stages.

Section Pipeline.
Context (X : Collaborators).

#[local] Arguments dict_get : simpl never.
#[local] Arguments dict_get_or : simpl never.
#[local] Arguments eq_str : simpl never.
#[local] Arguments py_str : simpl never.
#[local] Arguments String.append : simpl never.
#[local] Arguments set_log : simpl never.

Local Opaque VideoDownloader.download_video AIProcessor.get_timestamps
  VideoEditor.process_video DriveUploader.upload_file Main.init_services.

Ltac explore_step :=
  match goal with
  | |- context [ VideoDownloader.download_video ?X ?s ?u ?l ?w ] =>
      let d := fresh "dl_result" in
      let H := fresh "Hdl" in
      destruct (download_video_returns X s u w) as (d & ? & -> & H)
  | |- context [ VideoEditor.process_video ?X ?s ?a ?b ?c ?l ?w ] =>
      let d := fresh "edit_result" in
      let H := fresh "Hedit" in
      destruct (editor_process_video_returns X s a b c w) as (d & ? & -> & H)
  | |- context [ AIProcessor.get_timestamps ?X ?f ?s ?p ?l ?w ] =>
      let d := fresh "ai_result" in
      destruct (AIProcessor.get_timestamps X f s p l w) as [[[d|?|] ?] ?]
  | |- context [ DriveUploader.upload_file ?X ?s ?p ?t ?l ?w ] =>
      let d := fresh "upload_result" in
      destruct (DriveUploader.upload_file X s p t l w) as [[[d|?|] ?] ?]
  | |- context [ if eq_str (dict_get ?d "status") "error" then _ else _ ] =>
      let E := fresh "Estatus" in
      destruct (eq_str (dict_get d "status") "error") eqn:E
  | |- context [ match dict_lookup ?d ?k with _ => _ end ] =>
      let E := fresh "Ekey" in
      destruct (dict_lookup d k) eqn:E
  | |- context [ match ?v with PNone => _ | _ => _ end ] =>
      is_var v; destruct v
  end; cbn.

Ltac explore := repeat (explore_step; unfold dict_item, py_item, py_get; munfold; cbn).

Ltac enter_process_video :=
  unfold Main.process_video; munfold; cbn;
  match goal with
  | |- context [ Main.init_services ?X ?j ?w ] =>
      let H := fresh "Hframe" in
      pose proof (init_services_frame X j w) as H;
      unfold frame_of in H;
      destruct (Main.init_services X j w) as [[[[[[dl ai] ed] up]|?|] ?] ?];
      cbn in H; subst; cbn
  end;
  unfold Main.pipeline, Main.staged, dict_item, py_item, py_get; munfold; cbn.

(** C4: the stages are called in the order Fetch, Analyze, Transcode,
    Publish, each one only after the stage before it has returned a
    dictionary that does not report an error, so that after a stage has
    failed (an error dictionary, an exception, or no return at all) no later
    stage is called; and when Fetch returns an error dictionary, nothing else
    is called and the request ends with the fetch error, tagged
    [Download failed], in an HTTP 500 exception. *)
Theorem short_circuit (fuel : nat) (url : string) (w : World) :
  let r := Main.process_video X fuel url new_job w in
  follows [Fetch; Analyze; Transcode; Publish] (history (frame_of r)) ∧
  (∀ d rest,
      history (frame_of r) = Call Fetch :: Return Fetch d :: rest →
      is_error d = true →
      rest = [] ∧
      outcome_of r = Raise (Exn (HTTPException 500)
                              ("Download failed: " +:+ py_str X (dict_get d "message")))).
Proof.
  intros r. generalize (eq_refl r). unfold r at 2. clearbody r.
  enter_process_video; explore; intros ->; cbn.
  all: unfold is_error; split;
    [ repeat first [ apply follows_none | apply follows_pending | apply follows_last
                   | apply follows_next; [ assumption | ] ]
    | intros ? ? Hh Herr; try discriminate Hh;
      injection Hh as <- <-; first [ by split | congruence ] ].
Qed.

(** C9: in every run that ends with a success response, the response's
    [original_video] is the title the Fetcher returned
    ([dl_result.get("title", "Untitled Video")]); when the Analyzer's
    structured result has no [suggested_title], [generated_short_title] is
    that same title; and when it has no [reasoning], the response's
    [reasoning] is the empty string. *)
Theorem response_defaults (fuel : nat) (url : string) (w : World) (resp : dict) :
  let r := Main.process_video X fuel url new_job w in
  outcome_of r = Ret resp →
  ∃ dl_result ai_result data rest,
    history (frame_of r)
    = Call Fetch :: Return Fetch dl_result :: Call Analyze :: Return Analyze ai_result :: rest ∧
    dict_lookup ai_result "data" = Some (PDict data) ∧
    dict_get resp "original_video" = dict_get_or dl_result "title" (PStr "Untitled Video") ∧
    (dict_lookup data "suggested_title" = None →
     dict_get resp "generated_short_title" = dict_get resp "original_video") ∧
    (dict_lookup data "reasoning" = None → dict_get resp "reasoning" = PStr "").
Proof.
  intros r. generalize (eq_refl r). unfold r at 2. clearbody r.
  enter_process_video; explore; intros ->; cbn; intros Hret; try discriminate Hret.
  injection Hret as <-.
  eexists _, _, _, _. split; [ reflexivity | ].
  split; [ eassumption | ].
  unfold dict_get, dict_get_or. cbn.
  split; [ reflexivity | ].
  split; intros ->; reflexivity.
Qed.

Lemma cleanup_one_logs_failure p w0 e :
  p ≠ "" → is_Some (w_fs w0 !! p) →
  outcome_of (os_remove (L:=unit) (PStr p) tt w0) = Raise e →
  Main.cleanup_one X (PStr p) tt w0
  = (Ret tt, tt,
     set_log (λ rs, rs ++ [(ERROR, "Failed to delete " +:+ p +:+ ": " +:+ exn_msg e)]) w0).
Proof.
  intros Hp Hsome Hraise.
  unfold Main.cleanup_one, os_path_exists. cbn [truthy].
  apply String.eqb_neq in Hp. rewrite Hp. cbn [negb]. munfold.
  rewrite bool_decide_eq_true_2 by assumption.
  unfold outcome_of in Hraise.
  destruct (os_remove (PStr p) () w0) as [[[a|e'|] l1] w1] eqn:Hrm; cbn in Hraise;
    try discriminate Hraise.
  injection Hraise as ->.
  unfold os_remove in Hrm. munfold.
  destruct (w_fs w0 !! p) as [[]|]; [ destruct (bool_decide (p ∈ w_protected w0)) | | ];
    destruct l1; simplify_eq; reflexivity.
Qed.

(** What the endpoint registers.  In every request that comes to a result,
    success or failure, the endpoint registers [cleanup_files] exactly once,
    after the outcome is fixed (in the [finally] block), with the list of the
    two tracking variables; none is registered only when the collaborators
    could not be built, in which case no stage has run.  Every path that Fetch or
    Transcode handed back in a result dictionary sits in its slot of that
    list.  Running a registered task comes back normally from every state of
    local storage, so no failure of a removal reaches the caller; such a
    failure leaves one ERROR record in the log. *)
Theorem cleanup_registered_once (fuel : nat) (url : string) (w : World) :
  let r := Main.process_video X fuel url new_job w in
  let j := frame_of r in
  outcome_of r ≠ Diverge →
  (background_tasks j = [CleanupFiles [downloaded_file j; processed_file j]] ∨
   (background_tasks j = [] ∧ history j = [])) ∧
  (∀ d, d ∈ returned Fetch (history j) → is_error d = false →
        ∃ p, dict_lookup d "file_path" = Some (PStr p) ∧
             background_tasks j = [CleanupFiles [PStr p; processed_file j]]) ∧
  (∀ d, d ∈ returned Transcode (history j) → is_error d = false →
        ∃ p, dict_lookup d "file_path" = Some (PStr p) ∧
             background_tasks j = [CleanupFiles [downloaded_file j; PStr p]]) ∧
  (∀ t w0, t ∈ background_tasks j → ∃ w1, Main.run_task X t tt w0 = (Ret tt, tt, w1)) ∧
  (∀ p w0 e,
      p ≠ "" → is_Some (w_fs w0 !! p) →
      outcome_of (os_remove (L:=unit) (PStr p) tt w0) = Raise e →
      Main.cleanup_one X (PStr p) tt w0
      = (Ret tt, tt,
         set_log (λ rs, rs ++ [(ERROR, "Failed to delete " +:+ p +:+ ": " +:+ exn_msg e)]) w0)).
Proof.
  intros r j. generalize (eq_refl r). unfold r at 2. subst j. clearbody r.
  enter_process_video; explore; intros ->; cbn; intros Hconv; try (by destruct Hconv).
  all: unfold carries_path, is_error in *.
  all: repeat match goal with
         | H : _ ∨ _ |- _ => destruct H as [H | (_ & ? & H)]; try congruence
         | H1 : dict_lookup ?d ?k = Some (PStr _), H2 : dict_lookup ?d ?k = Some ?v |- _ =>
             rewrite H1 in H2; injection H2 as <-
         | H1 : dict_lookup ?d ?k = Some (PStr _), H2 : dict_lookup ?d ?k = None |- _ =>
             rewrite H1 in H2; discriminate H2
         end.
  all: split; [ first [ by left | by right ] | ].
  all: split; [ intros ? Hin Herr;
                first [ by apply elem_of_nil in Hin
                      | apply list_elem_of_singleton in Hin; subst;
                        first [ congruence | eexists; split; [ eassumption | reflexivity ] ] ]
              | ].
  all: split; [ intros ? Hin Herr;
                first [ by apply elem_of_nil in Hin
                      | apply list_elem_of_singleton in Hin; subst;
                        first [ congruence | eexists; split; [ eassumption | reflexivity ] ] ]
              | ].
  all: split; [ | apply cleanup_one_logs_failure ].
  all: intros t w9 Hin.
  all: try (by apply elem_of_nil in Hin).
  all: apply list_elem_of_singleton in Hin; subst t; cbn [Main.run_task].
  all: match goal with
       | |- ∃ _, Main.cleanup_files X ?ps _ _ = _ =>
           assert (Forall path_entry ps) as Hps
             by (repeat (apply Forall_cons_2; [ first [ by left | right; eauto ] | ]);
                 apply Forall_nil_2);
           destruct (cleanup_files_returns X ps w9 Hps) as (w10 & Hrun & _); eauto
       end.
Qed.

End Pipeline.

Section Init.
Context (X : Collaborators).

Lemma only_local_refl w : only_local w w.
Proof. by repeat split. Qed.

Lemma only_local_trans w1 w2 w3 : only_local w1 w2 → only_local w2 w3 → only_local w1 w3.
Proof. unfold only_local. intros H1 H2. destruct_and!. repeat split; congruence. Qed.

Lemma only_local_set_log f w : only_local w (set_log f w).
Proof. by repeat split. Qed.

Lemma only_local_set_fs f w : only_local w (set_fs f w).
Proof. by repeat split. Qed.

#[local] Hint Resolve only_local_refl only_local_set_log only_local_set_fs : ends.

(** the cases of making the directory of a stage *)
Ltac dir_cases d w :=
  unfold os_path_exists, os_makedirs; munfold;
  destruct (bool_decide (is_Some (w_fs w !! d))); cbn;
  [ | destruct (w_fs w !! d); [ | destruct (bool_decide (d ∈ w_protected w)) ] ];
  cbn; eexists _, _; (split; [ reflexivity | ]);
  (split; [ discriminate | auto with ends ]).

Lemma downloader_init_ends d w :
  ∃ o w', VideoDownloader.__init__ X d tt w = (o, tt, w') ∧ o ≠ Diverge ∧ only_local w w'.
Proof. unfold VideoDownloader.__init__. dir_cases d w. Qed.

Lemma editor_init_ends d w :
  ∃ o w', VideoEditor.__init__ X d tt w = (o, tt, w') ∧ o ≠ Diverge ∧ only_local w w'.
Proof. unfold VideoEditor.__init__. dir_cases d w. Qed.

Lemma ai_init_ends key w :
  ∃ o, AIProcessor.__init__ key tt w = (o, tt, w) ∧ o ≠ Diverge ∧
       (truthy key = false → ∃ e, o = Raise e).
Proof.
  unfold AIProcessor.__init__. destruct (truthy key); cbn; eexists;
    (split; [ reflexivity | ]); (split; [ discriminate | ]); intros; eauto; discriminate.
Qed.

Lemma uploader_init_ends w :
  ∃ o w', DriveUploader.__init__ X tt w = (o, tt, w') ∧ o ≠ Diverge ∧ only_local w w' ∧
          (no_oauth w → ∃ e, o = Raise e).
Proof.
  unfold DriveUploader.__init__, DriveUploader._authenticate, no_oauth.
  munfold. cbn [DriveUploader.client_id DriveUploader.client_secret DriveUploader.refresh_token].
  destruct (forallb truthy _) eqn:Hall; cbn [negb].
  - destruct (drive_build X _ _ _) as [[] | e] eqn:Hbuild;
      eexists _, _; (split; [ reflexivity | ]); (split; [ discriminate | ]);
      (split; [ auto with ends | ]).
    + intros Hno. discriminate Hno.
    + eauto.
  - eexists _, _. split; [ reflexivity | ]. split; [ discriminate | ].
    split; [ auto with ends | eauto ].
Qed.

Lemma construct_ends j w :
  ∃ o w', Main.construct X j w = (o, j, w') ∧ o ≠ Diverge ∧ only_local w w' ∧
          (no_api_key w ∨ no_oauth w → ∃ e, o = Raise e).
Proof.
  unfold Main.construct. munfold.
  destruct (downloader_init_ends "downloads" w) as (o1 & w1 & -> & Ho1 & Hw1).
  destruct o1 as [d | e | ]; [ | eexists _, _; eauto 10 | done ].
  destruct (ai_init_ends (of_getenv (w_environ w !! "GOOGLE_API_KEY")) w1)
    as (o2 & -> & Ho2 & Hkey).
  destruct o2 as [a | e | ]; [ | eexists _, _; eauto 10 | done ].
  destruct (editor_init_ends "processed" w1) as (o3 & w3 & -> & Ho3 & Hw3).
  destruct o3 as [ed | e | ]; [ | eexists _, _; eauto 10 using only_local_trans | done ].
  destruct (uploader_init_ends w3) as (o4 & w4 & -> & Ho4 & Hw4 & Hauth).
  assert (only_local w w4) as Hw by eauto using only_local_trans.
  assert (only_local w w3) as Hw' by eauto using only_local_trans.
  destruct o4 as [up | e | ]; [ | eexists _, _; eauto 10 | done ].
  eexists _, _. split; [ reflexivity | ]. split; [ discriminate | ]. split; [ done | ].
  intros [Hno | Ho].
  - destruct (Hkey Hno) as [e He]. discriminate He.
  - destruct Hauth as [e He]; [ | discriminate He ].
    unfold no_oauth in *. destruct Hw' as (Henv & _). by rewrite Henv.
Qed.

(** X30: when the construction of a collaborator raises, the request ends with an
    init-stage error (an HTTP 500 exception whose detail starts with
    [Service Start Failed]) before any stage is called: the history is empty,
    no cleanup is registered, no tool has been run and no request sent to a
    remote service.  Construction does raise when the inference API key is
    missing and when an OAuth setting of the storage service is missing. *)
Theorem init_failure (fuel : nat) (url : string) (w : World) :
  let r := Main.process_video X fuel url new_job w in
  (∃ e, outcome_of (Main.construct X new_job (received url w)) = Raise e) ∨
  no_api_key w ∨ no_oauth w →
  init_error (outcome_of r) ∧
  frame_of r = new_job ∧
  only_local w (world_of r).
Proof.
  intros r Hfail.
  assert (∃ e w', Main.construct X new_job (received url w) = (Raise e, new_job, w')
                  ∧ only_local w w') as (e & w' & Hrun & Hw).
  { destruct (construct_ends new_job (received url w)) as (o & w' & Hrun & _ & Hw & Hraise).
    assert (only_local w w') as Hw'
      by (eapply only_local_trans; [ apply only_local_set_log | exact Hw ]).
    destruct Hfail as [[e He] | Hfail].
    - unfold outcome_of in He. rewrite Hrun in He. cbn in He. subst o. eauto.
    - destruct (Hraise Hfail) as [e ->]. eauto. }
  subst r. unfold Main.process_video, Main.init_services. munfold.
  cbn -[Main.construct]. fold (received url w). rewrite Hrun. cbn.
  split; [ eexists; reflexivity | ]. split; [ reflexivity | ].
  eapply only_local_trans; [ exact Hw | apply only_local_set_log ].
Qed.

End Init.

Section Transcode.
Context (X : Collaborators).

#[local] Arguments String.append : simpl never.

(** C2 (amended): [process_video] never compares the two timestamps.
    Whenever the probe of the input succeeds, for any start and end texts,
    the encoder is run with [-ss start -to end] exactly as given, and the
    result is an error dictionary exactly when the encoder run raises or the
    output file is missing afterwards. *)
Theorem transcode_cuts_as_given (s : VideoEditor.self) (fp st et : string)
    (w : World) (wd ht : Z) (w1 : World) :
  VideoEditor.get_video_info X s (PStr fp) tt (set_uuids S w) = (Ret (wd, ht), tt, w1) →
  let out := path_join (VideoEditor.output_dir s) (uuid4 X (w_uuids w) +:+ "_short.mp4") in
  let r := VideoEditor.process_video X s (PStr fp) (PStr st) (PStr et) tt w in
  ∃ args,
    as_strs (VideoEditor.ffmpeg_cmd (PStr fp) (PStr st) (PStr et) (ht >? wd) out) = Some args ∧
    take 8 args = [ "ffmpeg"; "-y"; "-i"; fp; "-ss"; st; "-to"; et ] ∧
    w_spawned (world_of r) = w_spawned w1 ++ [args] ∧
    ∃ d, outcome_of r = Ret d ∧
         (is_error d = true ↔
          (∃ e, (subprocess_run X args (w_fs w1)).1 = Err e) ∨
          (subprocess_run X args (w_fs w1)).2 !! out = None).
Proof.
  intros Hprobe out r. subst r.
  unfold VideoEditor.process_video, uuid4_str. munfold. cbn.
  rewrite Hprobe. fold out.
  unfold join_space, run_subprocess, os_path_exists, VideoEditor.ffmpeg_cmd. munfold.
  destruct (ht >? wd); cbn.
  all: eexists; split; [ reflexivity | ]; split; [ reflexivity | ].
  all: match goal with
       | |- context [ subprocess_run X ?a ?fs ] =>
           destruct (subprocess_run X a fs) as [[so | e] fs'] eqn:Hrun
       end; cbn.
  all: try (match goal with
            | |- context [ is_CalledProcessError ?x ] => destruct (is_CalledProcessError x)
            end; cbn;
            (split; [ reflexivity | ]); eexists; (split; [ reflexivity | ]);
            (split; [ intros _; left; eexists; reflexivity | intros _; reflexivity ])).
  all: destruct (fs' !! out) as [en | ] eqn:Hout.
  all: try rewrite bool_decide_eq_true_2 by eauto.
  all: try rewrite bool_decide_eq_false_2 by (intros [? ?]; discriminate).
  all: cbn; (split; [ reflexivity | ]); eexists; (split; [ reflexivity | ]).
  all: unfold is_error; cbn; split; intros H; try done; try auto.
  all: destruct H as [[? ?] | ?]; discriminate.
Qed.
End Transcode.

(** ** Runs on the sample collaborators *)

Lemma transcode_cuts_as_given_witness :
  ∃ args,
    take 8 args = [ "ffmpeg"; "-y"; "-i"; "downloads/job0.mp4";
                    "-ss"; "00:01:00"; "-to"; "00:00:30" ] ∧
    w_spawned (world_of (VideoEditor.process_video Sample.ready Sample.editor
                           (PStr "downloads/job0.mp4") (PStr "00:01:00") (PStr "00:00:30")
                           tt Sample.used))
    = [ [ "ffprobe"; "-v"; "error"; "-select_streams"; "v:0"; "-show_entries";
          "stream=width,height"; "-of"; "json"; "downloads/job0.mp4" ]; args ].
Proof.
  destruct (transcode_cuts_as_given Sample.ready Sample.editor
              "downloads/job0.mp4" "00:01:00" "00:00:30" Sample.used 1920 1080
              (set_spawned (λ cs, cs ++ [ [ "ffprobe"; "-v"; "error"; "-select_streams";
                                            "v:0"; "-show_entries"; "stream=width,height";
                                            "-of"; "json"; "downloads/job0.mp4" ] ])
                 (set_uuids S Sample.used)))
    as (args & _ & Htake & Hspawned & _).
  { vm_compute. reflexivity. }
  exists args. split; [ exact Htake | exact Hspawned ].
Defined.

(** C2, as the claim states it, fails: a segment that ends thirty seconds
    before it starts is not turned away before the cut.  The encoder is run
    on it with the timestamps as given, so it is not the case that an error
    comes back without a cut having been attempted; with an encoder that
    accepts the command, what comes back is a success dictionary. *)
Lemma reversed_segment_is_cut :
  let r := VideoEditor.process_video Sample.ready Sample.editor
             (PStr "downloads/job0.mp4") (PStr "00:01:00") (PStr "00:00:30") tt Sample.used in
  seconds_of "00:01:00" = Some 60 ∧ seconds_of "00:00:30" = Some 30 ∧
  ¬ ((∃ d, outcome_of r = Ret d ∧ is_error d = true) ∧
     (∀ cmd, cmd ∈ w_spawned (world_of r) → head cmd ≠ Some "ffmpeg")) ∧
  last (w_spawned (world_of r))
  = Some [ "ffmpeg"; "-y"; "-i"; "downloads/job0.mp4"; "-ss"; "00:01:00"; "-to"; "00:00:30";
           "-c:v"; "libx264"; "-crf"; "18"; "-preset"; "slow"; "-c:a"; "aac";
           "-strict"; "experimental"; "-b:a"; "192k";
           "-vf"; "crop=trunc(ih*9/16/2)*2:ih:(iw-ow)/2:0"; "processed/job0_short.mp4" ] ∧
  outcome_of r = Ret [ ("status", PStr "success");
                       ("file_path", PStr "processed/job0_short.mp4") ].
Proof.
  cbv zeta. split; [ reflexivity | ]. split; [ reflexivity | ].
  split; [ | split; vm_compute; reflexivity ].
  intros (_ & Hnone).
  eapply Hnone;
    [ vm_compute; apply list_elem_of_further, list_elem_of_here | reflexivity ].
Qed.

(** C3: the code departs from the claim.  Whatever the collaborators, when
    the inference service accepts the upload and then reports the state
    [FAILED], [upload_file] raises before [get_timestamps] has bound
    [video_file]; the [finally] block finds [None] and deletes nothing, and
    the Analyzer returns its error dictionary while the service still holds
    the copy. *)
Theorem failed_upload_is_never_deleted (X : Collaborators) (fuel : nat)
    (s : AIProcessor.self) (path : string) (w : World) (f : genai_file) :
  genai_upload_file X path = Ok f →
  gf_state f = "FAILED" →
  let r := AIProcessor.get_timestamps X fuel s (PStr path) None w in
  outcome_of r = Ret [ ("status", PStr "error");
                       ("message", PStr "Video processing failed on Google servers.") ] ∧
  frame_of r = None ∧
  gf_name f ∈ w_genai (world_of r).
Proof.
  intros Hup Hfailed r. subst r.
  destruct f as [name state]. cbn in Hfailed. subst state.
  unfold AIProcessor.get_timestamps, AIProcessor.upload_file, AIProcessor.genai_upload.
  munfold. cbn. rewrite Hup. cbn.
  destruct fuel; cbn; (split; [ reflexivity | ]); (split; [ reflexivity | ]);
    set_solver.
Qed.

(** Whatever the collaborators, [DriveUploader.upload_file] grants nothing:
    an object of the storage service that it leaves behind is either as it
    was or without any permission. *)
Lemma upload_file_grants_nothing (X : Collaborators) (s : DriveUploader.self)
    (file_path video_title : pyval) (w : World) (id : string) (o : drive_object) :
  w_drive (world_of (DriveUploader.upload_file X s file_path video_title tt w)) !! id = Some o →
  w_drive w !! id = Some o ∨ o_permissions o = [].
Proof.
  unfold DriveUploader.upload_file, os_path_exists. munfold.
  destruct file_path as [ | b | z | path | l | d ]; cbn;
    try (destruct (fd_exists X _); cbn); auto.
  destruct (bool_decide (is_Some (w_fs w !! path))); cbn; auto.
  destruct (media_file_upload X path) as [[] | e]; cbn; auto.
  destruct (drive_files_create X _ path) as [[id' link] | e]; cbn; auto.
  unfold drive_add. intros Hlook.
  destruct (decide (id' = id)) as [-> | Hne].
  - rewrite lookup_insert_eq in Hlook. injection Hlook as <-. by right.
  - rewrite lookup_insert_ne in Hlook by assumption. by left.
Qed.

(** C5: the code departs from the claim.  Whatever the collaborators, when
    [DriveUploader.upload_file] returns a success dictionary, the object it
    names is held by the storage service without any permission: it is not
    readable by any requester, although its link is returned.  The upload of
    the earlier worker, [upload_to_drive], whenever it returns, has granted
    [reader] to [anyone] on the object it created. *)
Theorem upload_grants_no_public_read (X : Collaborators) (s : DriveUploader.self)
    (file_path video_title : pyval) (w : World) (path filename : string) :
  (∀ d, outcome_of (DriveUploader.upload_file X s file_path video_title tt w) = Ret d →
        is_error d = false →
        ∃ id o,
          dict_lookup d "file_id" = Some (PStr id) ∧
          w_drive (world_of (DriveUploader.upload_file X s file_path video_title tt w)) !! id
          = Some o ∧
          o_permissions o = [] ∧ public_readable o = false) ∧
  (∀ link, outcome_of (Config.upload_to_drive X path filename tt w) = Ret link →
           ∃ id o,
             w_drive (world_of (Config.upload_to_drive X path filename tt w)) !! id = Some o ∧
             public_readable o = true).
Proof.
  split.
  - unfold DriveUploader.upload_file, os_path_exists. munfold.
    destruct file_path as [ | b | z | p | l | d0 ]; cbn;
      try (destruct (fd_exists X _); cbn);
      try (intros d Hd; discriminate Hd);
      try (intros d Hd; injection Hd as <-; intros Herr; discriminate Herr).
    destruct (bool_decide (is_Some (w_fs w !! p))); cbn;
      try (intros d Hd; discriminate Hd).
    destruct (media_file_upload X p) as [[] | e]; cbn;
      try (intros d Hd; injection Hd as <-; intros Herr; discriminate Herr).
    destruct (drive_files_create X _ p) as [[id' link] | e]; cbn;
      try (intros d Hd; injection Hd as <-; intros Herr; discriminate Herr).
    intros d [= <-] _. exists id'. eexists. split; [ reflexivity | ].
    unfold drive_add. rewrite lookup_insert_eq. split; [ reflexivity | ]. by split.
  - unfold Config.upload_to_drive. munfold.
    destruct (service_account_build X) as [[] | e]; cbn; try discriminate.
    destruct (media_file_upload X path) as [[] | e]; cbn; try discriminate.
    destruct (drive_files_create X _ path) as [[id' link'] | e]; cbn; try discriminate.
    destruct (drive_permissions_create X _ _) as [[] | e]; cbn; try discriminate.
    intros link _. exists id'. eexists. unfold drive_grant, drive_add.
    rewrite lookup_alter_eq, lookup_insert_eq. cbn. split; reflexivity.
Qed.

(** The two analyses on the sample collaborators: after a processing that
    failed at the service the copy is still held, after one that succeeded
    it is gone. *)
Lemma failed_processing_leaves_remote_copy :
  let r := AIProcessor.get_timestamps Sample.rejecting 5 Sample.ai_processor
             (PStr "downloads/job0.mp4") None Sample.used in
  let r' := AIProcessor.get_timestamps Sample.ready 5 Sample.ai_processor
              (PStr "downloads/job0.mp4") None Sample.used in
  outcome_of r = Ret [ ("status", PStr "error");
                       ("message", PStr "Video processing failed on Google servers.") ] ∧
  w_genai (world_of r) = {[ "files/abc" ]} ∧
  outcome_of r' = Ret [ ("status", PStr "success"); ("data", Sample.answer) ] ∧
  w_genai (world_of r') = ∅.
Proof. cbv zeta. repeat split; vm_compute; reflexivity. Qed.

Lemma failed_upload_is_never_deleted_witness :
  genai_upload_file Sample.rejecting "downloads/job0.mp4" = Ok (GenaiFile "files/abc" "FAILED") ∧
  "files/abc" ∈ w_genai (world_of (AIProcessor.get_timestamps Sample.rejecting 5
                                     Sample.ai_processor (PStr "downloads/job0.mp4")
                                     None Sample.used)).
Proof.
  split; [ reflexivity | ].
  exact (proj2 (proj2 (failed_upload_is_never_deleted Sample.rejecting 5 Sample.ai_processor
                         "downloads/job0.mp4" Sample.used (GenaiFile "files/abc" "FAILED")
                         eq_refl eq_refl))).
Defined.

Lemma upload_grants_no_public_read_witness :
  outcome_of (DriveUploader.upload_file Sample.ready Sample.uploader
                (PStr "processed/job1_short.mp4") (PStr "A talk") tt Sample.used)
  = Ret [ ("status", PStr "success"); ("file_id", PStr "id1");
          ("drive_link", PStr "https://drive.example/id1") ] ∧
  ∃ o, w_drive (world_of (DriveUploader.upload_file Sample.ready Sample.uploader
                            (PStr "processed/job1_short.mp4") (PStr "A talk") tt Sample.used))
       !! "id1" = Some o ∧ public_readable o = false.
Proof.
  split; [ vm_compute; reflexivity | ].
  destruct (proj1 (upload_grants_no_public_read Sample.ready Sample.uploader
                     (PStr "processed/job1_short.mp4") (PStr "A talk") Sample.used
                     "processed/job1_short.mp4" "Short_job1.mp4") _
                  ltac:(vm_compute; reflexivity) eq_refl)
    as (id & o & Hid & Ho & _ & Hpub).
  vm_compute in Hid. injection Hid as <-.
  exists o. split; [ exact Ho | exact Hpub ].
Defined.

Lemma short_circuit_witness :
  history (frame_of (Main.process_video Sample.unavailable 5 Sample.url new_job Sample.fresh))
  = [ Call Fetch;
      Return Fetch [ ("status", PStr "error"); ("message", PStr "Video unavailable") ] ] ∧
  outcome_of (Main.process_video Sample.unavailable 5 Sample.url new_job Sample.fresh)
  = Raise (Exn (HTTPException 500) "Download failed: Video unavailable").
Proof.
  assert (history (frame_of (Main.process_video Sample.unavailable 5 Sample.url
                               new_job Sample.fresh))
          = [ Call Fetch;
              Return Fetch [ ("status", PStr "error");
                             ("message", PStr "Video unavailable") ] ]) as Hh
    by (vm_compute; reflexivity).
  split; [ exact Hh | ].
  exact (proj2 (proj2 (short_circuit Sample.unavailable 5 Sample.url Sample.fresh) _ _
                  Hh eq_refl)).
Defined.

Lemma cleanup_registered_once_witness :
  outcome_of (Main.process_video Sample.ready 5 Sample.url new_job Sample.fresh) ≠ Diverge ∧
  ∃ p, background_tasks
         (frame_of (Main.process_video Sample.ready 5 Sample.url new_job Sample.fresh))
       = [ CleanupFiles [ PStr p; PStr "processed/job1_short.mp4" ] ].
Proof.
  assert (outcome_of (Main.process_video Sample.ready 5 Sample.url new_job Sample.fresh)
          ≠ Diverge) as Hconv by (vm_compute; discriminate).
  split; [ exact Hconv | ].
  destruct (cleanup_registered_once Sample.ready 5 Sample.url Sample.fresh Hconv)
    as (_ & Hfetch & _).
  destruct (Hfetch [ ("status", PStr "success"); ("file_path", PStr "downloads/job0.mp4");
                     ("title", PStr "A talk"); ("duration", PInt 600);
                     ("video_id", PStr "v1") ]) as (p & _ & Htasks).
  { vm_compute. apply list_elem_of_here. }
  { reflexivity. }
  exists p. rewrite Htasks. vm_compute. reflexivity.
Defined.

Lemma init_failure_witness :
  no_api_key (Sample.world ∅ ∅) ∧
  init_error (outcome_of (Main.process_video Sample.ready 5 Sample.url new_job
                            (Sample.world ∅ ∅))) ∧
  frame_of (Main.process_video Sample.ready 5 Sample.url new_job (Sample.world ∅ ∅)) = new_job.
Proof.
  assert (no_api_key (Sample.world ∅ ∅)) as Hkey by reflexivity.
  split; [ exact Hkey | ].
  destruct (init_failure Sample.ready 5 Sample.url (Sample.world ∅ ∅)
              (or_intror (or_introl Hkey))) as (Herr & Hframe & _).
  split; [ exact Herr | exact Hframe ].
Defined.

Lemma response_defaults_witness :
  ∃ resp,
    outcome_of (Main.process_video Sample.ready 5 Sample.url new_job Sample.fresh) = Ret resp ∧
    dict_get resp "generated_short_title" = PStr "A talk" ∧
    dict_get resp "reasoning" = PStr "".
Proof.
  eexists. split; [ vm_compute; reflexivity | ].
  destruct (response_defaults Sample.ready 5 Sample.url Sample.fresh _ eq_refl)
    as (dl_result & ai_result & data & rest & Hh & Hdata & Horig & Htitle & Hreason).
  vm_compute in Hh. injection Hh as <- <- <-.
  vm_compute in Hdata. injection Hdata as <-.
  split.
  - exact (eq_trans (Htitle eq_refl) Horig).
  - exact (Hreason eq_refl).
Defined.

Lemma cleanup_files_total_witness :
  Forall path_entry [ PNone; PStr "downloads/job0.mp4"; PStr "gone.mp4" ] ∧
  ∃ w', Main.cleanup_files Sample.ready
          [ PNone; PStr "downloads/job0.mp4"; PStr "gone.mp4" ] tt Sample.used
        = (Ret tt, tt, w').
Proof.
  assert (Forall path_entry [ PNone; PStr "downloads/job0.mp4"; PStr "gone.mp4" ]) as Hall.
  { repeat apply Forall_cons_2; try apply Forall_nil_2; first [ by left | right; eauto ]. }
  split; [ exact Hall | ].
  destruct (cleanup_files_total Sample.ready _ Sample.used Hall) as ((w' & Hrun & _) & _).
  exists w'. exact Hrun.
Defined.

(** * Further properties of the code *)

(** ** The crop window ([services/editor.py], [process_video]) *)

(** X1: for every input that is not taller than wide, the crop filter of
    [process_video] cuts a window that lies inside the frame: its width is
    the even number [2 * floor(floor(9h/16) / 2)], at most 9/16 of the height
    and less than two below it, and its horizontal offset [(iw-ow)/2] leaves
    the same margin on both sides. *)
Theorem crop_window_fits (iw ih : Z) :
  0 ≤ ih → ih ≤ iw →
  ∃ x : Q,
    crop_width center_crop iw ih = Some (inject_Z (crop_target ih)) ∧
    crop_offset center_crop iw ih = Some x ∧
    Z.even (crop_target ih) = true ∧
    16 * crop_target ih ≤ 9 * ih < 16 * (crop_target ih + 2) ∧
    Qeq x ((iw - crop_target ih) # 2) ∧
    Qle 0 x ∧
    Qeq (x + inject_Z (crop_target ih) + x) (inject_Z iw).
Proof.
  intros Hih Hle.
  pose proof (crop_width_formula iw ih Hih) as Hw. fold (crop_target ih) in Hw.
  assert (16 * crop_target ih ≤ 9 * ih < 16 * (crop_target ih + 2)) as Hbound.
  { unfold crop_target. rewrite Z.div_div by lia. change (16 * 2) with 32.
    pose proof (Z.div_mod (ih * 9) 32 ltac:(lia)) as Hdm.
    pose proof (Z.mod_pos_bound (ih * 9) 32 ltac:(lia)) as Hmod. lia. }
  unfold crop_offset. rewrite Hw.
  unfold center_crop. cbn [crop_x feval]. unfold crop_env.
  cbn [String.eqb Ascii.eqb Bool.eqb mbind option_bind].
  change (Qeq_bool (inject_Z 2) 0%Q) with false. cbv iota.
  set (x := Qred (Qred (inject_Z iw - inject_Z (crop_target ih)) / inject_Z 2)).
  assert (Qeq x ((iw - crop_target ih) # 2)) as Hx.
  { unfold x. rewrite !Qred_correct.
    unfold Qeq, Qdiv, Qminus, Qplus, Qopp, Qmult, Qinv, inject_Z. cbn. lia. }
  exists x. split; [ reflexivity | ]. split; [ reflexivity | ].
  split; [ unfold crop_target; apply Z.even_mul | ].
  split; [ exact Hbound | ]. split; [ exact Hx | ].
  split.
  - rewrite Hx. unfold Qle. cbn. lia.
  - rewrite Hx. unfold Qeq, Qplus, inject_Z. cbn. lia.
Qed.

Lemma crop_window_fits_witness :
  0 ≤ 1080 ∧ 1080 ≤ 1080 ∧
  crop_width center_crop 1080 1080 = Some (inject_Z 606) ∧
  crop_offset center_crop 1080 1080 = Some (inject_Z 237).
Proof.
  split; [ lia | ]. split; [ lia | ].
  destruct (crop_window_fits 1080 1080 ltac:(lia) ltac:(lia)) as (x & Hw & Hx & _).
  split; [ exact Hw | ]. rewrite Hx. f_equal.
  assert (Some x = Some (inject_Z 237)) as Heq
    by (rewrite <- Hx; vm_compute; reflexivity).
  by injection Heq.
Defined.

(** ** What the cleanup leaves behind ([main.py], [cleanup_files]) *)

Section CleanupEffects.
Context (X : Collaborators).

Lemma only_local_refl' w : only_local w w.
Proof. by repeat split. Qed.

Lemma only_local_trans' w1 w2 w3 : only_local w1 w2 → only_local w2 w3 → only_local w1 w3.
Proof. unfold only_local. intros H1 H2. destruct_and!. repeat split; congruence. Qed.

(** one round of the loop either removes the entry, or leaves local
    storage as it is *)
Lemma cleanup_one_fs v w :
  path_entry v →
  ∃ w', Main.cleanup_one X v tt w = (Ret tt, tt, w') ∧ only_local w w' ∧
        ((∃ p, v = PStr p ∧ removable w p ∧ w_fs w' = delete p (w_fs w)) ∨
         ((∀ p, v = PStr p → ¬ removable w p) ∧ w_fs w' = w_fs w)).
Proof.
  unfold removable.
  intros [-> | (s & ->)].
  { exists w. split; [ reflexivity | ]. split; [ apply only_local_refl' | ].
    right. split; [ intros p Hp; discriminate Hp | reflexivity ]. }
  unfold Main.cleanup_one, os_path_exists, os_remove. cbn [truthy].
  destruct (String.eqb s "") eqn:Hs; cbn [negb]; munfold.
  { apply String.eqb_eq in Hs. subst s.
    exists w. split; [ reflexivity | ]. split; [ apply only_local_refl' | ].
    right. split; [ | reflexivity ]. intros p [= <-] (Hne & _). by apply Hne. }
  apply String.eqb_neq in Hs.
  destruct (w_fs w !! s) as [en|] eqn:Hfs.
  2:{ rewrite bool_decide_eq_false_2 by (intros [? ?]; discriminate).
      exists w. split; [ reflexivity | ]. split; [ apply only_local_refl' | ].
      right. split; [ | reflexivity ]. intros p [= <-] (_ & Hfile & _). congruence. }
  rewrite bool_decide_eq_true_2 by eauto. cbn. rewrite Hfs.
  destruct en; [ destruct (bool_decide (s ∈ w_protected w)) eqn:Hprot | ]; cbn;
    eexists; (split; [ reflexivity | ]); (split; [ by repeat split | ]); cbn.
  - right. split; [ | reflexivity ]. intros p [= <-] (_ & _ & Hnot).
    apply bool_decide_eq_true in Hprot. by apply Hnot.
  - left. exists s. apply bool_decide_eq_false in Hprot. by repeat split.
  - right. split; [ | reflexivity ]. intros p [= <-] (_ & Hfile & _). congruence.
Qed.

(** the state of local storage after the loop, path by path *)
Lemma cleanup_files_fs paths w :
  Forall path_entry paths →
  ∃ w', Main.cleanup_files X paths tt w = (Ret tt, tt, w') ∧ only_local w w' ∧
        ∀ p, (PStr p ∈ paths → removable w p → w_fs w' !! p = None) ∧
             (¬ (PStr p ∈ paths ∧ removable w p) → w_fs w' !! p = w_fs w !! p).
Proof.
  intros Hall. revert w.
  induction Hall as [ | v rest Hv _ IH ]; intros w.
  { exists w. split; [ reflexivity | ]. split; [ apply only_local_refl' | ].
    intros p. split; [ intros Hin; by apply elem_of_nil in Hin | reflexivity ]. }
  destruct (cleanup_one_fs v w Hv) as (w1 & Hone & Hloc1 & Hstep).
  destruct (IH w1) as (w2 & Hrest & Hloc2 & Hfs).
  exists w2. split; [ rewrite cleanup_files_cons, Hone; exact Hrest | ].
  split; [ by eapply only_local_trans' | ].
  assert (w_protected w1 = w_protected w) as Hprot by apply Hloc1.
  intros p. destruct (Hfs p) as [Hgone Hkept].
  destruct Hstep as [(q & -> & Hq & Hdel) | (Hnot & Hsame)].
  - destruct (decide (p = q)) as [-> | Hne].
    + assert (w_fs w1 !! q = None) as Hnone by (rewrite Hdel; apply lookup_delete_eq).
      assert (w_fs w2 !! q = None) as Hq2.
      { rewrite Hkept; [ exact Hnone | ]. intros (_ & _ & Hfile & _). congruence. }
      split; [ auto | ]. intros Hno. exfalso. apply Hno.
      split; [ apply list_elem_of_here | exact Hq ].
    + assert (w_fs w1 !! p = w_fs w !! p) as Hp
        by (rewrite Hdel; by apply lookup_delete_ne).
      assert (removable w1 p ↔ removable w p) as Hrem
        by (unfold removable; rewrite Hp, Hprot; tauto).
      split.
      * intros Hin Hr. apply Hgone; [ | by apply Hrem ].
        apply elem_of_cons in Hin as [Heq | Hin]; [ congruence | exact Hin ].
      * intros Hno. rewrite Hkept; [ exact Hp | ].
        intros (Hin & Hr). apply Hno. split; [ by apply list_elem_of_further | by apply Hrem ].
  - assert (∀ p', removable w1 p' ↔ removable w p') as Hrem
      by (intros p'; unfold removable; rewrite Hsame, Hprot; tauto).
    split.
    + intros Hin Hr. apply Hgone; [ | by apply Hrem ].
      apply elem_of_cons in Hin as [Heq | Hin]; [ | exact Hin ].
      exfalso. by apply (Hnot p).
    + intros Hno. rewrite Hkept; [ by rewrite Hsame | ].
      intros (Hin & Hr). apply Hno. split; [ by apply list_elem_of_further | by apply Hrem ].
Qed.

(** X2: after [cleanup_files] on a list of path entries, every listed
    regular file that the process may remove is gone from local storage,
    every other path (unlisted, a directory, protected, absent) is as it was,
    and nothing outside local storage and the log has changed. *)
Theorem cleanup_removes_listed_files (paths : list pyval) (w : World) :
  Forall path_entry paths →
  let w' := world_of (Main.cleanup_files X paths tt w) in
  (∀ p, PStr p ∈ paths → removable w p → w_fs w' !! p = None) ∧
  (∀ p, ¬ (PStr p ∈ paths ∧ removable w p) → w_fs w' !! p = w_fs w !! p) ∧
  only_local w w'.
Proof.
  intros Hall w'. subst w'.
  destruct (cleanup_files_fs paths w Hall) as (w' & -> & Hloc & Hfs). cbn.
  split; [ intros p; apply Hfs | ]. split; [ intros p; apply Hfs | exact Hloc ].
Qed.

(** X3: running [cleanup_files] a second time on the same list changes
    nothing more in local storage. *)
Theorem cleanup_files_twice (paths : list pyval) (w : World) :
  Forall path_entry paths →
  let w' := world_of (Main.cleanup_files X paths tt w) in
  w_fs (world_of (Main.cleanup_files X paths tt w')) = w_fs w'.
Proof.
  intros Hall w'. subst w'.
  destruct (cleanup_files_fs paths w Hall) as (w1 & -> & Hloc1 & Hfs1). cbn.
  destruct (cleanup_files_fs paths w1 Hall) as (w2 & -> & Hloc2 & Hfs2). cbn.
  apply map_eq. intros p. apply Hfs2. intros (Hin & Hne & Hfile & Hprot).
  assert (w_protected w1 = w_protected w) as Hp by apply Hloc1.
  destruct (w_fs w !! p) as [[]|] eqn:Hw.
  - assert (removable w p) as Hr by (repeat split; [ done | done | by rewrite <- Hp ]).
    rewrite (proj1 (Hfs1 p) Hin Hr) in Hfile. discriminate Hfile.
  - rewrite (proj2 (Hfs1 p)) in Hfile; [ congruence | ].
    intros (_ & _ & Hf & _). congruence.
  - rewrite (proj2 (Hfs1 p)) in Hfile; [ congruence | ].
    intros (_ & _ & Hf & _). congruence.
Qed.

End CleanupEffects.

(** ** The Analyzer ([services/intelligence.py]) *)

Section Analyzer.
Context (X : Collaborators).

#[local] Arguments String.append : simpl never.

Lemma wait_processing_step fuel name w :
  AIProcessor.wait_processing X (S fuel) (GenaiFile name "PROCESSING") tt w
  = match genai_get_file X name (w_polls w) with
    | Ok f' =>
        AIProcessor.wait_processing X fuel f' tt
          (set_polls S (set_log (λ rs, rs ++ [(INFO, "Waiting for video to process...")]) w))
    | Err e =>
        (Raise e, tt,
         set_polls S (set_log (λ rs, rs ++ [(INFO, "Waiting for video to process...")]) w))
    end.
Proof.
  cbn [AIProcessor.wait_processing gf_state gf_name].
  change (String.eqb "PROCESSING" "PROCESSING") with true. cbv iota.
  unfold AIProcessor.genai_get. munfold. cbn.
  destruct (genai_get_file X name (w_polls w)); reflexivity.
Qed.

Lemma wait_processing_ready fuel f w :
  gf_state f ≠ "PROCESSING" →
  AIProcessor.wait_processing X fuel f tt w = (Ret f, tt, w).
Proof.
  intros Hst. apply String.eqb_neq in Hst.
  destruct fuel; cbn [AIProcessor.wait_processing]; by rewrite Hst.
Qed.

(** the loop comes back at the first answer that is not [PROCESSING] *)
Lemma wait_processing_returns (name st : string) (k fuel : nat) (w : World) :
  st ≠ "PROCESSING" →
  (∀ i, (i < k)%nat →
        genai_get_file X name (w_polls w + i)%nat = Ok (GenaiFile name "PROCESSING")) →
  genai_get_file X name (w_polls w + k)%nat = Ok (GenaiFile name st) →
  (k < fuel)%nat →
  ∃ w', AIProcessor.wait_processing X fuel (GenaiFile name "PROCESSING") tt w
        = (Ret (GenaiFile name st), tt, w') ∧
        w_polls w' = (w_polls w + S k)%nat ∧
        w_genai w' = w_genai w ∧ w_fs w' = w_fs w ∧ w_drive w' = w_drive w.
Proof.
  intros Hst. revert fuel w.
  induction k as [ | k IH ]; intros fuel w Hbusy Hdone Hfuel.
  - destruct fuel as [ | fuel ]; [ lia | ].
    rewrite wait_processing_step. rewrite Nat.add_0_r in Hdone. rewrite Hdone.
    rewrite wait_processing_ready by done.
    eexists. split; [ reflexivity | ]. cbn. repeat split; lia.
  - destruct fuel as [ | fuel ]; [ lia | ].
    rewrite wait_processing_step.
    rewrite <- (Nat.add_0_r (w_polls w)), (Hbusy 0%nat) by lia.
    set (w1 := set_polls S (set_log _ w)).
    destruct (IH fuel w1) as (w' & Hrun & Hpolls & Hgenai & Hfs & Hdrive).
    + intros i Hi. cbn. rewrite <- Nat.add_succ_r. apply Hbusy. lia.
    + cbn. rewrite <- Nat.add_succ_r. exact Hdone.
    + lia.
    + exists w'. split; [ exact Hrun | ]. cbn in Hpolls.
      repeat split; [ lia | exact Hgenai | exact Hfs | exact Hdrive ].
Qed.

(** the loop has no bound of its own *)
Lemma wait_processing_stalls (name : string) (fuel : nat) (w : World) :
  (∀ n, genai_get_file X name n = Ok (GenaiFile name "PROCESSING")) →
  ∃ w', AIProcessor.wait_processing X fuel (GenaiFile name "PROCESSING") tt w
        = (Diverge, tt, w') ∧
        w_genai w' = w_genai w.
Proof.
  intros Hbusy. revert w.
  induction fuel as [ | fuel IH ]; intros w; [ by eexists | ].
  rewrite wait_processing_step, Hbusy.
  destruct (IH (set_polls S (set_log (λ rs, rs ++ [(INFO, "Waiting for video to process...")]) w)))
    as (w' & -> & Hg).
  by exists w'.
Qed.

Lemma wait_processing_stalls_fs (name : string) (fuel : nat) (w : World) :
  (∀ n, genai_get_file X name n = Ok (GenaiFile name "PROCESSING")) →
  ∃ w', AIProcessor.wait_processing X fuel (GenaiFile name "PROCESSING") tt w
        = (Diverge, tt, w') ∧
        w_genai w' = w_genai w ∧ w_fs w' = w_fs w.
Proof.
  intros Hbusy. revert w.
  induction fuel as [ | fuel IH ]; intros w; [ by eexists | ].
  rewrite wait_processing_step, Hbusy.
  destruct (IH (set_polls S (set_log (λ rs, rs ++ [(INFO, "Waiting for video to process...")]) w)))
    as (w' & -> & Hg & Hf).
  by exists w'.
Qed.

(** X4: when the inference service takes the upload, reports [PROCESSING]
    for the first [k] status requests and another state [st] at the next one,
    [upload_file] comes back after exactly [k + 1] status requests, however
    many more rounds it is allowed: with the handle in state [st], or with a
    [ValueError] when [st] is [FAILED].  Either way the service holds the
    copy. *)
Theorem upload_file_waits (s : AIProcessor.self) (path name st : string)
    (k fuel : nat) (w : World) :
  genai_upload_file X path = Ok (GenaiFile name "PROCESSING") →
  (∀ i, (i < k)%nat →
        genai_get_file X name (w_polls w + i)%nat = Ok (GenaiFile name "PROCESSING")) →
  genai_get_file X name (w_polls w + k)%nat = Ok (GenaiFile name st) →
  st ≠ "PROCESSING" →
  (k < fuel)%nat →
  let r := AIProcessor.upload_file X fuel s (PStr path) tt w in
  outcome_of r
  = (if String.eqb st "FAILED"
     then Raise (Exn ValueError "Video processing failed on Google servers.")
     else Ret (GenaiFile name st)) ∧
  w_polls (world_of r) = (w_polls w + S k)%nat ∧
  w_genai (world_of r) = {[ name ]} ∪ w_genai w.
Proof.
  intros Hup Hbusy Hdone Hst Hfuel r. subst r.
  unfold AIProcessor.upload_file, AIProcessor.genai_upload. munfold. cbn.
  rewrite Hup. cbn.
  match goal with
  | |- context [ AIProcessor.wait_processing X fuel _ tt ?w0 ] =>
      destruct (wait_processing_returns name st k fuel w0 Hst Hbusy Hdone Hfuel)
        as (w' & -> & Hpolls & Hgenai & _)
  end.
  cbn in *. destruct (String.eqb st "FAILED"); cbn; by repeat split.
Qed.

(** X5: when the inference service takes the upload and then goes on
    reporting [PROCESSING], [get_timestamps] never comes back, however many
    rounds of the loop are allowed: the wait has no bound.  Its [finally]
    block is never reached, and the service holds the copy. *)
Theorem analysis_never_returns (s : AIProcessor.self) (path name : string)
    (fuel : nat) (l : option genai_file) (w : World) :
  genai_upload_file X path = Ok (GenaiFile name "PROCESSING") →
  (∀ n, genai_get_file X name n = Ok (GenaiFile name "PROCESSING")) →
  let r := AIProcessor.get_timestamps X fuel s (PStr path) l w in
  outcome_of r = Diverge ∧ frame_of r = None ∧ name ∈ w_genai (world_of r).
Proof.
  intros Hup Hbusy r. subst r.
  unfold AIProcessor.get_timestamps, AIProcessor.upload_file, AIProcessor.genai_upload.
  munfold. cbn. rewrite Hup. cbn.
  match goal with
  | |- context [ AIProcessor.wait_processing X fuel _ tt ?w0 ] =>
      destruct (wait_processing_stalls name fuel w0 Hbusy) as (w' & -> & Hgenai)
  end.
  cbn in *. split; [ reflexivity | ]. split; [ reflexivity | ].
  rewrite Hgenai. apply elem_of_union_l. by apply elem_of_singleton.
Qed.

(** X6: once [upload_file] has returned a handle, [get_timestamps] asks the
    service to delete the copy whatever the analysis gave.  When the
    deletion succeeds the copy is gone and a dictionary comes back: the
    success dictionary with the decoded answer when the model answered and
    its text could be decoded, and otherwise the error dictionary with the
    text of the exception (a malformed answer included). *)
Theorem analysis_deletes_remote_copy (fuel : nat) (s : AIProcessor.self) (fp : pyval)
    (l : option genai_file) (w w1 : World) (f : genai_file) :
  AIProcessor.upload_file X fuel s fp tt w = (Ret f, tt, w1) →
  genai_delete_file X (gf_name f) = Ok tt →
  let r := AIProcessor.get_timestamps X fuel s fp l w in
  (gf_name f ∉ w_genai (world_of r)) ∧
  outcome_of r
  = Ret (match genai_generate_content X (AIProcessor.model_name s) f AIProcessor.prompt with
         | Err e => [ ("status", PStr "error"); ("message", PStr (exn_msg e)) ]
         | Ok text =>
             match json_loads X text with
             | Err e => [ ("status", PStr "error"); ("message", PStr (exn_msg e)) ]
             | Ok result => [ ("status", PStr "success"); ("data", result) ]
             end
         end).
Proof.
  intros Hup Hdel r. subst r.
  unfold AIProcessor.get_timestamps, AIProcessor.genai_delete. munfold. cbn.
  rewrite Hup. cbn.
  destruct (genai_generate_content X _ f _) as [text | e]; cbn.
  - destruct (json_loads X text) as [v | e]; cbn; rewrite Hdel; cbn;
      (split; [ apply not_elem_of_difference; right; by apply elem_of_singleton
              | reflexivity ]).
  - rewrite Hdel. cbn.
    split; [ apply not_elem_of_difference; right; by apply elem_of_singleton | reflexivity ].
Qed.

(** X7: [get_timestamps] contains every failure but one.  It raises
    exactly when the deletion of the remote copy in its [finally] block
    fails, and then with the exception of the deletion: the result of the
    analysis, success or error, is lost. *)
Theorem analysis_raises_iff_delete_fails (fuel : nat) (s : AIProcessor.self) (fp : pyval)
    (l : option genai_file) (w : World) (e : exn) :
  let r := AIProcessor.get_timestamps X fuel s fp l w in
  outcome_of r = Raise e ↔
  ∃ f, frame_of r = Some f ∧ genai_delete_file X (gf_name f) = Err e.
Proof.
  intros r. subst r.
  unfold AIProcessor.get_timestamps, AIProcessor.genai_delete. munfold. cbn.
  destruct (AIProcessor.upload_file X fuel s fp tt w) as [[[f | e0 | ] []] w1]; cbn.
  - destruct (genai_generate_content X _ f _) as [text | e1]; cbn;
      [ destruct (json_loads X text) as [v | e1]; cbn | ];
      destruct (genai_delete_file X (gf_name f)) as [[] | e2] eqn:Hdel; cbn.
    all: split; [ intros Hr; try discriminate Hr; injection Hr as <-; eauto
                | intros (f' & Hf & He); injection Hf as <-; congruence ].
  - split; [ intros Hr; discriminate Hr | intros (f' & Hf & _); discriminate Hf ].
  - split; [ intros Hr; discriminate Hr | intros (f' & Hf & _); discriminate Hf ].
Qed.

(** with a service that never finishes, the Analyzer does not come back *)
Lemma get_timestamps_stalls (s : AIProcessor.self) (path name : string)
    (fuel : nat) (l : option genai_file) (w : World) :
  genai_upload_file X path = Ok (GenaiFile name "PROCESSING") →
  (∀ n, genai_get_file X name n = Ok (GenaiFile name "PROCESSING")) →
  ∃ w', AIProcessor.get_timestamps X fuel s (PStr path) l w = (Diverge, None, w') ∧
        name ∈ w_genai w' ∧ w_fs w' = w_fs w.
Proof.
  intros Hup Hbusy.
  unfold AIProcessor.get_timestamps, AIProcessor.upload_file, AIProcessor.genai_upload.
  munfold. cbn. rewrite Hup. cbn.
  match goal with
  | |- context [ AIProcessor.wait_processing X fuel _ tt ?w0 ] =>
      destruct (wait_processing_stalls_fs name fuel w0 Hbusy) as (w' & -> & Hgenai & Hfs)
  end.
  cbn in *. eexists. split; [ reflexivity | ]. split; [ | exact Hfs ].
  rewrite Hgenai. apply elem_of_union_l. by apply elem_of_singleton.
Qed.

End Analyzer.

(** ** The Fetcher ([services/downloader.py], [download_video]) *)

Section Fetcher.
Context (X : Collaborators).

(** X8: [download_video] contains every failure: it always returns a
    dictionary and never raises.  The dictionary is the error dictionary
    with the text of the exception when the extraction or the file naming
    raises, and otherwise the success dictionary with the file name, the
    title (default [Unknown Title]), the duration (default 0) and the video
    identifier.  One identifier is drawn; yt-dlp is asked for the
    height-bounded format with an output template in the download directory,
    and local storage is as yt-dlp left it. *)
Theorem download_video_contains_failures (s : VideoDownloader.self) (url : string)
    (w : World) :
  let opts := download_opts X (VideoDownloader.download_dir s) (w_uuids w) in
  let r := VideoDownloader.download_video X s url tt w in
  outcome_of r
  = Ret (download_result (extract_info X opts url (w_fs w)).1 (prepare_filename X opts)) ∧
  w_fs (world_of r) = (extract_info X opts url (w_fs w)).2 ∧
  w_uuids (world_of r) = S (w_uuids w).
Proof.
  cbv zeta. unfold VideoDownloader.download_video, uuid4_str, download_opts, download_result.
  munfold. cbn.
  destruct (extract_info X _ url (w_fs w)) as [[info | e] fs'] eqn:Hx; cbn.
  - destruct (prepare_filename X _ info) as [name | e] eqn:Hp; cbn; by repeat split.
  - by repeat split.
Qed.

Lemma download_video_summary s url w :
  ∃ d w', VideoDownloader.download_video X s url tt w = (Ret d, tt, w') ∧
          download_shape d ∧ remote_untouched w w'.
Proof.
  unfold VideoDownloader.download_video, uuid4_str. munfold. cbn.
  destruct (extract_info X _ url (w_fs w)) as [[info | e] fs'] eqn:Hx; cbn.
  - destruct (prepare_filename X _ info) as [name | e] eqn:Hp; cbn.
    + eexists _, _. split; [ reflexivity | ]. split; [ | by repeat split ].
      right. split; [ reflexivity | ]. eexists _, _. split; reflexivity.
    + eexists _, _. split; [ reflexivity | ]. split; [ by left | by repeat split ].
  - eexists _, _. split; [ reflexivity | ]. split; [ by left | by repeat split ].
Qed.

End Fetcher.

(** ** The Transcoder ([services/editor.py]) *)

Section Transcoder.
Context (X : Collaborators).

#[local] Arguments String.append : simpl never.

(** deciding the cases of a computation one after the other *)
Ltac cases :=
  repeat first
    [ reflexivity
    | match goal with
      | |- context [ match ?x with _ => _ end ] =>
          first [ is_var x | lazymatch x with context [ fun _ => _ ] => fail | _ => idtac end ];
          destruct x eqn:?; cbn
      end ].

(** the probe runs one command, [ffprobe] on the file, whatever comes of it *)
Lemma get_video_info_spawns s fp w :
  w_spawned (world_of (VideoEditor.get_video_info X s (PStr fp) tt w))
  = w_spawned w ++ [ ffprobe_cmd fp ].
Proof.
  unfold VideoEditor.get_video_info, run_subprocess, py_item, py_index, py_int, dict_item.
  munfold. cbn. unfold ffprobe_cmd. cases.
Qed.

(** X9: [get_video_info] reads the dimensions of the first stream that
    [ffprobe] reports and of no other: when the tool's output decodes to an
    object whose [streams] starts with a stream of integer [width] and
    [height], these two numbers come back, after the one command
    [ffprobe -v error -select_streams v:0 -show_entries stream=width,height
    -of json <file>]. *)
Theorem probe_reads_first_stream (s : VideoEditor.self) (fp stdout : string) (w : World)
    (fs' : gmap string entry) (info stream0 : dict) (more : list pyval) (wd ht : Z) :
  subprocess_run X (ffprobe_cmd fp) (w_fs w) = (Ok stdout, fs') →
  json_loads X stdout = Ok (PDict info) →
  dict_lookup info "streams" = Some (PList (PDict stream0 :: more)) →
  dict_lookup stream0 "width" = Some (PInt wd) →
  dict_lookup stream0 "height" = Some (PInt ht) →
  VideoEditor.get_video_info X s (PStr fp) tt w
  = (Ret (wd, ht), tt,
     set_fs (λ _, fs') (set_spawned (λ cs, cs ++ [ ffprobe_cmd fp ]) w)).
Proof.
  intros Hrun Hjson Hstreams Hwd Hht.
  unfold VideoEditor.get_video_info, run_subprocess, py_item, py_index, py_int, dict_item.
  munfold. cbn. unfold ffprobe_cmd in Hrun. rewrite Hrun. cbn.
  rewrite Hjson. cbn. rewrite Hstreams. cbn. rewrite Hwd. cbn. rewrite Hht. reflexivity.
Qed.

(** X10: when the probe of the input fails, whatever the reason,
    [process_video] does not run the encoder: [ffprobe] is the only command
    of the call.  An error dictionary comes back; when it is the [ffprobe]
    process that failed, the message is the one of a failed encoding. *)
Theorem probe_failure_stops_transcode (s : VideoEditor.self) (fp : string)
    (st et : pyval) (w w1 : World) (e : exn) :
  VideoEditor.get_video_info X s (PStr fp) tt (set_uuids S w) = (Raise e, tt, w1) →
  let r := VideoEditor.process_video X s (PStr fp) st et tt w in
  outcome_of r
  = Ret [ ("status", PStr "error");
          ("message", PStr (if is_CalledProcessError e
                            then "Video processing failed during encoding."
                            else exn_msg e)) ] ∧
  w_spawned (world_of r) = w_spawned w ++ [ ffprobe_cmd fp ] ∧
  w_fs (world_of r) = w_fs w1.
Proof.
  intros Hprobe r. subst r.
  pose proof (get_video_info_spawns s fp (set_uuids S w)) as Hsp.
  rewrite Hprobe in Hsp. cbn in Hsp.
  unfold VideoEditor.process_video, uuid4_str. munfold. cbn.
  rewrite Hprobe. cbn.
  destruct (is_CalledProcessError e); cbn; by repeat split.
Qed.

(** X11: a file without a video stream ([ffprobe] reports no stream) is
    reported with the text of the [IndexError] that reading the first
    stream raises; the encoder is not run. *)
Theorem no_video_stream (s : VideoEditor.self) (fp stdout : string) (st et : pyval)
    (w : World) (fs' : gmap string entry) (info : dict) :
  subprocess_run X (ffprobe_cmd fp) (w_fs w) = (Ok stdout, fs') →
  json_loads X stdout = Ok (PDict info) →
  dict_lookup info "streams" = Some (PList []) →
  let r := VideoEditor.process_video X s (PStr fp) st et tt w in
  outcome_of r = Ret [ ("status", PStr "error");
                       ("message", PStr "list index out of range") ] ∧
  w_spawned (world_of r) = w_spawned w ++ [ ffprobe_cmd fp ].
Proof.
  intros Hrun Hjson Hstreams r. subst r.
  unfold VideoEditor.process_video, uuid4_str, VideoEditor.get_video_info, run_subprocess,
    py_item, py_index, dict_item.
  munfold. cbn. unfold ffprobe_cmd in Hrun. rewrite Hrun. cbn.
  rewrite Hjson. cbn. rewrite Hstreams. cbn. by split.
Qed.

#[local] Arguments as_strs : simpl never.
#[local] Arguments VideoEditor.ffmpeg_cmd : simpl never.

(** what a success dictionary of [process_video] says of the world *)
Lemma editor_process_video_output s fp st et w :
  ∃ d w', VideoEditor.process_video X s fp st et tt w = (Ret d, tt, w') ∧
          (is_error d = true ∨
           d = [ ("status", PStr "success");
                 ("file_path", PStr (path_join (VideoEditor.output_dir s)
                                       (uuid4 X (w_uuids w) +:+ "_short.mp4"))) ] ∧
           is_Some (w_fs w' !! path_join (VideoEditor.output_dir s)
                                 (uuid4 X (w_uuids w) +:+ "_short.mp4"))).
Proof.
  unfold VideoEditor.process_video, uuid4_str. munfold. cbn.
  pose proof (get_video_info_converges X s fp tt (set_uuids S w)) as Hconv.
  unfold outcome_of in Hconv.
  destruct (VideoEditor.get_video_info X s fp tt (set_uuids S w))
    as [[[[wd ht] | e | ] []] w1]; cbn in Hconv; [ | | by destruct Hconv ]; cbn.
  2:{ destruct (is_CalledProcessError e); cbn; eexists _, _; (split; [ reflexivity | by left ]). }
  unfold join_space, run_subprocess, os_path_exists. munfold.
  destruct (ht >? wd); cbn.
  all: match goal with
       | |- context [ as_strs ?c ] => destruct (as_strs c) as [args | ]; cbn
       end.
  all: try (eexists _, _; (split; [ reflexivity | by left ])).
  all: match goal with
       | |- context [ subprocess_run X ?a ?fs ] =>
           destruct (subprocess_run X a fs) as [[so | e] fs']
       end; cbn.
  all: try (match goal with
            | |- context [ is_CalledProcessError ?x ] => destruct (is_CalledProcessError x)
            end; cbn; eexists _, _; (split; [ reflexivity | by left ])).
  all: match goal with
       | |- context [ bool_decide ?P ] => destruct (bool_decide P) eqn:Hex
       end; cbn.
  all: eexists _, _; (split; [ reflexivity | ]).
  all: first [ by left | right; split; [ reflexivity | ]; cbn; by apply bool_decide_eq_true in Hex ].
Qed.

Lemma editor_process_video_shape s fp st et w :
  ∃ d w', VideoEditor.process_video X s fp st et tt w = (Ret d, tt, w') ∧
          transcode_shape d w'.
Proof.
  destruct (editor_process_video_output s fp st et w) as (d & w' & Hrun & [Herr | [-> Hex]]).
  - exists d, w'. split; [ exact Hrun | by left ].
  - eexists _, w'. split; [ exact Hrun | ]. right. split; [ reflexivity | ].
    eexists. split; [ reflexivity | exact Hex ].
Qed.

(** X12: [process_video] contains every failure, and a success dictionary
    can be trusted: the path it carries is the output directory joined with
    [<identifier>_short.mp4] for the one identifier drawn in the call, and a
    file is at that path when the call returns. *)
Theorem transcode_success_leaves_output (s : VideoEditor.self) (fp st et : pyval)
    (w : World) :
  let r := VideoEditor.process_video X s fp st et tt w in
  let out := path_join (VideoEditor.output_dir s) (uuid4 X (w_uuids w) +:+ "_short.mp4") in
  ∃ d, outcome_of r = Ret d ∧
       (is_error d = false →
        d = [ ("status", PStr "success"); ("file_path", PStr out) ] ∧
        is_Some (w_fs (world_of r) !! out)).
Proof.
  intros r out. subst r out.
  destruct (editor_process_video_output s fp st et w) as (d & w' & -> & [Herr | [-> Hex]]);
    cbn; eexists; (split; [ reflexivity | ]).
  - intros Hok. congruence.
  - by intros _.
Qed.

End Transcoder.

(** ** The Publisher ([services/uploader.py]) *)

Section Publisher.
Context (X : Collaborators).

#[local] Arguments String.append : simpl never.

(** with the file on local storage [upload_file] returns a dictionary *)
Lemma upload_file_present s p t w :
  is_Some (w_fs w !! p) →
  ∃ d w', DriveUploader.upload_file X s (PStr p) t tt w = (Ret d, tt, w') ∧
          w_fs w' = w_fs w ∧ w_protected w' = w_protected w.
Proof.
  intros Hex. unfold DriveUploader.upload_file, os_path_exists. munfold.
  rewrite bool_decide_eq_true_2 by assumption. cbn.
  destruct (media_file_upload X p) as [[] | e]; cbn; [ | by eexists _, _ ].
  destruct (drive_files_create X _ p) as [[id link] | e]; cbn; by eexists _, _.
Qed.

(** with the file on local storage and credentials that the storage service
    refuses, [upload_file] returns the error dictionary with the text of the
    refusal, and nothing is stored *)
Lemma upload_file_refused s p t w e :
  is_Some (w_fs w !! p) →
  media_file_upload X p = Ok tt →
  credentials_refused X e →
  ∃ w', DriveUploader.upload_file X s (PStr p) t tt w
        = (Ret [ ("status", PStr "error"); ("message", PStr (exn_msg e)) ], tt, w') ∧
        w_drive w' = w_drive w.
Proof.
  intros Hex Hmedia Href. unfold DriveUploader.upload_file, os_path_exists. munfold.
  rewrite bool_decide_eq_true_2 by assumption. cbn.
  rewrite Hmedia. cbn. rewrite Href. cbn. by eexists.
Qed.


(** X14: what a successful [upload_file] stores: one object under the
    identifier that the dictionary carries, named [<title> #Shorts], of type
    [video/mp4], inside the configured folder when a folder identifier is
    set and non-empty, and with no [parents] at all otherwise; the link
    returned is the one the storage service gave for it, and every other
    object is as it was. *)
Theorem upload_stores_titled_object (s : DriveUploader.self) (path title : string)
    (w : World) (d : dict) :
  let r := DriveUploader.upload_file X s (PStr path) (PStr title) tt w in
  outcome_of r = Ret d →
  is_error d = false →
  ∃ id link body,
    d = [ ("status", PStr "success"); ("file_id", PStr id); ("drive_link", PStr link) ] ∧
    drive_files_create X body path = Ok (id, link) ∧
    has_metadata s title body ∧
    w_drive (world_of r) = <[ id := DriveObject body [] ]> (w_drive w).
Proof.
  intros r. subst r.
  unfold DriveUploader.upload_file, os_path_exists. munfold.
  destruct (bool_decide (is_Some (w_fs w !! path))); cbn;
    [ | intros Hr; discriminate Hr ].
  destruct (media_file_upload X path) as [[] | e]; cbn;
    [ | intros [= <-] Herr; discriminate Herr ].
  destruct (drive_files_create X _ path) as [[id link] | e] eqn:Hcreate; cbn;
    [ | intros [= <-] Herr; discriminate Herr ].
  intros [= <-] _. eexists id, link, _.
  split; [ reflexivity | ]. split; [ exact Hcreate | ]. split; [ | reflexivity ].
  unfold has_metadata. destruct (truthy (DriveUploader.parent_folder_id s)); by repeat split.
Qed.

(** X15: [DriveUploader()] comes back with an uploader exactly when the
    three OAuth settings are set and not empty and the storage client can
    be built from them; the uploader then carries the settings of the
    environment.  The folder identifier plays no part: it may be missing. *)
Theorem uploader_init_returns_iff (w : World) :
  let r := DriveUploader.__init__ X tt w in
  let setting k := of_getenv (w_environ w !! k) in
  let s := DriveUploader.Self (setting "GOOGLE_CLIENT_ID") (setting "GOOGLE_CLIENT_SECRET")
             (setting "GOOGLE_REFRESH_TOKEN") (setting "GOOGLE_DRIVE_FOLDER_ID") in
  (∀ s', outcome_of r = Ret s' → s' = s) ∧
  (outcome_of r = Ret s ↔
   ¬ no_oauth w ∧
   drive_build X (setting "GOOGLE_REFRESH_TOKEN") (setting "GOOGLE_CLIENT_ID")
     (setting "GOOGLE_CLIENT_SECRET") = Ok tt).
Proof.
  cbv zeta.
  unfold DriveUploader.__init__, DriveUploader._authenticate, no_oauth.
  munfold. cbn [DriveUploader.client_id DriveUploader.client_secret DriveUploader.refresh_token].
  destruct (forallb truthy _) eqn:Hall; cbn [negb].
  - destruct (drive_build X _ _ _) as [[] | e] eqn:Hbuild; cbn.
    + split; [ by intros s' [= <-] | ]. split; [ intros _; by split | reflexivity ].
    + split; [ intros s' Hr; discriminate Hr | ].
      split; [ intros Hr; discriminate Hr | intros [_ Hb]; discriminate Hb ].
  - cbn. split; [ intros s' Hr; discriminate Hr | ].
    split; [ intros Hr; discriminate Hr | intros [Hno _]; by destruct Hno ].
Qed.

End Publisher.

(** ** Making the directory of a stage ([__init__] of the Fetcher and of the
    Transcoder) *)

Section Directories.
Context (X : Collaborators).

#[local] Arguments String.append : simpl never.

(** X16: the constructors of the Fetcher and of the Transcoder, given a
    directory name of one component as their defaults are, leave the
    directory in place and touch nothing else: an entry that is already
    there under the name, a regular file included, is kept as it is and
    nothing is created; a missing directory is created; and the only way to
    fail is a refusal of the creation, which changes nothing. *)
Theorem stage_init_makes_directory (d : string) (w : World) :
  d ≠ "" → has_slash d = false →
  let dl := VideoDownloader.__init__ X d tt w in
  let ed := VideoEditor.__init__ X d tt w in
  world_of ed = world_of dl ∧
  (outcome_of dl = Ret (VideoDownloader.Self d) ∧ outcome_of ed = Ret (VideoEditor.Self d) ∧
   is_Some (w_fs (world_of dl) !! d) ∧
   (∀ en, w_fs w !! d = Some en → world_of dl = w) ∧
   (∀ p, p ≠ d → w_fs (world_of dl) !! p = w_fs w !! p)
   ∨
   (∃ e, outcome_of dl = Raise e ∧ outcome_of ed = Raise e ∧
         exn_class e = PermissionError) ∧
   w_fs w !! d = None ∧ d ∈ w_protected w ∧ world_of dl = w).
Proof.
  intros _ _. cbv zeta.
  unfold VideoDownloader.__init__, VideoEditor.__init__, os_path_exists, os_makedirs. munfold.
  destruct (w_fs w !! d) as [en | ] eqn:Hfs.
  - rewrite (bool_decide_eq_true_2 (is_Some (Some en))) by eauto. cbn.
    split; [ reflexivity | ]. left. rewrite Hfs. by repeat split; eauto.
  - rewrite (bool_decide_eq_false_2 (is_Some None)) by (intros [? ?]; discriminate).
    cbn. rewrite Hfs.
    destruct (bool_decide (d ∈ w_protected w)) eqn:Hprot; cbn.
    + split; [ reflexivity | ]. right. apply bool_decide_eq_true in Hprot.
      split; [ eexists; by repeat split | by repeat split ].
    + split; [ reflexivity | ]. left.
      split; [ reflexivity | ]. split; [ reflexivity | ].
      split; [ rewrite lookup_insert_eq; eauto | ].
      split; [ intros en Hen; discriminate Hen | ].
      intros p Hp. by rewrite lookup_insert_ne.
Qed.

End Directories.

(** ** The upload of the earlier worker ([services/config.py]) *)

Section Legacy.
Context (X : Collaborators).

(** X17: [upload_to_drive] is not atomic: when the storage service takes
    the file and then refuses the permission request, the call raises, the
    link is never returned, and the object stays at the storage service
    without any permission. *)
Theorem legacy_upload_leaves_private_orphan (path filename id link : string)
    (w : World) (e : exn) :
  let body : dict :=
    [ ("name", PStr filename);
      ("parents", PList [ of_getenv (w_environ w !! "DRIVE_FOLDER_ID") ]) ] in
  service_account_build X = Ok tt →
  media_file_upload X path = Ok tt →
  drive_files_create X body path = Ok (id, link) →
  drive_permissions_create X (PStr id) [ ("role", PStr "reader"); ("type", PStr "anyone") ]
  = Err e →
  let r := Config.upload_to_drive X path filename tt w in
  outcome_of r = Raise e ∧
  w_drive (world_of r) = <[ id := DriveObject body [] ]> (w_drive w) ∧
  ∀ o, w_drive (world_of r) !! id = Some o → public_readable o = false.
Proof.
  intros body Hbuild Hmedia Hcreate Hgrant r. subst r body.
  unfold Config.upload_to_drive. munfold. cbn.
  rewrite Hbuild. cbn. rewrite Hmedia. cbn. rewrite Hcreate. cbn.
  unfold dict_get. cbn. rewrite Hgrant. cbn.
  split; [ reflexivity | ]. split; [ reflexivity | ].
  intros o. unfold drive_add. rewrite lookup_insert_eq. by intros [= <-].
Qed.

End Legacy.

(** ** The endpoint ([main.py], [process_video]) *)

(** the collaborators are built without changing what the remote services
    hold *)
Lemma init_services_remote (X : Collaborators) (j : Job) (w : World) :
  remote_untouched w (world_of (Main.init_services X j w)).
Proof.
  destruct (construct_ends X j w) as (o & w' & Hrun & _ & Hloc & _).
  unfold Main.init_services, try_except. rewrite Hrun.
  unfold only_local in Hloc. destruct_and!.
  destruct o; cbn; by repeat split.
Qed.

(** when they cannot be built, what is raised is the init-stage error *)
Lemma init_services_raises (X : Collaborators) (j : Job) (w : World) (e : exn) :
  outcome_of (Main.init_services X j w) = Raise e →
  ∃ msg, e = Exn (HTTPException 500) ("Service Start Failed: " +:+ msg).
Proof.
  unfold Main.init_services, try_except, outcome_of.
  destruct (Main.construct X j w) as [[[sv | e0 | ] j1] w1]; cbn;
    intros Hr; try discriminate Hr.
  injection Hr as <-. eauto.
Qed.

Lemma init_services_converges (X : Collaborators) (j : Job) (w : World) :
  outcome_of (Main.init_services X j w) ≠ Diverge.
Proof.
  destruct (construct_ends X j w) as (o & w' & Hrun & Ho & _).
  unfold Main.init_services, try_except, outcome_of. rewrite Hrun.
  by destruct o.
Qed.

Section Endpoint.
Context (X : Collaborators).

#[local] Arguments dict_get : simpl never.
#[local] Arguments dict_get_or : simpl never.
#[local] Arguments eq_str : simpl never.
#[local] Arguments py_str : simpl never.
#[local] Arguments String.append : simpl never.
#[local] Arguments set_log : simpl never.

Local Opaque VideoDownloader.download_video AIProcessor.get_timestamps
  VideoEditor.process_video DriveUploader.upload_file Main.init_services.

(** one step along the body of the endpoint *)
Ltac walk_step :=
  match goal with
  | |- context [ VideoDownloader.download_video ?X ?s ?u ?l ?w ] =>
      let d := fresh "dl_result" in
      let H := fresh "Hdl" in
      let Q := fresh "Hremote" in
      destruct (download_video_summary X s u w) as (d & ? & -> & H & Q)
  | |- context [ VideoEditor.process_video ?X ?s ?a ?b ?c ?l ?w ] =>
      let d := fresh "edit_result" in
      let H := fresh "Hedit" in
      destruct (editor_process_video_shape X s a b c w) as (d & ? & -> & H)
  | |- context [ AIProcessor.get_timestamps ?X ?f ?s ?p ?l ?w ] =>
      let d := fresh "ai_result" in
      destruct (AIProcessor.get_timestamps X f s p l w) as [[[d|?|] ?] ?]
  | Hedit : transcode_shape ?d _, Ekey : dict_lookup ?d "file_path" = Some ?v
    |- context [ DriveUploader.upload_file _ _ ?v _ _ _ ] =>
      let q := fresh "out" in
      let Hq := fresh "Hout" in
      let Hex := fresh "Hthere" in
      destruct Hedit as [Hedit | (_ & q & Hq & Hex)];
      [ unfold is_error in Hedit; congruence | ];
      rewrite Hq in Ekey; injection Ekey as <-;
      match goal with
      | |- context [ DriveUploader.upload_file ?X ?s (PStr q) ?t ?l ?W ] =>
          let Hex' := fresh "Hseen" in
          let u := fresh "upload_result" in
          assert (is_Some (w_fs W !! q)) as Hex' by (unfold set_log; cbn; exact Hex);
          let F := fresh "Hpfs" in
          let P := fresh "Hpprot" in
          destruct (upload_file_present X s q t W Hex') as (u & ? & -> & F & P); clear Hex'
      end
  | |- context [ if eq_str (dict_get ?d "status") "error" then _ else _ ] =>
      let E := fresh "Estatus" in
      destruct (eq_str (dict_get d "status") "error") eqn:E
  | |- context [ match dict_lookup ?d ?k with _ => _ end ] =>
      let E := fresh "Ekey" in
      destruct (dict_lookup d k) eqn:E
  | |- context [ match ?v with PNone => _ | _ => _ end ] =>
      is_var v; destruct v
  end; cbn.

Ltac walk := repeat (walk_step; unfold dict_item, py_item, py_get; munfold; cbn).

Ltac enter_endpoint :=
  unfold Main.process_video; munfold; cbn;
  match goal with
  | |- context [ Main.init_services ?X ?j ?w ] =>
      let H := fresh "Hframe" in
      let Q := fresh "Hinit" in
      pose proof (init_services_frame X j w) as H;
      let R := fresh "Hraise" in
      pose proof (init_services_remote X j w) as Q;
      let C := fresh "Hconv" in
      pose proof (init_services_raises X j w) as R;
      pose proof (init_services_converges X j w) as C;
      unfold frame_of in H; unfold world_of in Q; unfold outcome_of in R, C;
      destruct (Main.init_services X j w) as [[[[[[dl ai] ed] up]|?|] ?] ?];
      cbn in H, Q, R, C; [ clear C | clear C | by destruct C ]; subst; cbn
  end;
  unfold Main.pipeline, Main.staged, dict_item, py_item, py_get; munfold; cbn.

Ltac all_runs r :=
  generalize (eq_refl r); unfold r at 2; clearbody r;
  enter_endpoint; walk; intros ->; cbn.

(** X18: whatever goes wrong, the only exception that leaves the endpoint is
    an [HTTPException] with status 500. *)
Theorem every_failure_is_http_500 (fuel : nat) (url : string) (j : Job) (w : World) (e : exn) :
  outcome_of (Main.process_video X fuel url j w) = Raise e →
  exn_class e = HTTPException 500.
Proof.
  set (r := Main.process_video X fuel url j w). all_runs r.
  all: intros Hr; try discriminate Hr; injection Hr as <-; try reflexivity.
  by destruct (Hraise _ eq_refl) as [msg ->].
Qed.

(** X19: an error dictionary from any of the four stages ends the request
    there: no later stage is called, and the request fails with that
    stage's message behind the stage's own tag ([Download failed],
    [AI Analysis failed], [Editing failed], [Upload failed]). *)
Theorem stage_error_is_tagged (fuel : nat) (url : string) (w : World)
    (h rest : list event) (s : stage) (d : dict) :
  let r := Main.process_video X fuel url new_job w in
  history (frame_of r) = h ++ Return s d :: rest →
  is_error d = true →
  rest = [] ∧
  outcome_of r = Raise (Exn (HTTPException 500)
                          (stage_tag s +:+ py_str X (dict_get d "message"))).
Proof.
  intros r. all_runs r.
  all: unfold is_error; intros Hh Herr.
  all: repeat (destruct h as [ | ? h ]; cbn in Hh;
               [ first [ discriminate Hh
                       | injection Hh as <- <- <-; first [ congruence | by split ] ]
               | first [ discriminate Hh | injection Hh as <- Hh ] ]).
Qed.

(** one step along the body of the endpoint, with an inference service that
    never finishes *)
Ltac stalled_step name Hup Hbusy :=
  first
    [ match goal with
      | Hdl : download_shape ?d, Ekey : dict_lookup ?d "file_path" = Some ?v
        |- context [ AIProcessor.get_timestamps _ _ _ ?v _ _ ] =>
          let q := fresh "file" in
          let Hq := fresh "Hfile" in
          destruct Hdl as [Hdl | (_ & q & ? & Hq & _)];
          [ unfold is_error in Hdl; congruence | ];
          rewrite Hq in Ekey; injection Ekey as <-;
          match goal with
          | |- context [ AIProcessor.get_timestamps ?X ?f ?s (PStr q) ?l ?W ] =>
              let G := fresh "Hheld" in
              let F := fresh "Hkept" in
              destruct (get_timestamps_stalls X s q name f l W (Hup q) Hbusy)
                as (? & -> & G & F)
          end
      end; cbn
    | walk_step ].

(** X20: a request hangs for ever on an inference service that never
    finishes.  When the service takes every upload and then reports
    [PROCESSING] at every status request, a request that reaches the Analyzer
    does not come back, however many rounds of the wait are allowed.  The
    [finally] block of the endpoint is then never reached: no cleanup is
    registered although the download is tracked, the Analyzer is the last
    stage called, and the service holds the copy. *)
Theorem stalled_analysis_hangs_request (fuel : nat) (url name : string) (w : World) :
  (∀ path, genai_upload_file X path = Ok (GenaiFile name "PROCESSING")) →
  (∀ n, genai_get_file X name n = Ok (GenaiFile name "PROCESSING")) →
  let r := Main.process_video X fuel url new_job w in
  Call Analyze ∈ history (frame_of r) →
  outcome_of r = Diverge ∧
  (∃ d p,
     history (frame_of r) = [ Call Fetch; Return Fetch d; Call Analyze ] ∧
     is_error d = false ∧
     dict_lookup d "file_path" = Some (PStr p) ∧
     downloaded_file (frame_of r) = PStr p) ∧
  background_tasks (frame_of r) = [] ∧
  name ∈ w_genai (world_of r).
Proof.
  intros Hup Hbusy r.
  generalize (eq_refl r); unfold r at 2; clearbody r.
  enter_endpoint.
  repeat (stalled_step name Hup Hbusy; unfold dict_item, py_item, py_get; munfold; cbn).
  all: intros ->; cbn.
  all: intros Hin.
  all: try (exfalso; repeat (apply elem_of_cons in Hin as [Hin | Hin]; [ discriminate Hin | ]);
            by apply elem_of_nil in Hin).
  split; [ reflexivity | ]. split; [ | by split ].
  eexists _, _. unfold is_error. by repeat split.
Qed.

(** X21: nothing is sent to the inference service or to the storage
    service before the Analyzer is called: when the request ends without a
    call of Analyze (the collaborators could not be built, or Fetch failed),
    the inference service holds what it held and the storage service holds
    what it held. *)
Theorem remote_untouched_before_analysis (fuel : nat) (url : string) (w : World) :
  let r := Main.process_video X fuel url new_job w in
  Call Analyze ∉ history (frame_of r) →
  remote_untouched w (world_of r).
Proof.
  intros r. all_runs r.
  all: intros Hno.
  all: try by (exfalso; apply Hno; do 2 apply list_elem_of_further; apply list_elem_of_here).
  all: unfold remote_untouched, set_log in *; cbn in *; destruct_and?; repeat split; congruence.
Qed.

(** X22: a structured result without [start_time] or without [end_time]
    ends the request with the bare name of the missing key as its message,
    under no stage's tag; the editor is not called, and the downloaded file
    is registered for cleanup. *)
Theorem missing_timestamp_key (fuel : nat) (url : string) (w : World)
    (dl_result ai_result data : dict) (rest : list event) :
  let r := Main.process_video X fuel url new_job w in
  history (frame_of r)
  = Call Fetch :: Return Fetch dl_result :: Call Analyze :: Return Analyze ai_result :: rest →
  is_error ai_result = false →
  dict_lookup ai_result "data" = Some (PDict data) →
  dict_lookup data "start_time" = None ∨ dict_lookup data "end_time" = None →
  rest = [] ∧
  (outcome_of r = Raise (Exn (HTTPException 500) "'start_time'") ∨
   outcome_of r = Raise (Exn (HTTPException 500) "'end_time'")) ∧
  background_tasks (frame_of r) = [ CleanupFiles [ downloaded_file (frame_of r); PNone ] ] ∧
  dict_lookup dl_result "file_path" = Some (downloaded_file (frame_of r)).
Proof.
  intros r. all_runs r.
  all: unfold is_error; intros Hh Herr Hdata Hmiss.
  all: try discriminate Hh; injection Hh as <- <- <-; try congruence.
  all: rewrite Hdata in *; simplify_eq.
  all: try (destruct Hmiss; congruence).
  all: split; [ reflexivity | ]; split; [ by auto | ]; by split.
Qed.


(** X24: Publish always finds the cut.  The existence check of
    [upload_file] never fails in a request, because Transcode returns a path
    only after it has seen the file there and nothing removes it in between:
    once Publish is called it returns a dictionary, and the history ends
    with it. *)
Theorem publish_finds_the_cut (fuel : nat) (url : string) (w : World) :
  let r := Main.process_video X fuel url new_job w in
  Call Publish ∈ history (frame_of r) →
  ∃ d, last (history (frame_of r)) = Some (Return Publish d).
Proof.
  intros r. all_runs r.
  all: intros Hin; try (eexists; reflexivity).
  all: exfalso; repeat (apply elem_of_cons in Hin as [Hin | Hin]; [ discriminate Hin | ]).
  all: by apply elem_of_nil in Hin.
Qed.

(** X25: the title of a success response never comes from the default of
    the endpoint: a result of Fetch that is not an error always carries a
    title (the one of the source, or the Fetcher's own default), and that is
    the [original_video] of the response. *)
Theorem original_title_is_fetched (fuel : nat) (url : string) (w : World) (resp : dict) :
  let r := Main.process_video X fuel url new_job w in
  outcome_of r = Ret resp →
  ∃ dl_result title,
    head (returned Fetch (history (frame_of r))) = Some dl_result ∧
    dict_lookup dl_result "title" = Some title ∧
    dict_lookup resp "original_video" = Some title.
Proof.
  intros r. all_runs r.
  all: intros Hr; try discriminate Hr. injection Hr as <-.
  unfold download_shape, is_error in *.
  destruct Hdl as [Hdl | (_ & p' & t & _ & Ht)]; [ congruence | ].
  eexists _, _. split; [ reflexivity | ]. split; [ exact Ht | ].
  unfold dict_get_or. rewrite Ht. reflexivity.
Qed.

(** in a success the two files are registered, and the cut is on local
    storage *)
Lemma success_leaves_cut (fuel : nat) (url : string) (w : World) (resp : dict) :
  let r := Main.process_video X fuel url new_job w in
  outcome_of r = Ret resp →
  ∃ file out,
    background_tasks (frame_of r) = [ CleanupFiles [ PStr file; PStr out ] ] ∧
    is_Some (w_fs (world_of r) !! out).
Proof.
  intros r. all_runs r.
  all: intros Hr; try discriminate Hr. injection Hr as <-.
  unfold download_shape, is_error in *.
  destruct Hdl as [Hdl | (_ & p' & t & Hp & _)]; [ congruence | ].
  rewrite Hp in *. simplify_eq.
  eexists _, _. split; [ reflexivity | ].
  unfold set_log; cbn. by rewrite Hpfs.
Qed.


(** C6: the code departs from the claim on the failure side.  The endpoint
    registers [cleanup_files] in its [finally] block and ends by raising an
    [HTTPException] whenever the job fails; the framework runs the tasks of
    a request only with the response of a handler that returned.  So for a
    job that fails once a stage has been called, the list with the file of
    Fetch and the file of Transcode is registered exactly once and is never
    passed to [cleanup_files]: no task is run, and local storage stays as the
    handler left it.  For a job that succeeds the one registered task is run
    after the response is fixed, with both paths, and removes each of them
    that is a regular, removable file; the response is the dictionary that
    the handler returned, whatever the removals did. *)
Theorem failed_job_is_never_cleaned (fuel : nat) (url : string) (w : World) :
  let r := Main.process_video X fuel url new_job w in
  let s := App.post_process_video X fuel url w in
  (∀ e, outcome_of r = Raise e →
        App.response s.1 = Raise e ∧
        (history (frame_of r) ≠ [] →
         background_tasks (frame_of r)
         = [ CleanupFiles [ downloaded_file (frame_of r); processed_file (frame_of r) ] ]) ∧
        (∀ d, d ∈ returned Fetch (history (frame_of r)) → is_error d = false →
              ∃ p, dict_lookup d "file_path" = Some (PStr p) ∧
                   downloaded_file (frame_of r) = PStr p) ∧
        App.tasks_run s.1 = [] ∧
        s.2 = world_of r) ∧
  (∀ resp, outcome_of r = Ret resp →
           App.response s.1 = Ret resp ∧
           ∃ file out,
             App.tasks_run s.1 = [ CleanupFiles [ PStr file; PStr out ] ] ∧
             App.tasks_run s.1 = background_tasks (frame_of r) ∧
             (removable (world_of r) file → w_fs s.2 !! file = None) ∧
             (removable (world_of r) out → w_fs s.2 !! out = None) ∧
             only_local (world_of r) s.2).
Proof.
  intros r s. split.
  - intros e Hr.
    assert (outcome_of r ≠ Diverge) as Hconv by (rewrite Hr; discriminate).
    destruct (cleanup_registered_once X fuel url w Hconv) as (Hreg & Hfetch & _).
    fold r in Hreg, Hfetch.
    subst s. unfold App.post_process_video. fold r. unfold outcome_of in Hr.
    destruct r as [[o j] w1]. cbn in *. subst o. cbn.
    split; [ reflexivity | ]. split; [ | split; [ | by split ] ].
    + intros Hh. destruct Hreg as [Hreg | (_ & Hnil)]; [ exact Hreg | by destruct Hh ].
    + intros d Hin Herr. destruct (Hfetch d Hin Herr) as (p & Hp & Htasks).
      exists p. split; [ exact Hp | ].
      destruct Hreg as [Hreg | (Hnil & _)]; rewrite Htasks in *; congruence.
  - intros resp Hr.
    destruct (success_leaves_cut fuel url w resp Hr) as (file & out & Htasks & Hex).
    fold r in Htasks, Hex.
    assert (Forall path_entry [ PStr file; PStr out ]) as Hps
      by (repeat (apply Forall_cons_2; [ right; eauto | ]); apply Forall_nil_2).
    destruct (cleanup_files_fs X _ (world_of r) Hps) as (w9 & Hrun & Hloc & Hfs).
    subst s. unfold App.post_process_video. fold r. unfold outcome_of in Hr.
    destruct r as [[o j] w1]. cbn in *. subst o. cbn. rewrite Htasks. cbn.
    munfold. rewrite Hrun. cbn.
    split; [ reflexivity | ]. exists file, out.
    split; [ reflexivity | ]. split; [ reflexivity | ].
    split; [ | split; [ | exact Hloc ] ].
    + intros Hrem. apply (proj1 (Hfs _)); [ apply list_elem_of_here | exact Hrem ].
    + intros Hrem. apply (proj1 (Hfs _));
        [ apply list_elem_of_further, list_elem_of_here | exact Hrem ].
Qed.

(** one step along the body of the endpoint, with a storage service that
    refuses the credentials *)
Ltac refused_step Hmedia Href :=
  first
    [ match goal with
      | Hedit : transcode_shape ?d _, Ekey : dict_lookup ?d "file_path" = Some ?v
        |- context [ DriveUploader.upload_file _ _ ?v _ _ _ ] =>
          let q := fresh "out" in
          let Hq := fresh "Hout" in
          let Hex := fresh "Hthere" in
          destruct Hedit as [Hedit | (_ & q & Hq & Hex)];
          [ unfold is_error in Hedit; congruence | ];
          rewrite Hq in Ekey; injection Ekey as <-;
          match goal with
          | |- context [ DriveUploader.upload_file ?X ?s (PStr q) ?t ?l ?W ] =>
              let Hex' := fresh "Hseen" in
              assert (is_Some (w_fs W !! q)) as Hex' by (unfold set_log; cbn; exact Hex);
              let D := fresh "Hdrive" in
              destruct (upload_file_refused X s q t W _ Hex' (Hmedia q) Href)
                as (? & -> & D);
              clear Hex'
          end
      end; cbn
    | walk_step ].

(** C7: the code departs from the claim where the storage service refuses
    the credentials.  The constructor of the Publisher makes the client from
    the three settings and asks the service for nothing, so a refresh token
    that the service no longer honours passes construction; the refusal is
    the answer to the first request, the upload of the cut.  Whenever the
    request gets as far as Publish, it therefore ends with a publish-stage
    error ([Upload failed] and the text of the refusal), after Fetch, the
    Analyzer and Transcode have all run to a result without error; it is not
    an init-stage error. *)
Theorem refused_credentials_fail_at_publish (fuel : nat) (url : string) (w : World)
    (e : exn) :
  credentials_refused X e →
  (∀ path, media_file_upload X path = Ok tt) →
  let r := Main.process_video X fuel url new_job w in
  Call Publish ∈ history (frame_of r) →
  outcome_of r = Raise (Exn (HTTPException 500) ("Upload failed: " +:+ exn_msg e)) ∧
  ¬ init_error (outcome_of r) ∧
  (∃ dl_result ai_result edit_result,
     history (frame_of r)
     = [ Call Fetch; Return Fetch dl_result; Call Analyze; Return Analyze ai_result;
         Call Transcode; Return Transcode edit_result; Call Publish;
         Return Publish [ ("status", PStr "error"); ("message", PStr (exn_msg e)) ] ] ∧
     is_error dl_result = false ∧ is_error ai_result = false ∧
     is_error edit_result = false).
Proof.
  intros Href Hmedia r.
  generalize (eq_refl r); unfold r at 2; clearbody r.
  enter_endpoint.
  repeat (refused_step Hmedia Href; unfold dict_item, py_item, py_get; munfold; cbn).
  all: intros ->; cbn.
  all: intros Hin.
  all: try (exfalso; repeat (apply elem_of_cons in Hin as [Hin | Hin]; [ discriminate Hin | ]);
            by apply elem_of_nil in Hin).
  all: match goal with
       | H : eq_str (dict_get [ ("status", PStr "error"); _ ] "status") "error" = false |- _ =>
           discriminate H
       | _ => idtac
       end.
  assert (dict_get [ ("status", PStr "error"); ("message", PStr (exn_msg e)) ] "message"
          = PStr (exn_msg e)) as -> by reflexivity.
  unfold py_str.
  split; [ reflexivity | ]. split.
  - intros [msg Hm]. injection Hm as Hm. cbv [String.append] in Hm. discriminate Hm.
  - eexists _, _, _. unfold is_error. by repeat split.
Qed.

End Endpoint.

(** ** The endpoint of the earlier worker ([services/config.py], [process_video]) *)

Section LegacyEndpoint.
Context (X : Collaborators) (T : Legacy.Tools).

#[local] Arguments String.append : simpl never.
#[local] Arguments String.substring : simpl never.
#[local] Arguments eq_str : simpl never.

(** the loop changes nothing but the count of status requests *)
Lemma legacy_wait_keeps fuel f l w :
  ∃ o w', Legacy.wait_processing X fuel f l w = (o, l, w') ∧
          w_fs w' = w_fs w ∧ w_genai w' = w_genai w ∧ w_drive w' = w_drive w ∧
          w_environ w' = w_environ w ∧ w_protected w' = w_protected w.
Proof.
  revert f w. induction fuel as [ | fuel IH ]; intros f w;
    cbn [Legacy.wait_processing]; destruct (String.eqb (gf_state f) "PROCESSING");
    try (eexists _, _; (split; [ reflexivity | ]); by repeat split).
  unfold call, AIProcessor.genai_get. munfold. cbn.
  destruct (genai_get_file X (gf_name f) (w_polls w)) as [f' | e]; cbn.
  - destruct (IH f' (set_polls S w)) as (o & w' & -> & ? & ? & ? & ? & ?).
    eexists _, _. split; [ reflexivity | ]. by repeat split.
  - eexists _, _. split; [ reflexivity | ]. by repeat split.
Qed.

(** [upload_to_drive] comes back, and acts on the storage service only *)
Lemma upload_to_drive_keeps path name w :
  ∃ o w', Config.upload_to_drive X path name tt w = (o, tt, w') ∧ o ≠ Diverge ∧
          w_fs w' = w_fs w ∧ w_genai w' = w_genai w ∧ w_protected w' = w_protected w ∧
          (∀ e, service_account_build X = Err e → w_drive w' = w_drive w ∧ o = Raise e).
Proof.
  unfold Config.upload_to_drive. munfold. cbn.
  destruct (service_account_build X) as [[] | e]; cbn.
  2:{ eexists _, _. split; [ reflexivity | ]. split; [ discriminate | ].
      do 3 (split; [ reflexivity | ]). by intros e' [= <-]. }
  destruct (media_file_upload X path) as [[] | e]; cbn.
  2:{ eexists _, _. split; [ reflexivity | ]. split; [ discriminate | ].
      do 3 (split; [ reflexivity | ]). intros e' He. discriminate He. }
  destruct (drive_files_create X _ path) as [[id link] | e]; cbn.
  2:{ eexists _, _. split; [ reflexivity | ]. split; [ discriminate | ].
      do 3 (split; [ reflexivity | ]). intros e' He. discriminate He. }
  destruct (drive_permissions_create X _ _) as [[] | e]; cbn;
    eexists _, _; (split; [ reflexivity | ]); (split; [ discriminate | ]);
    do 3 (split; [ reflexivity | ]); intros e' He; discriminate He.
Qed.

(** one step along the body of the earlier endpoint *)
Ltac legacy_step :=
  match goal with
  | |- context [ Legacy.ydl_download ?T ?o ?u ?fs ] =>
      let H := fresh "Hdl" in
      destruct (Legacy.ydl_download T o u fs) as [[[] | ?] ?] eqn:H
  | |- context [ genai_upload_file ?X ?p ] =>
      let H := fresh "Hup" in
      destruct (genai_upload_file X p) as [? | ?] eqn:H
  | |- context [ Legacy.wait_processing ?X ?fuel ?f ?l ?w ] =>
      let o := fresh "o" in
      let F := fresh "Hwfs" in
      let G := fresh "Hwgenai" in
      let D := fresh "Hwdrive" in
      destruct (legacy_wait_keeps fuel f l w) as (o & ? & -> & F & G & D & ? & ?);
      destruct o as [ ? | ? | ]
  | |- context [ genai_generate_content ?X ?m ?f ?p ] =>
      destruct (genai_generate_content X m f p) as [? | ?]
  | |- context [ json_loads ?X ?t ] =>
      let d := fresh "data" in
      destruct (json_loads X t) as [d | ?]; [ destruct d | ]
  | |- context [ match dict_lookup ?d ?k with _ => _ end ] =>
      let E := fresh "Ekey" in
      destruct (dict_lookup d k) eqn:E
  | |- context [ if eq_str ?v ?s then _ else _ ] =>
      let E := fresh "Efocus" in
      destruct (eq_str v s) eqn:E
  | |- context [ Legacy.ffmpeg_run ?T ?g ?fs ] =>
      let H := fresh "Hrun" in
      destruct (Legacy.ffmpeg_run T g fs) as [[[] | ?] ?] eqn:H
  | |- context [ Config.upload_to_drive ?X ?p ?n ?l ?w ] =>
      let o := fresh "o" in
      let C := fresh "Hconv" in
      let L := fresh "Hlocked" in
      let F := fresh "Hufs" in
      let G := fresh "Hugenai" in
      destruct (upload_to_drive_keeps p n w) as (o & ? & -> & C & F & G & ? & L);
      destruct o as [ ? | ? | ]; [ | | by destruct C ]
  | |- context [ genai_delete_file ?X ?n ] =>
      let H := fresh "Hdel" in
      destruct (genai_delete_file X n) as [[] | ?] eqn:H
  | |- context [ match ?m !! ?k with _ => _ end ] =>
      let E := fresh "Efs" in
      destruct (m !! k) as [[] | ] eqn:E
  | |- context [ bool_decide ?P ] =>
      let E := fresh "Eprot" in
      destruct (bool_decide P) eqn:E
  end; cbn.

Ltac legacy_walk :=
  unfold Legacy.process_video, uuid4_str; munfold; cbn;
  repeat (legacy_step;
          unfold call, AIProcessor.genai_upload, AIProcessor.genai_delete,
            py_item, dict_item, os_remove;
          munfold; cbn).

(** X27: the earlier endpoint never raises: whatever fails inside it comes
    back as an error dictionary.  When a success dictionary comes back, the
    downloaded file and the cut are gone from local storage, the answer of
    the model was an object with [start], [duration] and [crop_focus], which
    comes back as [metadata], and exactly one stream was run: the download
    cut at [start] for [duration], cropped to [ih*(9/16)] by [ih] at the
    offset chosen by [crop_focus] ([left]: 0, [right]: [iw-ow], anything
    else: the centre), written to the cut. *)
Theorem legacy_success_cleans_up (fuel : nat) (url p : string)
    (l : list Legacy.stream) (w : World) :
  let r := Legacy.process_video X T fuel url p l w in
  (∀ e, outcome_of r ≠ Raise e) ∧
  (∀ d, outcome_of r = Ret d → is_error d = false →
        w_fs (world_of r) !! Legacy.raw_path X w = None ∧
        w_fs (world_of r) !! Legacy.final_path X w = None ∧
        ∃ link data ss t focus,
          d = [ ("status", PStr "success"); ("link", link); ("metadata", PDict data) ] ∧
          dict_lookup data "start" = Some ss ∧
          dict_lookup data "duration" = Some t ∧
          dict_lookup data "crop_focus" = Some focus ∧
          frame_of r = l ++ [ Legacy.stream_of X w ss t focus ]).
Proof.
  intros r. generalize (eq_refl r). unfold r at 2. clearbody r.
  legacy_walk.
  all: intros ->; cbn.
  all: (split; [ intros ? He; discriminate He | ]).
  all: intros resp Hd; try discriminate Hd; injection Hd as <-.
  all: intros Herr; try discriminate Herr.
  all: unfold Legacy.raw_path, Legacy.final_path, Legacy.job_id.
  all: split;
    [ match goal with
      | |- delete ?b (delete ?a _) !! ?a = None =>
          destruct (decide (a = b)) as [Heq | Hne];
          [ rewrite <- Heq; apply lookup_delete_eq
          | rewrite lookup_delete_ne by (intros Hba; by apply Hne); apply lookup_delete_eq ]
      end
    | split; [ apply lookup_delete_eq | ] ].
  all: eexists _, _, _, _, _; split; [ reflexivity | ]; do 3 (split; [ eassumption | ]).
  all: unfold Legacy.stream_of, Legacy.x_crop, Legacy.raw_path, Legacy.final_path,
         Legacy.job_id; rewrite ?Efocus, ?Efocus0; reflexivity.
Qed.

(** X28: the earlier endpoint cleans up nowhere but at the end of the success
    path.  With service-account credentials that the storage client refuses,
    no request succeeds, the storage service is left as it was, and nothing
    is removed: the inference service holds every file it held and the copy
    uploaded in the request, and local storage is exactly as the last tool
    that ran (the download or the cut) left it. *)
Theorem legacy_failed_publish_cleans_nothing (fuel : nat) (url p : string)
    (l : list Legacy.stream) (w : World) (e : exn) :
  service_account_build X = Err e →
  let r := Legacy.process_video X T fuel url p l w in
  let fetched := Legacy.ydl_download T (Legacy.ydl_opts X w) [ url ] (w_fs w) in
  (outcome_of r = Diverge ∨ ∃ d, outcome_of r = Ret d ∧ is_error d = true) ∧
  w_drive (world_of r) = w_drive w ∧
  w_genai w ⊆ w_genai (world_of r) ∧
  (∀ f, fetched.1 = Ok tt →
        genai_upload_file X (Legacy.raw_path X w) = Ok f →
        gf_name f ∈ w_genai (world_of r)) ∧
  (w_fs (world_of r) = fetched.2 ∨
   ∃ g, frame_of r = l ++ [ g ] ∧ w_fs (world_of r) = (Legacy.ffmpeg_run T g fetched.2).2).
Proof.
  intros He r fetched. subst fetched.
  unfold Legacy.ydl_opts, Legacy.raw_path, Legacy.job_id.
  generalize (eq_refl r). unfold r at 2. clearbody r.
  legacy_walk.
  all: intros ->; cbn.
  all: try (destruct (Hlocked _ He) as [_ Hbad]; discriminate Hbad).
  all: try (destruct (Hlocked _ He) as [Hudrive _]).
  all: cbn in *.
  all: (split; [ first [ by left | right; eexists; by split ] | ]).
  all: (split; [ congruence | ]).
  all: (split; [ rewrite ?Hugenai, ?Hwgenai; first [ reflexivity | apply union_subseteq_r ] | ]).
  all: (split; [ intros f Hok Hf; try discriminate Hok; try discriminate Hf;
                 injection Hf as <-; rewrite ?Hugenai, ?Hwgenai;
                 apply elem_of_union_l; by apply elem_of_singleton | ]).
  all: try (left; congruence).
  all: right; eexists; (split; [ reflexivity | ]).
  all: rewrite Hwfs in Hrun; rewrite Hrun; cbn; congruence.
Qed.

End LegacyEndpoint.

(** X29: the earlier worker asks for a crop of width [ih*(9/16)], which the
    media tool evaluates to nine sixteenths of the input height without any
    rounding: the value is an even whole number exactly when the height is a
    multiple of 32 (for 1080 it is 607.5). *)
Theorem legacy_crop_width_unrounded (iw ih : Z) :
  show_fexpr Legacy.crop_width_expr = "ih*(9/16)" ∧
  ∃ q, feval (crop_env iw ih None) Legacy.crop_width_expr = Some q ∧
       Qeq q (9 * ih # 16) ∧
       ((∃ z, Qeq q (inject_Z z) ∧ Z.even z = true) ↔ ih mod 32 = 0).
Proof.
  split; [ reflexivity | ].
  unfold Legacy.crop_width_expr. cbn [feval]. unfold crop_env.
  cbn [String.eqb Ascii.eqb Bool.eqb mbind option_bind].
  change (Qeq_bool (inject_Z 16) 0%Q) with false. cbv iota.
  eexists. split; [ reflexivity | ].
  assert (Qeq (Qred (inject_Z ih * Qred (inject_Z 9 / inject_Z 16))) (9 * ih # 16)) as Hq.
  { rewrite !Qred_correct. unfold Qeq, Qdiv, Qmult, Qinv, inject_Z. cbn. lia. }
  split; [ exact Hq | ]. split.
  - intros (z & Hz & Heven). rewrite Hq in Hz. unfold Qeq, inject_Z in Hz.
    cbn [Qnum Qden] in Hz.
    apply Z.even_spec in Heven as [k ->].
    apply Z.mod_divide; [ lia | ]. exists (25 * k - 7 * ih). lia.
  - intros Hmod. exists (18 * (ih / 32)). split.
    + rewrite Hq. unfold Qeq, inject_Z. cbn [Qnum Qden]. pose proof (Z.div_mod ih 32 ltac:(lia)). lia.
    + rewrite Z.even_mul. reflexivity.
Qed.

(** ** Runs of the further properties on sample collaborators *)

Lemma scenario_paths_entries : Forall path_entry Scenario.paths.
Proof.
  repeat apply Forall_cons_2; try apply Forall_nil_2; first [ by left | right; eauto ].
Defined.

Lemma cleanup_removes_listed_files_witness :
  Forall path_entry Scenario.paths ∧
  w_fs (world_of (Main.cleanup_files Sample.ready Scenario.paths tt Sample.used))
    !! "downloads/job0.mp4" = None.
Proof.
  split; [ exact scenario_paths_entries | ].
  apply (proj1 (cleanup_removes_listed_files Sample.ready Scenario.paths Sample.used
                  scenario_paths_entries)).
  - apply list_elem_of_further, list_elem_of_here.
  - split; [ discriminate | ]. split; [ vm_compute; reflexivity | ].
    cbn. apply not_elem_of_empty.
Defined.

Lemma cleanup_files_twice_witness :
  Forall path_entry Scenario.paths ∧
  w_fs (world_of (Main.cleanup_files Sample.ready Scenario.paths tt
                    (world_of (Main.cleanup_files Sample.ready Scenario.paths tt Sample.used))))
  = w_fs (world_of (Main.cleanup_files Sample.ready Scenario.paths tt Sample.used)).
Proof.
  split; [ exact scenario_paths_entries | ].
  exact (cleanup_files_twice Sample.ready Scenario.paths Sample.used scenario_paths_entries).
Defined.

Lemma upload_file_waits_witness :
  outcome_of (AIProcessor.upload_file Scenario.slow 5 Sample.ai_processor
                (PStr "downloads/job0.mp4") tt Sample.used)
  = Ret (GenaiFile "files/abc" "ACTIVE") ∧
  w_polls (world_of (AIProcessor.upload_file Scenario.slow 5 Sample.ai_processor
                       (PStr "downloads/job0.mp4") tt Sample.used)) = 3%nat.
Proof.
  destruct (upload_file_waits Scenario.slow Sample.ai_processor "downloads/job0.mp4"
              "files/abc" "ACTIVE" 2 5 Sample.used) as (Hout & Hpolls & _).
  - reflexivity.
  - intros i Hi. destruct i as [ | [ | i ] ]; [ reflexivity | reflexivity | lia ].
  - reflexivity.
  - discriminate.
  - lia.
  - split; [ exact Hout | exact Hpolls ].
Defined.

Lemma analysis_never_returns_witness :
  outcome_of (AIProcessor.get_timestamps Scenario.stalled 1000 Sample.ai_processor
                (PStr "downloads/job0.mp4") None Sample.used) = Diverge.
Proof.
  apply (analysis_never_returns Scenario.stalled Sample.ai_processor "downloads/job0.mp4"
           "files/abc" 1000 None Sample.used).
  - reflexivity.
  - intros n. reflexivity.
Defined.

Lemma every_failure_is_http_500_witness :
  ∃ e, outcome_of (Main.process_video Sample.unavailable 5 Sample.url new_job Sample.fresh)
       = Raise e ∧
       exn_class e = HTTPException 500.
Proof.
  eexists. split; [ vm_compute; reflexivity | ].
  apply (every_failure_is_http_500 Sample.unavailable 5 Sample.url new_job Sample.fresh).
  vm_compute. reflexivity.
Defined.

Lemma stage_error_is_tagged_witness :
  outcome_of (Main.process_video Sample.rejecting 5 Sample.url new_job Sample.fresh)
  = Raise (Exn (HTTPException 500)
             "AI Analysis failed: Video processing failed on Google servers.").
Proof.
  apply (λ Hh Herr, proj2 (stage_error_is_tagged Sample.rejecting 5 Sample.url Sample.fresh
           [ Call Fetch;
             Return Fetch [ ("status", PStr "success"); ("file_path", PStr "downloads/job0.mp4");
                            ("title", PStr "A talk"); ("duration", PInt 600);
                            ("video_id", PStr "v1") ];
             Call Analyze ]
           [] Analyze
           [ ("status", PStr "error");
             ("message", PStr "Video processing failed on Google servers.") ] Hh Herr)).
  - vm_compute. reflexivity.
  - reflexivity.
Defined.

Lemma stalled_analysis_hangs_request_witness :
  Call Analyze
  ∈ history (frame_of (Main.process_video Scenario.stalled 50 Sample.url new_job Sample.fresh)) ∧
  outcome_of (Main.process_video Scenario.stalled 50 Sample.url new_job Sample.fresh) = Diverge ∧
  background_tasks
    (frame_of (Main.process_video Scenario.stalled 50 Sample.url new_job Sample.fresh)) = [] ∧
  "files/abc"
  ∈ w_genai (world_of (Main.process_video Scenario.stalled 50 Sample.url new_job Sample.fresh)).
Proof.
  assert (Call Analyze
          ∈ history (frame_of (Main.process_video Scenario.stalled 50 Sample.url
                                 new_job Sample.fresh))) as Hin
    by (vm_compute; do 2 apply list_elem_of_further; apply list_elem_of_here).
  split; [ exact Hin | ].
  destruct (stalled_analysis_hangs_request Scenario.stalled 50 Sample.url "files/abc"
              Sample.fresh (λ _, eq_refl) (λ _, eq_refl) Hin)
    as (Hhang & _ & Htasks & Hheld).
  split; [ exact Hhang | ]. split; [ exact Htasks | exact Hheld ].
Defined.

Lemma failed_job_is_never_cleaned_witness :
  App.response (App.post_process_video Sample.rejecting 5 Sample.url Sample.fresh).1
  = Raise (Exn (HTTPException 500)
             "AI Analysis failed: Video processing failed on Google servers.") ∧
  background_tasks
    (frame_of (Main.process_video Sample.rejecting 5 Sample.url new_job Sample.fresh))
  = [ CleanupFiles [ PStr "downloads/job0.mp4"; PNone ] ] ∧
  App.tasks_run (App.post_process_video Sample.rejecting 5 Sample.url Sample.fresh).1 = [] ∧
  w_fs (App.post_process_video Sample.rejecting 5 Sample.url Sample.fresh).2
    !! "downloads/job0.mp4" = Some File.
Proof.
  destruct (proj1 (failed_job_is_never_cleaned Sample.rejecting 5 Sample.url Sample.fresh)
              (Exn (HTTPException 500)
                 "AI Analysis failed: Video processing failed on Google servers."))
    as (Hresp & Hreg & _ & Hrun & Hworld).
  { vm_compute. reflexivity. }
  split; [ exact Hresp | ]. split; [ | split; [ exact Hrun | ] ].
  - rewrite Hreg; [ vm_compute; reflexivity | vm_compute; discriminate ].
  - rewrite Hworld. vm_compute. reflexivity.
Defined.

Lemma refused_credentials_fail_at_publish_witness :
  credentials_refused Sample.revoked
    (Exn Exception "('invalid_grant: Token has been expired or revoked.')") ∧
  outcome_of (DriveUploader.__init__ Sample.revoked tt Sample.fresh) = Ret Sample.uploader ∧
  outcome_of (Main.process_video Sample.revoked 5 Sample.url new_job Sample.fresh)
  = Raise (Exn (HTTPException 500)
             "Upload failed: ('invalid_grant: Token has been expired or revoked.')") ∧
  ¬ init_error
      (outcome_of (Main.process_video Sample.revoked 5 Sample.url new_job Sample.fresh)).
Proof.
  assert (credentials_refused Sample.revoked
            (Exn Exception "('invalid_grant: Token has been expired or revoked.')")) as Href
    by (intros body path; reflexivity).
  split; [ exact Href | ]. split; [ vm_compute; reflexivity | ].
  destruct (refused_credentials_fail_at_publish Sample.revoked 5 Sample.url Sample.fresh
              _ Href (λ _, eq_refl)) as (Hout & Hnot & _).
  { vm_compute. do 6 apply list_elem_of_further. apply list_elem_of_here. }
  split; [ exact Hout | exact Hnot ].
Defined.

Lemma remote_untouched_before_analysis_witness :
  w_genai (world_of (Main.process_video Sample.unavailable 5 Sample.url new_job Sample.fresh))
  = ∅ ∧
  w_drive (world_of (Main.process_video Sample.unavailable 5 Sample.url new_job Sample.fresh))
  = ∅.
Proof.
  destruct (remote_untouched_before_analysis Sample.unavailable 5 Sample.url Sample.fresh)
    as (Hgenai & Hdrive).
  - assert (history (frame_of (Main.process_video Sample.unavailable 5 Sample.url
                                 new_job Sample.fresh))
            = [ Call Fetch;
                Return Fetch [ ("status", PStr "error");
                               ("message", PStr "Video unavailable") ] ]) as ->
      by (vm_compute; reflexivity).
    intros Hin.
    repeat (apply elem_of_cons in Hin as [Hin | Hin]; [ discriminate Hin | ]).
    by apply elem_of_nil in Hin.
  - split; [ exact Hgenai | exact Hdrive ].
Defined.

Lemma missing_timestamp_key_witness :
  outcome_of (Main.process_video Scenario.terse 5 Sample.url new_job Sample.fresh)
  = Raise (Exn (HTTPException 500) "'end_time'") ∧
  background_tasks
    (frame_of (Main.process_video Scenario.terse 5 Sample.url new_job Sample.fresh))
  = [ CleanupFiles [ PStr "downloads/job0.mp4"; PNone ] ].
Proof.
  destruct (missing_timestamp_key Scenario.terse 5 Sample.url Sample.fresh
              [ ("status", PStr "success"); ("file_path", PStr "downloads/job0.mp4");
                ("title", PStr "A talk"); ("duration", PInt 600); ("video_id", PStr "v1") ]
              [ ("status", PStr "success");
                ("data", PDict [ ("start_time", PStr "00:01:00") ]) ]
              [ ("start_time", PStr "00:01:00") ] [])
    as (_ & _ & Htasks & _).
  - vm_compute. reflexivity.
  - reflexivity.
  - reflexivity.
  - right. reflexivity.
  - split; [ vm_compute; reflexivity | ].
    rewrite Htasks. vm_compute. reflexivity.
Defined.


Lemma analysis_deletes_remote_copy_witness :
  "files/abc" ∉ w_genai (world_of (AIProcessor.get_timestamps Sample.ready 5
                                      Sample.ai_processor (PStr "downloads/job0.mp4")
                                      None Sample.used)).
Proof.
  apply (analysis_deletes_remote_copy Sample.ready 5 Sample.ai_processor
           (PStr "downloads/job0.mp4") None Sample.used
           (world_of (AIProcessor.upload_file Sample.ready 5 Sample.ai_processor
                        (PStr "downloads/job0.mp4") tt Sample.used))
           (GenaiFile "files/abc" "ACTIVE")).
  - vm_compute. reflexivity.
  - reflexivity.
Defined.

Lemma analysis_raises_iff_delete_fails_witness :
  ∃ f, frame_of (AIProcessor.get_timestamps Scenario.sticky 5 Sample.ai_processor
                   (PStr "downloads/job0.mp4") None Sample.used) = Some f ∧
       genai_delete_file Scenario.sticky (gf_name f) = Err (Exn Exception "403 Forbidden").
Proof.
  apply (proj1 (analysis_raises_iff_delete_fails Scenario.sticky 5 Sample.ai_processor
                  (PStr "downloads/job0.mp4") None Sample.used
                  (Exn Exception "403 Forbidden"))).
  vm_compute. reflexivity.
Defined.

Lemma probe_reads_first_stream_witness :
  outcome_of (VideoEditor.get_video_info Sample.ready Sample.editor
                (PStr "downloads/job0.mp4") tt Sample.used) = Ret (1920, 1080).
Proof.
  rewrite (probe_reads_first_stream Sample.ready Sample.editor "downloads/job0.mp4" "probe"
             Sample.used (w_fs Sample.used)
             [ ("streams", PList [ PDict [ ("width", PInt 1920); ("height", PInt 1080) ] ]) ]
             [ ("width", PInt 1920); ("height", PInt 1080) ] [] 1920 1080
             eq_refl eq_refl eq_refl eq_refl eq_refl).
  reflexivity.
Defined.

Lemma probe_failure_stops_transcode_witness :
  outcome_of (VideoEditor.process_video Scenario.no_probe Sample.editor
                (PStr "downloads/job0.mp4") (PStr "00:00:10") (PStr "00:01:20") tt Sample.used)
  = Ret [ ("status", PStr "error");
          ("message", PStr "Video processing failed during encoding.") ] ∧
  w_spawned (world_of (VideoEditor.process_video Scenario.no_probe Sample.editor
                         (PStr "downloads/job0.mp4") (PStr "00:00:10") (PStr "00:01:20")
                         tt Sample.used))
  = [ ffprobe_cmd "downloads/job0.mp4" ].
Proof.
  destruct (probe_failure_stops_transcode Scenario.no_probe Sample.editor
              "downloads/job0.mp4" (PStr "00:00:10") (PStr "00:01:20") Sample.used
              (world_of (VideoEditor.get_video_info Scenario.no_probe Sample.editor
                           (PStr "downloads/job0.mp4") tt (set_uuids S Sample.used)))
              (Exn CalledProcessError "Command 'ffprobe' returned non-zero exit status 1."))
    as (Hout & Hspawned & _).
  - vm_compute. reflexivity.
  - split; [ exact Hout | exact Hspawned ].
Defined.

Lemma no_video_stream_witness :
  outcome_of (VideoEditor.process_video Scenario.audio_only Sample.editor
                (PStr "downloads/job0.mp4") (PStr "00:00:10") (PStr "00:01:20") tt Sample.used)
  = Ret [ ("status", PStr "error"); ("message", PStr "list index out of range") ].
Proof.
  apply (no_video_stream Scenario.audio_only Sample.editor "downloads/job0.mp4" "probe"
           (PStr "00:00:10") (PStr "00:01:20") Sample.used (w_fs Sample.used)
           [ ("streams", PList []) ] eq_refl eq_refl eq_refl).
Defined.

Lemma transcode_success_leaves_output_witness :
  is_Some (w_fs (world_of (VideoEditor.process_video Sample.ready Sample.editor
                             (PStr "downloads/job0.mp4") (PStr "00:00:10") (PStr "00:01:20")
                             tt Sample.used))
           !! "processed/job0_short.mp4").
Proof.
  destruct (transcode_success_leaves_output Sample.ready Sample.editor
              (PStr "downloads/job0.mp4") (PStr "00:00:10") (PStr "00:01:20") Sample.used)
    as (d & Hd & Hok).
  vm_compute in Hd. injection Hd as <-.
  exact (proj2 (Hok eq_refl)).
Defined.


Lemma upload_stores_titled_object_witness :
  ∃ body,
    w_drive (world_of (DriveUploader.upload_file Sample.ready Scenario.filing
                         (PStr "processed/job1_short.mp4") (PStr "A talk") tt Sample.used))
    = <[ "id1" := DriveObject body [] ]> ∅ ∧
    dict_lookup body "name" = Some (PStr "A talk #Shorts") ∧
    dict_lookup body "parents" = Some (PList [ PStr "folder1" ]).
Proof.
  destruct (upload_stores_titled_object Sample.ready Scenario.filing
              "processed/job1_short.mp4" "A talk" Sample.used
              [ ("status", PStr "success"); ("file_id", PStr "id1");
                ("drive_link", PStr "https://drive.example/id1") ])
    as (id & link & body & Hd & _ & (Hname & _ & Hparents) & Hdrive).
  - vm_compute. reflexivity.
  - reflexivity.
  - injection Hd as <- <-. exists body.
    split; [ exact Hdrive | ]. split; [ exact Hname | exact Hparents ].
Defined.

Lemma uploader_init_returns_iff_witness :
  outcome_of (DriveUploader.__init__ Sample.ready tt Sample.fresh) = Ret Sample.uploader.
Proof.
  apply (proj2 (proj2 (uploader_init_returns_iff Sample.ready Sample.fresh))).
  split; [ | reflexivity ].
  unfold no_oauth. vm_compute. discriminate.
Defined.

Lemma stage_init_makes_directory_witness :
  is_Some (w_fs (world_of (VideoDownloader.__init__ Sample.ready "downloads" tt Sample.fresh))
           !! "downloads").
Proof.
  destruct (stage_init_makes_directory Sample.ready "downloads" Sample.fresh
              ltac:(discriminate) eq_refl)
    as (_ & [(_ & _ & Hdir & _) | (_ & Hnone & Hprot & _)]).
  - exact Hdir.
  - cbn in Hprot. by apply not_elem_of_empty in Hprot.
Defined.

Lemma legacy_upload_leaves_private_orphan_witness :
  outcome_of (Config.upload_to_drive Scenario.private_only "processed/job1_short.mp4"
                "Short_job1.mp4" tt Sample.used)
  = Raise (Exn Exception "403 Forbidden") ∧
  ∃ o, w_drive (world_of (Config.upload_to_drive Scenario.private_only
                            "processed/job1_short.mp4" "Short_job1.mp4" tt Sample.used))
       !! "id1" = Some o ∧ public_readable o = false.
Proof.
  destruct (legacy_upload_leaves_private_orphan Scenario.private_only
              "processed/job1_short.mp4" "Short_job1.mp4" "id1" "https://drive.example/id1"
              Sample.used (Exn Exception "403 Forbidden") eq_refl eq_refl eq_refl eq_refl)
    as (Hout & Hdrive & Hprivate).
  split; [ exact Hout | ].
  eexists. split; [ rewrite Hdrive; apply lookup_insert_eq | reflexivity ].
Defined.

Lemma publish_finds_the_cut_witness :
  ∃ d, last (history (frame_of (Main.process_video Sample.ready 5 Sample.url
                                  new_job Sample.fresh)))
       = Some (Return Publish d) ∧
       is_error d = false.
Proof.
  destruct (publish_finds_the_cut Sample.ready 5 Sample.url Sample.fresh) as (d & Hd).
  - assert (∃ h d, history (frame_of (Main.process_video Sample.ready 5 Sample.url
                                        new_job Sample.fresh))
                   = h ++ [ Call Publish; Return Publish d ]) as (h & d & ->).
    { eexists (_ :: _ :: _ :: _ :: _ :: _ :: []), _. vm_compute. reflexivity. }
    apply elem_of_app. right. apply list_elem_of_here.
  - exists d. split; [ exact Hd | ].
    vm_compute in Hd. injection Hd as <-. reflexivity.
Defined.

Lemma legacy_success_cleans_up_witness :
  outcome_of (Legacy.process_video Legacy.answering Legacy.sample_tools 5 Sample.url
                "Find the most viral 30-60s segment." [] Sample.fresh)
  = Ret [ ("status", PStr "success"); ("link", PStr "https://drive.example/id1");
          ("metadata", Legacy.sample_answer) ] ∧
  w_fs (world_of (Legacy.process_video Legacy.answering Legacy.sample_tools 5 Sample.url
                    "Find the most viral 30-60s segment." [] Sample.fresh))
    !! "/tmp/job0_raw.mp4" = None.
Proof.
  assert (outcome_of (Legacy.process_video Legacy.answering Legacy.sample_tools 5 Sample.url
                        "Find the most viral 30-60s segment." [] Sample.fresh)
          = Ret [ ("status", PStr "success"); ("link", PStr "https://drive.example/id1");
                  ("metadata", Legacy.sample_answer) ]) as Hout
    by (vm_compute; reflexivity).
  split; [ exact Hout | ].
  exact (proj1 (proj2 (legacy_success_cleans_up Legacy.answering Legacy.sample_tools 5
                         Sample.url "Find the most viral 30-60s segment." [] Sample.fresh)
                  _ Hout eq_refl)).
Defined.

Lemma legacy_failed_publish_cleans_nothing_witness :
  "files/abc" ∈ w_genai (world_of (Legacy.process_video Legacy.locked_out Legacy.sample_tools
                                     5 Sample.url "Find the most viral 30-60s segment."
                                     [] Sample.fresh)) ∧
  w_fs (world_of (Legacy.process_video Legacy.locked_out Legacy.sample_tools 5 Sample.url
                    "Find the most viral 30-60s segment." [] Sample.fresh))
    !! "/tmp/job0_raw.mp4" = Some File.
Proof.
  destruct (legacy_failed_publish_cleans_nothing Legacy.locked_out Legacy.sample_tools 5
              Sample.url "Find the most viral 30-60s segment." [] Sample.fresh
              (Exn ValueError "Service account info was not in the expected format") eq_refl)
    as (_ & _ & _ & Hheld & _).
  split.
  - apply (Hheld (GenaiFile "files/abc" "ACTIVE")); reflexivity.
  - vm_compute. reflexivity.
Defined.

Lemma legacy_crop_width_unrounded_witness :
  ¬ ∃ z, Qeq (1215 # 2) (inject_Z z) ∧ Z.even z = true.
Proof.
  destruct (legacy_crop_width_unrounded 1920 1080) as (_ & q & Hq & _ & Hiff).
  vm_compute in Hq. injection Hq as <-.
  intros Hex. apply Hiff in Hex. vm_compute in Hex. discriminate Hex.
Defined.

Lemma original_title_is_fetched_witness :
  ∃ resp,
    outcome_of (Main.process_video Sample.ready 5 Sample.url new_job Sample.fresh) = Ret resp ∧
    dict_lookup resp "original_video" = Some (PStr "A talk").
Proof.
  eexists. split; [ vm_compute; reflexivity | ].
  destruct (original_title_is_fetched Sample.ready 5 Sample.url Sample.fresh _ eq_refl)
    as (dl & title & Hdl & Htitle & Hresp).
  vm_compute in Hdl. injection Hdl as <-.
  vm_compute in Htitle. injection Htitle as <-.
  exact Hresp.
Defined.

